(** * PicoOS Config Manager: a shallow embedding of [config.py]

    The development follows the structure of the Python source:

    - [PyStr]: the [str] methods the source calls ([strip], [split],
      [startswith], [splitlines], ...), over lists of characters;
    - [PyNum]: [int(...)], [float(...)] and [str(...)] on numbers;
    - [Config]: the class [Config] itself: the value codec
      ([_convert_value], [_parse_inline_dict], [_value_to_string]), the
      line predicates ([_isClass], ...), the document builder ([_newClass],
      [_newSubClass], [_newProperty], [_parse]), the serializer ([_save])
      and the path accessors ([get], [set]).

    Modelling conventions.

    - A Python [str] is a list of characters; the character classes
      (white space, digits, line boundaries, case) are Python's on the
      ASCII range, and characters above it are ordinary characters.
    - A Python [dict] is an association list in insertion order with
      pairwise distinct keys, a [set] of strings is a duplicate-free list.
    - A Python [int] is a [Z].  A Python [float] is the decimal number its
      literal denotes (sign, mantissa, power of ten) or an infinity or a
      NaN; rounding to binary64 is not modelled.
    - A call that can raise returns a [result]; the exceptions are those
      the interpreter raises at that point of the source.  The decoder is
      modelled on ASCII text, where [int] accepts what [isdigit] accepts;
      limits of the interpreter (the length of a run of digits, the depth
      of the stack) are not modelled.
    - The document is a tree: a mapping stands at one place.  The source
      stores and returns references, so a caller who passes to [set] a
      mapping that [get] returned makes two paths share it; statements
      that depend on it say [unshared]. *)

From Stdlib Require Import List Ascii ZArith NArith QArith Lia Bool.
From Stdlib Require Import DecimalN.
From Stdlib Require String.
Import ListNotations String.StringSyntax.
Set Warnings "-register-all".

Definition str := list ascii.
Coercion String.list_ascii_of_string : String.string >-> list.
Close Scope Q_scope.
Open Scope string_scope.
Open Scope list_scope.

(* ================================================================== *)
(** ** Python strings *)

Module PyStr.

Definition dq : ascii := "034"%char.   (* the double quote *)
Definition sq : ascii := "039"%char.   (* the single quote *)
Definition nl : ascii := "010"%char.   (* line feed *)
Definition cr : ascii := "013"%char.   (* carriage return *)

Definition eqb (a b : str) : bool :=
  if list_eq_dec ascii_dec a b then true else false.

(** [c.isspace()] on the ASCII range: TAB, LF, VT, FF, CR, FS, GS, RS, US
    and the space. *)
Definition is_space (c : ascii) : bool :=
  let n := nat_of_ascii c in
  (((9 <=? n) && (n <=? 13)) || ((28 <=? n) && (n <=? 32)))%nat.

(** The line boundaries of [str.splitlines] on the ASCII range. *)
Definition is_linebreak (c : ascii) : bool :=
  let n := nat_of_ascii c in
  (((10 <=? n) && (n <=? 13)) || ((28 <=? n) && (n <=? 30)))%nat.

Definition is_digit (c : ascii) : bool :=
  let n := nat_of_ascii c in ((48 <=? n) && (n <=? 57))%nat.

Definition lower_char (c : ascii) : ascii :=
  let n := nat_of_ascii c in
  if ((65 <=? n) && (n <=? 90))%nat then ascii_of_nat (n + 32) else c.

(** [s.lower()] *)
Definition lower (s : str) : str := map lower_char s.

(** [s.isdigit()]: non-empty and made of digits only. *)
Definition isdigit (s : str) : bool :=
  match s with
  | [] => false
  | _ => forallb is_digit s
  end.

(** [s.startswith(p)] *)
Fixpoint startswith (p s : str) : bool :=
  match p, s with
  | [], _ => true
  | _ :: _, [] => false
  | a :: p', b :: s' => Ascii.eqb a b && startswith p' s'
  end.

(** [s.endswith(p)] *)
Definition endswith (p s : str) : bool := startswith (rev p) (rev s).

(** [c in s] for a one-character string [c]. *)
Definition contains (c : ascii) (s : str) : bool := existsb (Ascii.eqb c) s.

Fixpoint dropwhile (p : ascii -> bool) (s : str) : str :=
  match s with
  | [] => []
  | c :: s' => if p c then dropwhile p s' else s
  end.

Definition strip_by (p : ascii -> bool) (s : str) : str :=
  rev (dropwhile p (rev (dropwhile p s))).

(** [s.strip()] *)
Definition strip (s : str) : str := strip_by is_space s.

(** [s.strip(c)] for a one-character string [c]. *)
Definition strip_char (c : ascii) (s : str) : str := strip_by (Ascii.eqb c) s.

(** [s[1:-1]] *)
Definition slice_1_m1 (s : str) : str := removelast (tl s).

(** [s.split(c)] for a one-character separator. *)
Fixpoint split (c : ascii) (s : str) : list str :=
  match s with
  | [] => [[]]
  | x :: s' =>
      if Ascii.eqb x c then [] :: split c s'
      else match split c s' with
           | [] => [[x]]
           | h :: t => (x :: h) :: t
           end
  end.

(** [s.split(c, 1)] for a one-character separator. *)
Fixpoint split1 (c : ascii) (s : str) : list str :=
  match s with
  | [] => [[]]
  | x :: s' =>
      if Ascii.eqb x c then [[]; s']
      else match split1 c s' with
           | [] => [[x]]
           | h :: t => (x :: h) :: t
           end
  end.

(** [sep.join(l)] *)
Fixpoint join (sep : str) (l : list str) : str :=
  match l with
  | [] => []
  | [x] => x
  | x :: l' => x ++ sep ++ join sep l'
  end.

(** [s.splitlines()]: [skip_lf] records that the previous character was a
    carriage return, whose following line feed belongs to the same
    boundary. *)
Fixpoint splitlines_from (skip_lf : bool) (s : str) : list str :=
  match s with
  | [] => []
  | c :: s' =>
      if skip_lf && Ascii.eqb c nl then splitlines_from false s'
      else if is_linebreak c then [] :: splitlines_from (Ascii.eqb c cr) s'
      else match splitlines_from false s' with
           | [] => [[c]]
           | l :: ls => (c :: l) :: ls
           end
  end.

Definition splitlines (s : str) : list str := splitlines_from false s.

End PyStr.

(* ================================================================== *)
(** ** Python numbers: [int(s)], [float(s)], [str(n)] *)

Module PyNum.
Import PyStr.

(** *** Decimal digits *)

Definition digit_of_char (c : ascii) : N := N.of_nat (nat_of_ascii c - 48).

Definition char_of_digit (d : N) : ascii := ascii_of_nat (48 + N.to_nat d).

(** The number written by a string of digits, most significant first. *)
Definition N_of_digits (s : str) : N :=
  fold_left (fun acc c => (10 * acc + digit_of_char c)%N) s 0%N.

Fixpoint chars_of_uint (d : Decimal.uint) : str :=
  match d with
  | Decimal.Nil => []
  | Decimal.D0 d => "0"%char :: chars_of_uint d
  | Decimal.D1 d => "1"%char :: chars_of_uint d
  | Decimal.D2 d => "2"%char :: chars_of_uint d
  | Decimal.D3 d => "3"%char :: chars_of_uint d
  | Decimal.D4 d => "4"%char :: chars_of_uint d
  | Decimal.D5 d => "5"%char :: chars_of_uint d
  | Decimal.D6 d => "6"%char :: chars_of_uint d
  | Decimal.D7 d => "7"%char :: chars_of_uint d
  | Decimal.D8 d => "8"%char :: chars_of_uint d
  | Decimal.D9 d => "9"%char :: chars_of_uint d
  end.

(** The decimal digits of a natural number, ["0"] for zero. *)
Definition digits_of_N (n : N) : str := chars_of_uint (N.to_uint n).

(** [int(s)] for a string [s] that passed [s.isdigit()]. *)
Definition int_of_str (s : str) : Z := Z.of_N (N_of_digits s).

(** [str(z)] for an [int]. *)
Definition str_of_int (z : Z) : str :=
  match z with
  | Zneg p => "-"%char :: digits_of_N (Npos p)
  | _ => digits_of_N (Z.to_N z)
  end.

(** *** Floats *)

(** [FFin neg m e] is [(-1)^neg * m * 10^e]; the parser returns it with
    [m] not a multiple of ten, and [e = 0] when [m = 0]. *)
Inductive pyfloat : Type :=
| FFin (neg : bool) (m : N) (e : Z)
| FInf (neg : bool)
| FNaN.

Definition pow10 (e : Z) : Q :=
  match e with
  | Zneg p => 1 # (10 ^ p)
  | _ => inject_Z (10 ^ e)
  end.

(** The number a finite float stands for. *)
Definition float_value (f : pyfloat) : option Q :=
  match f with
  | FFin neg m e =>
      let a := (inject_Z (Z.of_N m) * pow10 e)%Q in
      Some (if neg then (- a)%Q else a)
  | _ => None
  end.

(** [digitpart ::= digit (["_"] digit)*]: the longest such prefix of [s],
    without its underscores, and the rest of [s]. *)
Fixpoint digitpart (s : str) : str * str :=
  match s with
  | [] => ([], [])
  | c :: s' =>
      if is_digit c then
        match s' with
        | u :: s'' =>
            if Ascii.eqb u "_" && match s'' with d :: _ => is_digit d | [] => false end
            then let (ds, r) := digitpart s'' in (c :: ds, r)
            else let (ds, r) := digitpart s' in (c :: ds, r)
        | [] => ([c], [])
        end
      else ([], s)
  end.

Definition read_sign (s : str) : bool * str :=
  match s with
  | c :: s' =>
      if Ascii.eqb c "-" then (true, s')
      else if Ascii.eqb c "+" then (false, s')
      else (false, s)
  | [] => (false, [])
  end.

(** [exponent ::= ("e" | "E") [sign] digitpart], up to the end of the
    string; no exponent is the exponent zero. *)
Definition read_exponent (s : str) : option Z :=
  match s with
  | [] => Some 0%Z
  | c :: s' =>
      if Ascii.eqb (lower_char c) "e" then
        let (neg, s1) := read_sign s' in
        let (ds, r) := digitpart s1 in
        match ds, r with
        | _ :: _, [] =>
            let x := Z.of_N (N_of_digits ds) in
            Some (if neg then (- x)%Z else x)
        | _, _ => None
        end
      else None
  end.

Fixpoint count_leading_zeros (s : str) : nat :=
  match s with
  | c :: s' => if Ascii.eqb c "0" then S (count_leading_zeros s') else 0
  | [] => 0
  end.

(** The float written by the digits [ds] scaled by [10^e]; trailing zeros
    of [ds] move into the exponent. *)
Definition mk_float (neg : bool) (ds : str) (e : Z) : pyfloat :=
  let k := count_leading_zeros (rev ds) in
  let m := N_of_digits (firstn (length ds - k) ds) in
  if N.eqb m 0 then FFin neg 0 0
  else FFin neg m (e + Z.of_nat k).

(** [number ::= [digitpart] "." digitpart | digitpart ["."]], then the
    optional exponent. *)
Definition read_number (neg : bool) (s : str) : option pyfloat :=
  let (ip, r1) := digitpart s in
  let (fp, r2) :=
    match r1 with
    | c :: r => if Ascii.eqb c "." then digitpart r else ([], r1)
    | [] => ([], [])
    end in
  match ip ++ fp with
  | [] => None
  | ds =>
      match read_exponent r2 with
      | Some x => Some (mk_float neg ds (x - Z.of_nat (length fp)))
      | None => None
      end
  end.

(** [float(s)]: [None] stands for [ValueError]. *)
Definition float_of_str (s : str) : option pyfloat :=
  let (neg, body) := read_sign (strip s) in
  let l := lower body in
  if PyStr.eqb l "inf" || PyStr.eqb l "infinity" then Some (FInf neg)
  else if PyStr.eqb l "nan" then Some FNaN
  else read_number neg body.

(** [str(f)] for a [float]: the digits of the mantissa placed by the
    decimal point position [decpt]; positional notation when
    [-4 < decpt <= 16], exponent notation otherwise. *)
Definition pad2 (s : str) : str :=
  match s with
  | [c] => ["0"%char; c]
  | _ => s
  end.

Definition repr_finite (m : N) (e : Z) : str :=
  let ds := digits_of_N m in
  let n := Z.of_nat (length ds) in
  let decpt := (n + e)%Z in
  if N.eqb m 0 then "0.0"
  else if ((-4 <? decpt) && (decpt <=? 16))%Z then
    if (decpt <=? 0)%Z then
      "0." ++ repeat "0"%char (Z.to_nat (- decpt)) ++ ds
    else if (n <=? decpt)%Z then
      ds ++ repeat "0"%char (Z.to_nat (decpt - n)) ++ ".0"
    else
      firstn (Z.to_nat decpt) ds ++ "." ++ skipn (Z.to_nat decpt) ds
  else
    let x := (decpt - 1)%Z in
    firstn 1 ds
      ++ match skipn 1 ds with [] => [] | r => "."%char :: r end
      ++ "e" ++ (if (x <? 0)%Z then "-" else "+")
      ++ pad2 (digits_of_N (Z.abs_N x)).

Definition str_of_float (f : pyfloat) : str :=
  match f with
  | FFin neg m e => (if neg then "-" else "") ++ repr_finite m e
  | FInf neg => if neg then "-inf" else "inf"
  | FNaN => "nan"
  end.

End PyNum.

(* ================================================================== *)
(** ** The class [Config] *)

Module Config.
Import PyStr PyNum.

(** *** Values, dictionaries, exceptions *)

Inductive pyval : Type :=
| VNone
| VBool (b : bool)
| VInt (z : Z)
| VFloat (f : pyfloat)
| VStr (s : str)
| VList (l : list pyval)
| VDict (d : list (str * pyval)).

Definition dict : Type := list (str * pyval).

Inductive exn : Type :=
| ValueError | AttributeError | KeyError | TypeError | LoadFailure.

Inductive result (A : Type) : Type :=
| Ok (a : A)
| Raise (e : exn).
Arguments Ok {A} a.
Arguments Raise {A} e.

Definition bind {A B} (r : result A) (k : A -> result B) : result B :=
  match r with
  | Ok a => k a
  | Raise e => Raise e
  end.

Notation "x <- r ;; k" := (bind r (fun x => k))
  (at level 61, r at next level, right associativity).

Section Dict.
Context {V : Type}.

(** [d.get(k)] *)
Fixpoint dict_get (k : str) (d : list (str * V)) : option V :=
  match d with
  | [] => None
  | (k', v) :: d' => if PyStr.eqb k k' then Some v else dict_get k d'
  end.

(** [k in d] *)
Definition dict_mem (k : str) (d : list (str * V)) : bool :=
  match dict_get k d with Some _ => true | None => false end.

(** [d[k] = v]: an existing key keeps its place, a new one goes last. *)
Fixpoint dict_set (k : str) (v : V) (d : list (str * V)) : list (str * V) :=
  match d with
  | [] => [(k, v)]
  | (k', v') :: d' =>
      if PyStr.eqb k k' then (k, v) :: d' else (k', v') :: dict_set k v d'
  end.

(** [d.setdefault(k, v)], for its effect on [d]. *)
Definition dict_setdefault (k : str) (v : V) (d : list (str * V))
  : list (str * V) :=
  if dict_mem k d then d else d ++ [(k, v)].
End Dict.

(** [x in s] and [s.add(x)] on a set of strings. *)
Definition set_mem (x : str) (s : list str) : bool := existsb (PyStr.eqb x) s.
Definition set_add (x : str) (s : list str) : list str :=
  if set_mem x s then s else s ++ [x].

(** *** Value codec *)

Definition is_empty (s : str) : bool :=
  match s with [] => true | _ => false end.

(** [_parse_inline_dict], with the call to [self._convert_value] as a
    parameter. *)
Definition _parse_inline_dict_with (conv : str -> pyval) (value : str) : dict :=
  let inner := strip (slice_1_m1 value) in
  if is_empty inner then []
  else
    fold_left
      (fun result part =>
         if contains "=" part then
           match split1 "=" part with
           | [k; v] =>
               let k := strip_char sq (strip_char dq (strip k)) in
               let v := strip v in
               dict_set k (conv v) result
           | _ => result
           end
         else result)
      (split "," inner) [].

(** [_convert_value]; the fuel bounds the depth of the recursive calls, and
    [_convert_value] below gives as much as the text is long. *)
Fixpoint convert_fuel (fuel : nat) (value : str) : pyval :=
  let self_convert_value :=
    match fuel with
    | O => fun _ => VNone
    | S fuel' => convert_fuel fuel'
    end in
  let value := strip value in
  if PyStr.eqb (lower value) "true" || PyStr.eqb (lower value) "false" then
    VBool (PyStr.eqb (lower value) "true")
  else if isdigit value then VInt (int_of_str value)
  else
    match float_of_str value with
    | Some f => VFloat f
    | None =>
        if startswith "[" value && endswith "]" value then
          let items := split "," (slice_1_m1 value) in
          VList (map (fun item => self_convert_value (strip item))
                     (filter (fun item => negb (is_empty (strip item))) items))
        else if startswith "{" value && endswith "}" value then
          VDict (_parse_inline_dict_with self_convert_value value)
        else VStr (strip_char dq value)
    end.

Definition _convert_value (value : str) : pyval :=
  convert_fuel (length value) value.

Definition _parse_inline_dict (value : str) : dict :=
  _parse_inline_dict_with _convert_value value.

Fixpoint _value_to_string (v : pyval) : str :=
  match v with
  | VBool b => if b then "true" else "false"
  | VInt z => str_of_int z
  | VFloat f => str_of_float f
  | VList l => "[" ++ join ", " (map _value_to_string l) ++ "]"
  | VDict d =>
      "{ " ++ join ", "
                (map (fun kv => dq :: fst kv ++ dq :: " = "
                                   ++ _value_to_string (snd kv)) d)
           ++ " }"
  | VStr s => dq :: s ++ [dq]
  | VNone => dq :: "None" ++ [dq]
  end.

(** *** Line predicates *)

Definition _isClass (line : str) : bool :=
  startswith "[" line && endswith "]" line && negb (contains "." line).

Definition _isSubClass (line : str) : bool :=
  startswith "[" line && endswith "]" line && contains "." line.

Definition _getClassSubClass (line : str) : list str :=
  split "." (slice_1_m1 line).

Definition _isComment (line : str) : bool := startswith "#" line.

Definition _isProperty (line : str) : bool := contains "=" line.

Definition _isBlank (line : str) : bool := is_empty (strip line).

(** The tag a line gets from the [if]/[elif] chain of [_parse]. *)
Inductive tag : Type :=
| Comment | Blank | ClassHeader | SubclassHeader | Property | Unknown.

Definition classify (line : str) : tag :=
  if _isComment line then Comment
  else if _isBlank line then Blank
  else if _isClass line then ClassHeader
  else if _isSubClass line then SubclassHeader
  else if _isProperty line then Property
  else Unknown.

(** *** The object *)

(** [current_class] is the empty tuple ([None] here) until the first
    header, then [(class, subclass or None, in_subclass)]. *)
Record config : Type := mkConfig {
  file_object : dict;
  current_class : option (str * option str * bool);
  subclasses : list (str * list str)
}.

(** The attributes set by [__init__] before [_parse] runs. *)
Definition init : config := mkConfig [] None [].

Definition _classExists (self : config) (key : str) : bool :=
  dict_mem key (file_object self).

(** [_load]: the file system is the content of the file at [self.path],
    if there is one. *)
Definition _load (file : option str) : result str :=
  match file with
  | Some text => Ok text
  | None => Raise LoadFailure
  end.

(** *** Document builder *)

Definition _newClass (self : config) (line : str) : config :=
  let class_name := slice_1_m1 line in
  if negb (_classExists self class_name) then
    mkConfig (dict_setdefault class_name (VDict []) (file_object self))
             (Some (class_name, None, false))
             (dict_set class_name [] (subclasses self))
  else self.

Definition _newSubClass (self : config) (line : str) : result config :=
  match _getClassSubClass line with
  | [cls; subclass] =>
      let cur := Some (cls, Some subclass, true) in
      let '(fo, sc) :=
        if negb (_classExists self cls) then
          (dict_setdefault cls (VDict []) (file_object self),
           dict_set cls [] (subclasses self))
        else (file_object self, subclasses self) in
      match dict_get cls sc with
      | None => Raise KeyError
      | Some names =>
          let sc' := dict_set cls (set_add subclass names) sc in
          match dict_get cls fo with
          | None => Raise KeyError
          | Some (VDict data) =>
              Ok (mkConfig
                    (dict_set cls
                       (VDict (dict_setdefault subclass (VDict []) data)) fo)
                    cur sc')
          | Some _ => Raise AttributeError
          end
      end
  | _ => Raise ValueError
  end.

Definition _newProperty (self : config) (line : str) : result config :=
  match current_class self with
  | None => Ok self
  | Some (cls, sub, in_subclass) =>
      match split1 "=" line with
      | [key; value] =>
          let key := strip key in
          let value := _convert_value (strip value) in
          match dict_get cls (file_object self) with
          | None => Raise KeyError
          | Some (VDict data) =>
              if in_subclass then
                match sub with
                | None => Raise KeyError
                | Some subclass =>
                    match dict_get subclass data with
                    | None => Raise KeyError
                    | Some (VDict sub_data) =>
                        Ok (mkConfig
                              (dict_set cls
                                 (VDict
                                    (dict_set subclass
                                       (VDict (dict_setdefault key value sub_data))
                                       data))
                                 (file_object self))
                              (current_class self) (subclasses self))
                    | Some _ => Raise AttributeError
                    end
                end
              else
                Ok (mkConfig
                      (dict_set cls (VDict (dict_setdefault key value data))
                         (file_object self))
                      (current_class self) (subclasses self))
          | Some _ => if in_subclass then Raise TypeError else Raise AttributeError
          end
      | _ => Raise ValueError
      end
  end.

(** One turn of the loop of [_parse]. *)
Definition parse_line (self : config) (line : str) : result config :=
  if _isComment line || _isBlank line then Ok self
  else if _isClass line then Ok (_newClass self line)
  else if _isSubClass line then _newSubClass self line
  else if _isProperty line then _newProperty self line
  else Ok self.

Fixpoint parse_lines (self : config) (lines : list str) : result config :=
  match lines with
  | [] => Ok self
  | line :: rest => self' <- parse_line self line ;; parse_lines self' rest
  end.

Definition _parse (self : config) (file : option str) : result config :=
  text <- _load file ;; parse_lines self (splitlines text).

(** [Config(path)] *)
Definition __init__ (file : option str) : result config := _parse init file.

(** *** Serializer *)

Definition property_line (kv : str * pyval) : str :=
  fst kv ++ " = " ++ _value_to_string (snd kv) ++ [nl].

(** The header of a class and its properties, when it has any. *)
Definition save_props (class_name : str) (props : dict) : str :=
  match props with
  | [] => []
  | _ => "[" ++ class_name ++ "]" ++ [nl]
             ++ concat (map property_line props) ++ [nl]
  end.

(** The header of one subclass and its properties. *)
Definition save_sub (class_name : str) (sub : str * pyval) : result str :=
  match snd sub with
  | VDict sub_data =>
      Ok ("[" ++ class_name ++ "." ++ fst sub ++ "]" ++ [nl]
              ++ concat (map property_line sub_data) ++ [nl])
  | _ => Raise AttributeError
  end.

Fixpoint save_subs (class_name : str) (subs : dict) : result str :=
  match subs with
  | [] => Ok []
  | sub :: rest =>
      t <- save_sub class_name sub ;;
      ts <- save_subs class_name rest ;;
      Ok (t ++ ts)
  end.

(** The recorded subclass names of a class:
    [self.subclasses.get(class_name, set())]. *)
Definition subclass_names (self : config) (class_name : str) : list str :=
  match dict_get class_name (subclasses self) with
  | Some names => names
  | None => []
  end.

Definition props_of (names : list str) (data : dict) : dict :=
  filter (fun kv => negb (set_mem (fst kv) names)) data.

Definition subs_of (names : list str) (data : dict) : dict :=
  filter (fun kv => set_mem (fst kv) names) data.

(** What one turn of the outer loop of [_save] writes. *)
Definition save_class (self : config) (entry : str * pyval) : result str :=
  let class_name := fst entry in
  match snd entry with
  | VDict data =>
      let names := subclass_names self class_name in
      ts <- save_subs class_name (subs_of names data) ;;
      Ok (save_props class_name (props_of names data) ++ ts)
  | _ => Raise AttributeError
  end.

Fixpoint save_classes (self : config) (entries : dict) : result str :=
  match entries with
  | [] => Ok []
  | entry :: rest =>
      t <- save_class self entry ;;
      ts <- save_classes self rest ;;
      Ok (t ++ ts)
  end.

(** [_save]: the text written to the file. *)
Definition _save (self : config) : result str :=
  save_classes self (file_object self).

(** *** Path accessors *)

(** The loop of [get] over the parts of the key. *)
Fixpoint get_walk (d : pyval) (parts : list str) : result pyval :=
  match parts with
  | [] => Ok d
  | part :: rest =>
      match d with
      | VNone => Ok VNone
      | VDict m =>
          get_walk (match dict_get part m with Some v => v | None => VNone end)
                   rest
      | _ => Raise AttributeError
      end
  end.

Definition get (self : config) (key : str) : result pyval :=
  if PyStr.eqb key "*" then Ok (VDict (file_object self))
  else get_walk (VDict (file_object self)) (split "." key).

(** The loop of [set] over [parts[:-1]] and the final assignment. *)
Fixpoint set_walk (d : dict) (parts : list str) (value : pyval) : dict :=
  match parts with
  | [] => d
  | [last] => dict_set last value d
  | part :: rest =>
      let below :=
        match dict_get part d with
        | Some (VDict m) => m
        | _ => []
        end in
      dict_set part (VDict (set_walk below rest value)) d
  end.

(** [set]: the object after the assignment, and what [_save] did. *)
Definition set (self : config) (key : str) (value : pyval)
  : config * result str :=
  let self' :=
    mkConfig (set_walk (file_object self) (split "." key) value)
             (current_class self) (subclasses self) in
  (self', _save self').

End Config.

(* ================================================================== *)
(** ** Example inputs *)

Import PyStr PyNum Config.

(** A file made of the given lines, each ended by a line feed. *)
Definition file_of (lines : list String.string) : str :=
  concat (map (fun l : String.string => (l : str) ++ [nl]) lines).

(** The object built from a file with the given lines. *)
Definition load (lines : list String.string) : result config :=
  __init__ (Some (file_of lines)).

(* ================================================================== *)
(** ** Properties of the object that the theorems speak about *)

Definition is_dict (v : pyval) : bool :=
  match v with VDict _ => true | _ => false end.

(** Every entry of the document is a section, that is a mapping. *)
Definition sections_ok (self : config) : bool :=
  forallb (fun entry => is_dict (snd entry)) (file_object self).

(** [Document[S][K]] exists and is a mapping. *)
Definition subtable_entry_ok (self : config) (S K : str) : bool :=
  match dict_get S (file_object self) with
  | Some (VDict data) =>
      match dict_get K data with Some (VDict _) => true | _ => false end
  | _ => false
  end.

(** The invariant of the data model: for every section name [S] and every
    key [K] in [SubtableIndex[S]], [Document[S][K]] exists and is a
    section. *)
Definition subtable_inv (self : config) : bool :=
  forallb (fun entry => forallb (subtable_entry_ok self (fst entry)) (snd entry))
          (subclasses self).

(** [Document[S]] is a mapping and has the key [K]. *)
Definition subtable_entry_present (self : config) (S K : str) : bool :=
  match dict_get S (file_object self) with
  | Some (VDict data) => dict_mem K data
  | _ => false
  end.

(** The part of the invariant that construction keeps: the entries exist. *)
Definition subtable_present (self : config) : bool :=
  forallb (fun entry =>
             forallb (subtable_entry_present self (fst entry)) (snd entry))
          (subclasses self).

(** What the builder keeps true from one line to the next: the entries of
    the document are mappings, the document and the index have the same
    keys, and the indexed entries exist. *)
Definition builder_inv (self : config) : Prop :=
  sections_ok self = true /\
  (forall S, dict_mem S (subclasses self) = dict_mem S (file_object self)) /\
  subtable_present self = true.



(** The key and the decoded value of a property line, as [_newProperty]
    computes them. *)
Definition property_of (line : str) : option (str * pyval) :=
  match split1 "=" line with
  | [key; value] => Some (strip key, _convert_value (strip value))
  | _ => None
  end.

Definition is_header (line : str) : bool :=
  match classify line with
  | ClassHeader | SubclassHeader => true
  | _ => false
  end.



(* ================================================================== *)
(** ** Documents that the serializer writes and the parser reads back *)

Definition no_linebreak (s : str) : bool :=
  forallb (fun c => negb (is_linebreak c)) s.

(** [s] neither begins nor ends with a character of the class [p]. *)
Definition trimmed_by (p : ascii -> bool) (s : str) : bool :=
  match s with
  | [] => true
  | c :: _ => negb (p c) && negb (p (last s c))
  end.

Definition trimmed (s : str) : bool := trimmed_by is_space s.

Definition unquoted (q : ascii) (s : str) : bool := trimmed_by (Ascii.eqb q) s.

Fixpoint uniq_keys {V} (d : list (str * V)) : bool :=
  match d with
  | [] => true
  | (k, _) :: d' => negb (dict_mem k d') && uniq_keys d'
  end.

(** The floats that [float] returns, NaN apart (a NaN differs from every
    value, itself included). *)
Definition float_ok (f : pyfloat) : bool :=
  match f with
  | FFin _ m e => if N.eqb m 0 then Z.eqb e 0 else negb (N.eqb (m mod 10) 0)
  | FInf _ => true
  | FNaN => false
  end.

(** The scalars: booleans, the integers and floats that the decoder
    returns, and strings without a double quote at either end.  Within a
    list or an inline table ([in_literal]) a string has no comma. *)
Definition scalar_ok (in_literal : bool) (v : pyval) : bool :=
  match v with
  | VBool _ => true
  | VInt z => (0 <=? z)%Z
  | VFloat f => float_ok f
  | VStr s =>
      unquoted dq s && no_linebreak s
      && (negb in_literal || negb (contains "," s))
  | _ => false
  end.

Definition inline_key_ok (k : str) : bool :=
  unquoted dq k && unquoted sq k && no_linebreak k
  && negb (contains "," k) && negb (contains "=" k).

(** The values of the supported literal grammar: scalars, lists of
    scalars, inline tables of scalars. *)
Definition value_ok (v : pyval) : bool :=
  match v with
  | VList items => forallb (scalar_ok true) items
  | VDict d =>
      uniq_keys d
      && forallb (fun kv => inline_key_ok (fst kv) && scalar_ok true (snd kv)) d
  | _ => scalar_ok false v
  end.

Definition is_list (v : pyval) : bool :=
  match v with VList _ => true | _ => false end.

(** A key whose property line is read back as a property line with that
    key: trimmed, without equals sign or line break, not beginning with a
    hash, and not beginning with a bracket when the value, a list, ends
    with one. *)
Definition key_ok (k : str) (v : pyval) : bool :=
  trimmed k && no_linebreak k && negb (contains "=" k)
  && negb (startswith "#" k) && negb (startswith "[" k && is_list v).

Definition props_ok (d : dict) : bool :=
  uniq_keys d
  && forallb (fun kv => key_ok (fst kv) (snd kv) && value_ok (snd kv)) d.

Definition name_ok (s : str) : bool :=
  no_linebreak s && negb (contains "." s).

(** The recorded subclasses come after the properties. *)
Fixpoint props_then_subs (names : list str) (data : dict) : bool :=
  match data with
  | [] => true
  | (k, _) :: rest =>
      if set_mem k names
      then forallb (fun kv => set_mem (fst kv) names) rest
      else props_then_subs names rest
  end.

Definition sub_ok (sub : str * pyval) : bool :=
  name_ok (fst sub)
  && match snd sub with VDict sub_data => props_ok sub_data | _ => false end.

Definition section_ok (names : list str) (entry : str * pyval) : bool :=
  match snd entry with
  | VDict data =>
      name_ok (fst entry)
      && negb (match data with [] => true | _ => false end)
      && uniq_keys data
      && props_then_subs names data
      && props_ok (props_of names data)
      && forallb sub_ok (subs_of names data)
  | _ => false
  end.

(** The documents for which writing and reading back is the identity:
    every section has an entry; the recorded subclasses are mappings and
    come after the properties of their section; keys and values are as
    above. *)
Definition round_trippable (self : config) : bool :=
  uniq_keys (file_object self)
  && forallb (fun entry => section_ok (subclass_names self (fst entry)) entry)
             (file_object self).

(** The characters of the texts of numbers and booleans. *)
Definition token_char (c : ascii) : bool :=
  let n := nat_of_ascii c in
  (is_digit c || ((97 <=? n) && (n <=? 122))
   || Ascii.eqb c "." || Ascii.eqb c "+" || Ascii.eqb c "-")%nat.

(** Where a run of digits ends: at the end of the text or before a
    character that is neither a digit nor an underscore. *)
Definition stops_digits (rest : str) : bool :=
  match rest with
  | [] => true
  | c :: _ => negb (is_digit c) && negb (Ascii.eqb c "_")
  end.

(** Each piece is a text after some white space. *)
Definition padded (piece text : str) : Prop :=
  exists w, forallb is_space w = true /\ piece = w ++ text.

(** The text of an entry of an inline table. *)
Definition entry_text (kv : str * pyval) : str :=
  dq :: fst kv ++ dq :: " = " ++ _value_to_string (snd kv).

(** What [_parse_inline_dict] does with one part of the literal. *)
Definition read_entry (conv : str -> pyval) (result : dict) (part : str) : dict :=
  if contains "=" part then
    match split1 "=" part with
    | [k; v] =>
        dict_set (strip_char sq (strip_char dq (strip k))) (conv (strip v)) result
    | _ => result
    end
  else result.

(** *** What parsing establishes by itself *)

Definition is_nan (f : pyfloat) : bool :=
  match f with FNaN => true | _ => false end.

(** The floats that [float] returns. *)
Definition float_norm (f : pyfloat) : bool := is_nan f || float_ok f.

(** The characters of a text on one line and, inside a list or a table
    ([lit]), between two commas. *)
Definition good_char (lit : bool) (c : ascii) : bool :=
  negb (is_linebreak c) && (negb lit || negb (Ascii.eqb c ",")).

Definition inline_key_clean (k : str) : bool :=
  unquoted sq k && no_linebreak k
  && negb (contains "," k) && negb (contains "=" k).

(** What [_convert_value] returns for a text on one line ([lit]: for a
    text between two commas of a list or a table).  [VNone] is what the
    model returns where the fuel has run out. *)
Fixpoint decoded (lit : bool) (v : pyval) : bool :=
  match v with
  | VNone => true
  | VBool _ => true
  | VInt z => (0 <=? z)%Z
  | VFloat f => float_norm f
  | VStr s =>
      unquoted dq s && no_linebreak s && (negb lit || negb (contains "," s))
  | VList items => forallb (decoded true) items
  | VDict d =>
      uniq_keys d
      && forallb (fun kv => inline_key_clean (fst kv) && decoded true (snd kv)) d
  end.

(** The key that [_newProperty] computes from a line. *)
Definition clean_key (k : str) : bool :=
  trimmed k && no_linebreak k && negb (contains "=" k).

(** The entries of a section opened by a subclass header: stored by
    property lines, or found there as the inline table of a property of
    the class. *)
Definition table_inv (d : dict) : bool :=
  uniq_keys d
  && forallb (fun kv => no_linebreak (fst kv) && negb (contains "=" (fst kv))
                        && decoded false (snd kv)) d.

(** An entry of a class: under a recorded subclass name, the name of a
    header; otherwise the key and the decoded value of a property line. *)
Definition entry_inv (names : list str) (kv : str * pyval) : bool :=
  if set_mem (fst kv) names
  then name_ok (fst kv)
       && match snd kv with VDict sd => table_inv sd | _ => true end
  else clean_key (fst kv) && decoded false (snd kv).

Definition section_inv (names : list str) (entry : str * pyval) : bool :=
  name_ok (fst entry)
  && match snd entry with
     | VDict data => uniq_keys data && forallb (entry_inv names) data
     | _ => false
     end.

(** The current subclass is a recorded one. *)
Definition current_inv (self : config) : bool :=
  match current_class self with
  | Some (cls, Some sub, true) => set_mem sub (subclass_names self cls)
  | _ => true
  end.

(** What the builder keeps true of the names, keys and values it stores,
    from one line to the next. *)
Definition parsed_inv (self : config) : bool :=
  current_inv self
  && uniq_keys (file_object self)
  && forallb (fun entry => section_inv (subclass_names self (fst entry)) entry)
             (file_object self).

(** The restrictions on a document that parsing does not establish: every
    section has an entry; the recorded subclasses are mappings with trimmed
    keys and come after the properties of their class; no key begins with
    a hash, or with a bracket when its value is a list; a value is a
    boolean, a number other than NaN, a string, a list of these or an
    inline table of these whose keys neither begin nor end with a double
    quote. *)
Definition simple_scalar (v : pyval) : bool :=
  match v with
  | VBool _ | VInt _ | VStr _ => true
  | VFloat f => negb (is_nan f)
  | _ => false
  end.

Definition simple_value (v : pyval) : bool :=
  match v with
  | VList items => forallb simple_scalar items
  | VDict d =>
      forallb (fun kv => unquoted dq (fst kv) && simple_scalar (snd kv)) d
  | _ => simple_scalar v
  end.

Definition simple_props (d : dict) : bool :=
  forallb (fun kv => negb (startswith "#" (fst kv))
                     && negb (startswith "[" (fst kv) && is_list (snd kv))
                     && simple_value (snd kv)) d.

Definition simple_sub (sub : str * pyval) : bool :=
  match snd sub with
  | VDict sub_data =>
      forallb (fun kv => trimmed (fst kv)) sub_data && simple_props sub_data
  | _ => false
  end.

Definition simple_section (names : list str) (entry : str * pyval) : bool :=
  match snd entry with
  | VDict data =>
      negb (match data with [] => true | _ => false end)
      && props_then_subs names data
      && simple_props (props_of names data)
      && forallb simple_sub (subs_of names data)
  | _ => false
  end.

Definition supported (self : config) : bool :=
  forallb (fun entry => simple_section (subclass_names self (fst entry)) entry)
          (file_object self).

(** The lines that [_save] writes. *)
Definition unlines (lines : list str) : str :=
  concat (map (fun line => line ++ [nl]) lines).

Definition property_text (kv : str * pyval) : str :=
  fst kv ++ " = " ++ _value_to_string (snd kv).

Definition props_lines (class_name : str) (props : dict) : list str :=
  match props with
  | [] => []
  | _ => ("[" ++ class_name ++ "]") :: map property_text props ++ [[]]
  end.

Definition sub_lines (class_name : str) (sub : str * pyval) : list str :=
  match snd sub with
  | VDict sub_data =>
      ("[" ++ class_name ++ "." ++ fst sub ++ "]")
        :: map property_text sub_data ++ [[]]
  | _ => []
  end.

Definition class_lines (names : list str) (entry : str * pyval) : list str :=
  match snd entry with
  | VDict data =>
      props_lines (fst entry) (props_of names data)
        ++ flat_map (sub_lines (fst entry)) (subs_of names data)
  | _ => []
  end.

Definition save_lines (self : config) : list str :=
  flat_map (fun entry => class_lines (subclass_names self (fst entry)) entry)
           (file_object self).

(** *** Notions for the further properties *)

(** The documents that [_save] writes without fault: every class is a
    mapping, and so is every entry under a recorded subclass name. *)
Definition savable (self : config) : bool :=
  forallb (fun entry =>
             match snd entry with
             | VDict data =>
                 forallb (fun sub => is_dict (snd sub))
                         (subs_of (subclass_names self (fst entry)) data)
             | _ => false
             end)
          (file_object self).

(** The lines that [_parse] passes over: comments, blank lines and lines
    of no known shape. *)
Definition is_ignored (line : str) : bool :=
  match classify line with
  | Comment | Blank | Unknown => true
  | _ => false
  end.

(** The current class designates a class of the document that is a
    mapping and, when it designates a subclass, an entry of that class. *)
Definition pointer_ok (self : config) : bool :=
  match current_class self with
  | None => true
  | Some (cls, sub, in_subclass) =>
      match dict_get cls (file_object self) with
      | Some (VDict data) =>
          if in_subclass
          then match sub with
               | Some subclass => dict_mem subclass data
               | None => false
               end
          else true
      | _ => false
      end
  end.

(** Every entry of [d] is in [d'], with the same value. *)
Definition entries_kept (d d' : dict) : Prop :=
  forall k v, dict_get k d = Some v -> dict_get k d' = Some v.

(** A value stays as it is; a mapping may gain entries. *)
Definition value_kept (v v' : pyval) : Prop :=
  match v, v' with
  | VDict d, VDict d' => entries_kept d d'
  | _, _ => v = v'
  end.

(** Every entry of the class is still there: a mapping (a subclass, or an
    inline table) with at least the entries it had, any other value
    unchanged. *)
Definition section_kept (data data' : dict) : Prop :=
  forall K v, dict_get K data = Some v ->
              exists v', dict_get K data' = Some v' /\ value_kept v v'.

Definition document_kept (fo fo' : dict) : Prop :=
  forall S v, dict_get S fo = Some v ->
    exists v', dict_get S fo' = Some v' /\
               match v, v' with
               | VDict data, VDict data' => section_kept data data'
               | _, _ => v = v'
               end.

(** The key and the text of the value of one part of an inline table, as
    [_parse_inline_dict] computes them; a part without equals sign is
    skipped. *)
Definition entry_of (part : str) : option (str * str) :=
  if contains "=" part then
    match split1 "=" part with
    | [k; v] => Some (strip_char sq (strip_char dq (strip k)), strip v)
    | _ => None
    end
  else None.

(** The parts of the inline table [value]: the text between the braces,
    split at its commas; no part when there is nothing but white space
    between the braces. *)
Definition inline_parts (value : str) : list str :=
  let inner := strip (slice_1_m1 value) in
  if is_empty inner then [] else split "," inner.

(** The text of the value of the last part with the key [k]. *)
Fixpoint last_text (k : str) (parts : list str) : option str :=
  match parts with
  | [] => None
  | part :: rest =>
      match last_text k rest with
      | Some t => Some t
      | None =>
          match entry_of part with
          | Some (k', t) => if PyStr.eqb k k' then Some t else None
          | None => None
          end
      end
  end.

(** [None] occurs nowhere in the value. *)
Fixpoint no_none (v : pyval) : bool :=
  match v with
  | VNone => false
  | VList items => forallb no_none items
  | VDict d => forallb (fun kv => no_none (snd kv)) d
  | _ => true
  end.

(** No mapping occurs in the value, at any depth of lists. *)
Fixpoint dict_free (v : pyval) : bool :=
  match v with
  | VDict _ => false
  | VList items => forallb dict_free items
  | _ => true
  end.

(** The states in which no mapping is reached by two paths.  [set] stores
    the object it is given and [get] returns the stored object itself, so
    a caller can make one mapping stand at two places of the document;
    the document is then not the tree that [file_object] describes.
    Construction builds fresh mappings only, and so does [set] for the
    parts of its key; a value without mapping brings none in. *)
Inductive unshared : config -> Prop :=
| unshared_init (file : option str) (self : config) :
    __init__ file = Ok self -> unshared self
| unshared_set (self : config) (key : str) (value : pyval) :
    unshared self -> dict_free value = true ->
    unshared (fst (set self key value)).

(** Texts on which the model of the decoder is the decoder: characters of
    the ASCII range only (beyond it [str.isdigit] accepts characters that
    [int] rejects with [ValueError]), on lines short enough for the
    conversion of a run of digits and for the depth of the recursive
    calls to stay within the limits of the interpreter. *)
Definition is_ascii (c : ascii) : bool := (nat_of_ascii c <? 128)%nat.

Definition plain_text (text : str) : bool :=
  forallb is_ascii text
  && forallb (fun line => (length line <=? 200)%nat) (splitlines text).

(* ================================================================== *)
(** * Proofs *)

(* ================================================================== *)
(** ** Facts about the string methods *)

#[local] Arguments Ascii.eqb : simpl never.

(** Decide the comparisons of two character literals in the goal. *)
Ltac char_lit c :=
  lazymatch c with
  | Ascii ?b0 ?b1 ?b2 ?b3 ?b4 ?b5 ?b6 ?b7 =>
      is_ground c
  end.

Ltac eqb_lits :=
  repeat match goal with
         | |- context [Ascii.eqb ?a ?b] =>
             char_lit a; char_lit b;
             let v := eval vm_compute in (Ascii.eqb a b) in
             change (Ascii.eqb a b) with v
         end.

(** Unfold the string literals of the goal into lists of characters. *)
Ltac lits := cbv [String.list_ascii_of_string].

Section StringFacts.

Lemma eqb_eq (a b : str) : PyStr.eqb a b = true <-> a = b.
Proof.
  unfold PyStr.eqb. destruct (list_eq_dec ascii_dec a b); split;
    intros; congruence.
Qed.

Lemma eqb_refl (a : str) : PyStr.eqb a a = true.
Proof. apply eqb_eq. reflexivity. Qed.

Lemma eqb_neq (a b : str) : PyStr.eqb a b = false <-> a <> b.
Proof.
  unfold PyStr.eqb. destruct (list_eq_dec ascii_dec a b); split;
    intros; congruence.
Qed.

Lemma contains_app (c : ascii) (a b : str) :
  contains c (a ++ b) = contains c a || contains c b.
Proof. apply existsb_app. Qed.

Lemma contains_false_iff (c : ascii) (s : str) :
  contains c s = false <-> ~ In c s.
Proof.
  unfold contains. split.
  - intros H Hin.
    assert (existsb (Ascii.eqb c) s = true) as E.
    { apply existsb_exists. exists c. split; [assumption|apply Ascii.eqb_refl]. }
    congruence.
  - intros H. destruct (existsb (Ascii.eqb c) s) eqn:E; [|reflexivity].
    apply existsb_exists in E. destruct E as [x [Hx Hc]].
    apply Ascii.eqb_eq in Hc. subst x. contradiction.
Qed.

Lemma startswith_cons (c : ascii) (s : str) : startswith [c] (c :: s) = true.
Proof. simpl. rewrite Ascii.eqb_refl. reflexivity. Qed.

Lemma endswith_last (c d : ascii) (s : str) :
  endswith [c] (s ++ [d]) = Ascii.eqb c d.
Proof.
  unfold endswith. rewrite rev_app_distr. simpl.
  destruct (Ascii.eqb c d); reflexivity.
Qed.

Lemma dropwhile_nil_iff (p : ascii -> bool) (s : str) :
  dropwhile p s = [] <-> forallb p s = true.
Proof.
  induction s as [|c s IH]; simpl.
  - tauto.
  - destruct (p c); simpl; [exact IH|].
    split; intros H; discriminate.
Qed.

Lemma dropwhile_keep (p : ascii -> bool) (c : ascii) (s : str) :
  p c = false -> dropwhile p (c :: s) = c :: s.
Proof. intros H. simpl. rewrite H. reflexivity. Qed.

Lemma dropwhile_app_keep (p : ascii -> bool) (s : str) (c : ascii) :
  p c = false -> exists t, dropwhile p (s ++ [c]) = t ++ [c].
Proof.
  intros H. induction s as [|x s IH]; simpl.
  - rewrite H. exists []. reflexivity.
  - destruct (p x).
    + exact IH.
    + exists (x :: s). reflexivity.
Qed.

(** A string whose first and last characters are kept is a fixed point
    of [strip]. *)
Lemma strip_by_fixed (p : ascii -> bool) (a b : ascii) (s : str) :
  p a = false -> p b = false ->
  strip_by p (a :: s ++ [b]) = a :: s ++ [b].
Proof.
  intros Ha Hb. unfold strip_by.
  rewrite dropwhile_keep by assumption.
  assert (rev (a :: s ++ [b]) = b :: rev (a :: s)) as E.
  { change (a :: s ++ [b]) with ((a :: s) ++ [b]).
    rewrite rev_app_distr. reflexivity. }
  rewrite E, dropwhile_keep by assumption.
  rewrite <- E. apply rev_involutive.
Qed.

Lemma strip_by_single (p : ascii -> bool) (a : ascii) :
  p a = false -> strip_by p [a] = [a].
Proof. intros Ha. unfold strip_by. simpl. rewrite Ha. simpl. rewrite Ha. reflexivity. Qed.

Lemma strip_by_nil_iff (p : ascii -> bool) (s : str) :
  strip_by p s = [] <-> forallb p s = true.
Proof.
  unfold strip_by. split.
  - intros H.
    apply (f_equal (@rev ascii)) in H. rewrite rev_involutive in H. simpl in H.
    apply dropwhile_nil_iff in H. rewrite forallb_forall in H.
    apply dropwhile_nil_iff.
    destruct (dropwhile p s) as [|c t] eqn:E; [reflexivity|].
    exfalso.
    assert (p c = false) as Hc.
    { clear H. induction s as [|x s IH]; simpl in E; [discriminate|].
      destruct (p x) eqn:Hx; [auto|]. injection E as -> _. exact Hx. }
    rewrite H in Hc; [discriminate|]. apply in_rev. rewrite rev_involutive.
    left. reflexivity.
  - intros H. apply dropwhile_nil_iff in H. rewrite H. reflexivity.
Qed.

Lemma is_empty_strip (s : str) : is_empty (strip s) = forallb is_space s.
Proof.
  destruct (forallb is_space s) eqn:E.
  - apply strip_by_nil_iff in E. unfold strip. rewrite E. reflexivity.
  - destruct (strip s) eqn:E2; [|reflexivity].
    apply strip_by_nil_iff in E2. congruence.
Qed.

(** White space is none of the characters the line predicates look
    for. *)
Lemma space_not_special (w : ascii) :
  is_space w = true ->
  Ascii.eqb "[" w = false /\ Ascii.eqb "]" w = false /\
  Ascii.eqb "#" w = false /\ Ascii.eqb "=" w = false /\
  Ascii.eqb "." w = false.
Proof.
  destruct w as [[] [] [] [] [] [] [] []]; intros H;
    try discriminate H; repeat split; reflexivity.
Qed.

End StringFacts.

(* ================================================================== *)
(** ** The value codec on a negative integer literal *)

(** C7. Decoding the literal [-5] gives a float of numeric value -5.0 and
    not an integer: [isdigit] rejects the sign, and [float] accepts the
    text. *)
Theorem C7_minus_five_decodes_to_float :
  isdigit "-5" = false /\
  float_of_str "-5" = Some (FFin true 5 0) /\
  _convert_value "-5" = VFloat (FFin true 5 0) /\
  float_value (FFin true 5 0) = Some (-5 # 1)%Q /\
  _convert_value "-5" <> VInt (-5).
Proof.
  repeat split; try reflexivity.
  vm_compute. discriminate.
Qed.

(* ================================================================== *)
(** ** The line classifier *)

(** C9, as stated, fails: a bracketed text with white space around it is
    not a class header.  With a leading or a trailing space the line is
    unknown, and with an equals sign inside it is taken for a property. *)
Lemma C9_padded_header_is_not_a_class_header :
  classify " [a]" = Unknown /\
  classify "[a] " = Unknown /\
  classify " [a=b]" = Property.
Proof. repeat split; reflexivity. Qed.

(** C9, amended.  Every line gets exactly one tag.  A line that itself
    begins with an opening bracket and ends with a closing bracket, with no
    dot inside, is a class header, also when it contains an equals sign.
    The line is tested as it is, without trimming: with a white-space
    character before or after the brackets it is no header, it is a
    property when it contains an equals sign and unknown otherwise. *)
Theorem C9_class_header_is_tested_untrimmed (inner : str) :
  contains "." inner = false ->
  (forall line, exists t, classify line = t /\
                          forall t', classify line = t' -> t' = t) /\
  classify ("[" ++ inner ++ "]") = ClassHeader /\
  forall w, is_space w = true ->
    classify (w :: "[" ++ inner ++ "]")
      = (if contains "=" inner then Property else Unknown) /\
    classify (("[" ++ inner ++ "]") ++ [w])
      = (if contains "=" inner then Property else Unknown).
Proof.
  intros Hdot. split; [|split].
  - intros line. exists (classify line). split; [reflexivity|].
    intros t' H. symmetry. exact H.
  - unfold classify, _isComment, _isBlank, _isClass.
    rewrite is_empty_strip. lits. simpl. eqb_lits. simpl.
    rewrite app_comm_cons, endswith_last, contains_app. simpl. eqb_lits.
    rewrite Hdot. reflexivity.
  - intros w Hw. destruct (space_not_special w Hw) as (Hb & Hc & Hh & He & Hd).
    split.
    + unfold classify, _isComment, _isBlank, _isClass, _isSubClass, _isProperty.
      rewrite is_empty_strip. lits. simpl. rewrite Hh, Hb, Hw, He. simpl.
      rewrite contains_app. simpl. eqb_lits. rewrite orb_false_r.
      destruct (contains "=" inner); reflexivity.
    + unfold classify, _isComment, _isBlank, _isClass, _isSubClass, _isProperty.
      lits. rewrite is_empty_strip, endswith_last, Hc. simpl. eqb_lits. simpl.
      rewrite !contains_app. simpl. eqb_lits. rewrite He. simpl.
      rewrite !orb_false_r.
      destruct (contains "=" inner); reflexivity.
Qed.

Lemma C9_class_header_is_tested_untrimmed_witness :
  classify "[a=b]" = ClassHeader /\
  classify " [a=b]" = Property /\
  classify "[a=b] " = Property.
Proof.
  destruct (C9_class_header_is_tested_untrimmed "a=b" eq_refl) as (_ & H1 & H2).
  destruct (H2 " "%char eq_refl) as [H3 H4].
  split; [exact H1|]. split; [exact H3|exact H4].
Defined.

(* ================================================================== *)
(** ** Reading a path through a scalar *)

(** The part of [get] that holds: once the walk has met an absent key,
    every further step returns the absence marker. *)
Lemma get_walk_none (parts : list str) : get_walk VNone parts = Ok VNone.
Proof. destruct parts; reflexivity. Qed.

Lemma get_walk_absent (m : dict) (part : str) (rest : list str) :
  dict_get part m = None -> get_walk (VDict m) (part :: rest) = Ok VNone.
Proof. intros H. simpl. rewrite H. apply get_walk_none. Qed.

(** C2.  In the document of the file [[unit]], [x = 5], the path
    [unit.x] reads 5 and a path through a missing key reads the absence
    marker, but the path [unit.x.y], whose walk meets the integer 5 with
    one part left, raises [AttributeError] instead of returning the
    absence marker. *)
Theorem C2_get_through_a_scalar_raises :
  exists self,
    load ["[unit]"; "x = 5"] = Ok self /\
    get self "unit.x" = Ok (VInt 5) /\
    get self "nope.nope" = Ok VNone /\
    get self "unit.x.y" = Raise AttributeError.
Proof.
  eexists. split; [vm_compute; reflexivity|].
  repeat split; reflexivity.
Qed.

(* ================================================================== *)
(** ** A class header seen before *)

(** [_newClass] does nothing at all for a class that exists. *)
Lemma _newClass_seen (self : config) (line : str) :
  _classExists self (slice_1_m1 line) = true -> _newClass self line = self.
Proof. intros H. unfold _newClass. rewrite H. reflexivity. Qed.

(** C4.  In the file [[a]], [x = 1], [[b]], [y = 2], [[a]], [z = 3] the
    second header [[a]] names a class seen before: the current class stays
    [b], and the property [z] that follows goes into [b], not into [a]. *)
Theorem C4_seen_class_header_keeps_the_pointer :
  exists self,
    load ["[a]"; "x = 1"; "[b]"; "y = 2"; "[a]"; "z = 3"] = Ok self /\
    current_class self = Some ("b" : str, None, false) /\
    get self "a.x" = Ok (VInt 1) /\
    get self "a.z" = Ok VNone /\
    get self "b.z" = Ok (VInt 3).
Proof.
  eexists. split; [vm_compute; reflexivity|].
  repeat split; reflexivity.
Qed.

(* ================================================================== *)
(** ** Facts about dictionaries and sets *)

Section DictFacts.
Context {V : Type}.
Implicit Types (d : list (str * V)) (k : str) (v : V).

Lemma dict_get_set_same k v d : dict_get k (dict_set k v d) = Some v.
Proof.
  induction d as [|[k' v'] d IH]; simpl.
  - rewrite eqb_refl. reflexivity.
  - destruct (PyStr.eqb k k') eqn:E; simpl.
    + rewrite eqb_refl. reflexivity.
    + rewrite E. exact IH.
Qed.

Lemma dict_get_set_other k k' v d :
  k' <> k -> dict_get k' (dict_set k v d) = dict_get k' d.
Proof.
  intros Hne. induction d as [|[k0 v0] d IH]; simpl.
  - apply eqb_neq in Hne. rewrite Hne. reflexivity.
  - destruct (PyStr.eqb k k0) eqn:E; simpl.
    + apply eqb_eq in E. subst k0.
      apply eqb_neq in Hne. rewrite Hne. reflexivity.
    + destruct (PyStr.eqb k' k0); [reflexivity|exact IH].
Qed.

Lemma dict_get_app k d1 d2 :
  dict_get k (d1 ++ d2) =
  match dict_get k d1 with Some v => Some v | None => dict_get k d2 end.
Proof.
  induction d1 as [|[k0 v0] d1 IH]; simpl; [reflexivity|].
  destruct (PyStr.eqb k k0); [reflexivity|exact IH].
Qed.

Lemma dict_get_setdefault k k' v d :
  dict_get k' (dict_setdefault k v d) =
  match dict_get k' d with
  | Some x => Some x
  | None => if PyStr.eqb k' k then Some v else None
  end.
Proof.
  unfold dict_setdefault, dict_mem.
  destruct (dict_get k d) eqn:E.
  - destruct (dict_get k' d) eqn:E'; [reflexivity|].
    destruct (PyStr.eqb k' k) eqn:Ek; [|reflexivity].
    apply eqb_eq in Ek. congruence.
  - rewrite dict_get_app. simpl. reflexivity.
Qed.

Lemma dict_mem_set k k' v d :
  dict_mem k' (dict_set k v d) = PyStr.eqb k' k || dict_mem k' d.
Proof.
  unfold dict_mem. destruct (PyStr.eqb k' k) eqn:E.
  - apply eqb_eq in E. subst. rewrite dict_get_set_same. reflexivity.
  - apply eqb_neq in E. rewrite dict_get_set_other by assumption. reflexivity.
Qed.

Lemma dict_mem_setdefault k k' v d :
  dict_mem k' (dict_setdefault k v d) = PyStr.eqb k' k || dict_mem k' d.
Proof.
  unfold dict_mem at 1. rewrite dict_get_setdefault. unfold dict_mem.
  destruct (dict_get k' d); [rewrite orb_true_r; reflexivity|].
  destruct (PyStr.eqb k' k); reflexivity.
Qed.

Lemma dict_set_Forall (P : str * V -> Prop) k v d :
  Forall P d -> P (k, v) -> Forall P (dict_set k v d).
Proof.
  intros Hd Hk. induction Hd as [|[k0 v0] d H0 Hd IH]; simpl.
  - constructor; [assumption|constructor].
  - destruct (PyStr.eqb k k0); constructor; assumption.
Qed.

Lemma dict_setdefault_Forall (P : str * V -> Prop) k v d :
  Forall P d -> P (k, v) -> Forall P (dict_setdefault k v d).
Proof.
  intros Hd Hk. unfold dict_setdefault. destruct (dict_mem k d); [assumption|].
  apply Forall_app. split; [assumption|]. constructor; [assumption|constructor].
Qed.

Lemma dict_get_In k v d : dict_get k d = Some v -> In (k, v) d.
Proof.
  induction d as [|[k0 v0] d IH]; simpl; [discriminate|].
  destruct (PyStr.eqb k k0) eqn:E.
  - apply eqb_eq in E. intros [= ->]. left. congruence.
  - intros H. right. apply IH. exact H.
Qed.

Lemma dict_get_Forall (P : str * V -> Prop) k v d :
  Forall P d -> dict_get k d = Some v -> P (k, v).
Proof.
  intros Hd Hg. rewrite Forall_forall in Hd. apply Hd.
  apply dict_get_In. exact Hg.
Qed.
End DictFacts.

Lemma set_mem_add (x y : str) (s : list str) :
  set_mem y (set_add x s) = PyStr.eqb y x || set_mem y s.
Proof.
  unfold set_add. destruct (set_mem x s) eqn:E.
  - destruct (PyStr.eqb y x) eqn:Ey; [|reflexivity].
    apply eqb_eq in Ey. subst. rewrite E. reflexivity.
  - unfold set_mem. rewrite existsb_app. simpl.
    rewrite orb_false_r. apply orb_comm.
Qed.

(* ================================================================== *)
(** ** Splitting on a separator *)

Section SplitFacts.
Variable c : ascii.

Lemma split_nonempty (s : str) : split c s <> [].
Proof.
  destruct s as [|x s]; simpl; [discriminate|].
  destruct (Ascii.eqb x c); [discriminate|].
  destruct (split c s); discriminate.
Qed.

Lemma split_without (s : str) : contains c s = false -> split c s = [s].
Proof.
  induction s as [|x s IH]; simpl; [reflexivity|].
  rewrite Ascii.eqb_sym. destruct (Ascii.eqb x c); simpl; [discriminate|].
  intros H. rewrite (IH H). reflexivity.
Qed.

Lemma split_at_first (a b : str) :
  contains c a = false -> split c (a ++ c :: b) = a :: split c b.
Proof.
  induction a as [|x a IH]; simpl.
  - rewrite Ascii.eqb_refl. reflexivity.
  - rewrite Ascii.eqb_sym. destruct (Ascii.eqb x c); simpl; [discriminate|].
    intros H. rewrite (IH H). reflexivity.
Qed.

Lemma split1_at_first (a b : str) :
  contains c a = false -> split1 c (a ++ c :: b) = [a; b].
Proof.
  induction a as [|x a IH]; simpl.
  - rewrite Ascii.eqb_refl. reflexivity.
  - rewrite Ascii.eqb_sym. destruct (Ascii.eqb x c); simpl; [discriminate|].
    intros H. rewrite (IH H). reflexivity.
Qed.

Lemma split1_without (s : str) : contains c s = false -> split1 c s = [s].
Proof.
  induction s as [|x s IH]; simpl; [reflexivity|].
  rewrite Ascii.eqb_sym. destruct (Ascii.eqb x c); simpl; [discriminate|].
  intros H. rewrite (IH H). reflexivity.
Qed.
End SplitFacts.

Lemma slice_brackets (a b : ascii) (s : str) :
  slice_1_m1 (a :: s ++ [b]) = s.
Proof. unfold slice_1_m1. simpl. apply removelast_last. Qed.

(* ================================================================== *)
(** ** The invariant of the document builder *)

Lemma forallb_Forall {A} (f : A -> bool) (l : list A) :
  forallb f l = true <-> Forall (fun x => f x = true) l.
Proof. rewrite forallb_forall, Forall_forall. reflexivity. Qed.

Lemma In_dict_set {V} (k : str) (v : V) (d : list (str * V)) (e : str * V) :
  In e (dict_set k v d) -> e = (k, v) \/ In e d.
Proof.
  induction d as [|[k0 v0] d IH]; simpl.
  - intros [H|[]]. left. congruence.
  - destruct (PyStr.eqb k k0); simpl.
    + intros [H|H]; [left; congruence|right; right; exact H].
    + intros [H|H]; [right; left; exact H|].
      destruct (IH H) as [H'|H']; [left; exact H'|right; right; exact H'].
Qed.

Lemma In_set_add (x y : str) (s : list str) :
  In y (set_add x s) -> y = x \/ In y s.
Proof.
  unfold set_add. destruct (set_mem x s); [right; assumption|].
  intros H. apply in_app_or in H. destruct H as [H|[H|[]]];
    [right; exact H|left; congruence].
Qed.

Lemma builder_inv_init : builder_inv init.
Proof. repeat split. Qed.

(** Replacing a section by one with at least the same keys keeps the
    invariant; the index and the current class are free. *)
Lemma present_after_update (self : config) (cls : str) (data data' : dict)
      (S K : str) (fo' : dict) :
  dict_get cls (file_object self) = Some (VDict data) ->
  (forall K, dict_mem K data = true -> dict_mem K data' = true) ->
  fo' = dict_set cls (VDict data') (file_object self) ->
  subtable_entry_present self S K = true ->
  forall cur sc, subtable_entry_present (mkConfig fo' cur sc) S K = true.
Proof.
  intros Hget Hmono -> Hp cur sc. unfold subtable_entry_present in *. simpl.
  destruct (list_eq_dec ascii_dec S cls) as [->|Hne].
  - rewrite dict_get_set_same. rewrite Hget in Hp. apply Hmono. exact Hp.
  - rewrite dict_get_set_other by assumption. exact Hp.
Qed.

Lemma update_section_inv (self : config) (cls : str) (data data' : dict) cur :
  builder_inv self ->
  dict_get cls (file_object self) = Some (VDict data) ->
  (forall K, dict_mem K data = true -> dict_mem K data' = true) ->
  builder_inv (mkConfig (dict_set cls (VDict data') (file_object self))
                        cur (subclasses self)).
Proof.
  intros (Hs & Hk & Hp) Hget Hmono. split; [|split]; simpl.
  - unfold sections_ok in *. simpl. rewrite forallb_forall in *.
    intros e He. apply In_dict_set in He. destruct He as [->|He]; [reflexivity|].
    apply Hs. exact He.
  - intros S. rewrite Hk, dict_mem_set.
    destruct (PyStr.eqb S cls) eqn:E; [|reflexivity].
    apply eqb_eq in E. subst S. unfold dict_mem. rewrite Hget. reflexivity.
  - unfold subtable_present in *. simpl. rewrite forallb_forall in *.
    intros e He. specialize (Hp e He). rewrite forallb_forall in *.
    intros K HK. eapply present_after_update; eauto.
Qed.

(** Creating the class [cls], as [_newClass] and [_newSubClass] do for a
    class that does not exist. *)
Lemma ensure_class_inv (self : config) (cls : str) cur :
  builder_inv self ->
  dict_mem cls (file_object self) = false ->
  builder_inv (mkConfig (dict_setdefault cls (VDict []) (file_object self))
                        cur (dict_set cls [] (subclasses self))).
Proof.
  intros (Hs & Hk & Hp) Hnew. split; [|split]; simpl.
  - unfold sections_ok in *. simpl. rewrite forallb_Forall in *.
    apply dict_setdefault_Forall; [exact Hs|reflexivity].
  - intros S. rewrite dict_mem_set, dict_mem_setdefault, Hk. reflexivity.
  - unfold subtable_present in *. simpl. rewrite forallb_forall in *.
    intros e He. apply In_dict_set in He. destruct He as [->|He]; [reflexivity|].
    specialize (Hp e He). rewrite forallb_forall in *.
    intros K HK. specialize (Hp K HK).
    unfold subtable_entry_present in *. simpl.
    rewrite dict_get_setdefault.
    destruct (dict_get (fst e) (file_object self)); [exact Hp|discriminate].
Qed.

(** Recording the subclass [sub] of an existing class [cls]. *)
Lemma add_subclass_inv (self : config) (cls sub : str) names data cur :
  builder_inv self ->
  dict_get cls (subclasses self) = Some names ->
  dict_get cls (file_object self) = Some (VDict data) ->
  builder_inv
    (mkConfig (dict_set cls (VDict (dict_setdefault sub (VDict []) data))
                        (file_object self))
              cur (dict_set cls (set_add sub names) (subclasses self))).
Proof.
  intros Hinv Hn Hd.
  assert (forall K, dict_mem K data = true ->
                    dict_mem K (dict_setdefault sub (VDict []) data) = true)
    as Hmono.
  { intros K HK. rewrite dict_mem_setdefault, HK. apply orb_true_r. }
  pose proof (update_section_inv self cls data _ cur Hinv Hd Hmono)
    as (Hs & Hk & Hp).
  destruct Hinv as (_ & Hk0 & Hp0).
  split; [exact Hs|split]; simpl in *.
  - intros S. rewrite dict_mem_set, dict_mem_set, Hk0. reflexivity.
  - unfold subtable_present in *. simpl in *. rewrite forallb_forall in *.
    intros e He. apply In_dict_set in He. destruct He as [->|He].
    + simpl. rewrite forallb_forall. intros K HK.
      apply In_set_add in HK. destruct HK as [->|HK].
      * unfold subtable_entry_present. simpl. rewrite dict_get_set_same.
        rewrite dict_mem_setdefault, eqb_refl. reflexivity.
      * apply dict_get_In in Hn. specialize (Hp0 _ Hn). simpl in Hp0.
        rewrite forallb_forall in Hp0. specialize (Hp0 K HK).
        eapply present_after_update; eauto.
    + exact (Hp e He).
Qed.

Lemma _newClass_inv (self : config) (line : str) :
  builder_inv self -> builder_inv (_newClass self line).
Proof.
  intros Hinv. unfold _newClass, _classExists.
  destruct (dict_mem (slice_1_m1 line) (file_object self)) eqn:E; simpl;
    [exact Hinv|].
  apply ensure_class_inv; assumption.
Qed.

(** In a state of the builder, a header with exactly two parts is
    accepted, whatever the parts are. *)
Lemma _newSubClass_two_parts (self : config) (line cls sub : str) :
  builder_inv self ->
  _getClassSubClass line = [cls; sub] ->
  exists self',
    _newSubClass self line = Ok self' /\
    builder_inv self' /\
    current_class self' = Some (cls, Some sub, true) /\
    set_mem sub (subclass_names self' cls) = true /\
    subtable_entry_present self' cls sub = true.
Proof.
  intros Hinv Hsplit. unfold _newSubClass. rewrite Hsplit.
  assert (exists self1,
             (if negb (_classExists self cls)
              then (dict_setdefault cls (VDict []) (file_object self),
                    dict_set cls [] (subclasses self))
              else (file_object self, subclasses self))
             = (file_object self1, subclasses self1) /\
             builder_inv self1 /\ dict_mem cls (file_object self1) = true)
    as (self1 & -> & Hinv1 & Hmem).
  { unfold _classExists.
    destruct (dict_mem cls (file_object self)) eqn:E; simpl.
    - exists self. auto.
    - eexists (mkConfig _ None _). simpl. split; [reflexivity|]. split.
      + apply ensure_class_inv; assumption.
      + rewrite dict_mem_setdefault, eqb_refl. reflexivity. }
  pose proof Hinv1 as (Hs & Hk & _).
  assert (exists names, dict_get cls (subclasses self1) = Some names)
    as [names Hn].
  { specialize (Hk cls). rewrite Hmem in Hk. unfold dict_mem in Hk.
    destruct (dict_get cls (subclasses self1)); [eauto|discriminate]. }
  assert (exists data, dict_get cls (file_object self1) = Some (VDict data))
    as [data Hd].
  { unfold dict_mem in Hmem.
    destruct (dict_get cls (file_object self1)) as [v|] eqn:E; [|discriminate].
    unfold sections_ok in Hs. rewrite forallb_Forall in Hs.
    pose proof (dict_get_Forall _ _ _ _ Hs E) as Hv. simpl in Hv.
    destruct v; try discriminate. eauto. }
  rewrite Hn, Hd. eexists. split; [reflexivity|]. split; [|split; [|split]].
  - apply add_subclass_inv; assumption.
  - reflexivity.
  - unfold subclass_names. simpl. rewrite dict_get_set_same.
    rewrite set_mem_add, eqb_refl. reflexivity.
  - unfold subtable_entry_present. simpl. rewrite dict_get_set_same.
    rewrite dict_mem_setdefault, eqb_refl. reflexivity.
Qed.

Lemma _newProperty_inv (self self' : config) (line : str) :
  builder_inv self -> _newProperty self line = Ok self' -> builder_inv self'.
Proof.
  intros Hinv. unfold _newProperty.
  destruct (current_class self) as [[[cls sub] in_subclass]|];
    [|intros [= <-]; exact Hinv].
  destruct (split1 "=" line) as [|key [|value [|? ?]]]; try discriminate.
  destruct (dict_get cls (file_object self)) as [[| | | | | |data]|] eqn:Hd;
    try (destruct in_subclass; discriminate).
  destruct in_subclass.
  - destruct sub as [subclass|]; [|discriminate].
    destruct (dict_get subclass data) as [[| | | | | |sub_data]|] eqn:Hsd;
      try discriminate.
    intros [= <-]. eapply update_section_inv; eauto.
    intros K HK. rewrite dict_mem_set, HK. apply orb_true_r.
  - intros [= <-]. eapply update_section_inv; eauto.
    intros K HK. rewrite dict_mem_setdefault, HK. apply orb_true_r.
Qed.

Lemma _newSubClass_inv (self self' : config) (line : str) :
  builder_inv self -> _newSubClass self line = Ok self' -> builder_inv self'.
Proof.
  intros Hinv H.
  destruct (_getClassSubClass line) as [|cls [|sub [|? ?]]] eqn:E;
    try (unfold _newSubClass in H; rewrite E in H; discriminate).
  destruct (_newSubClass_two_parts self line cls sub Hinv E)
    as (self1 & H1 & Hinv1 & _).
  congruence.
Qed.

Lemma parse_line_inv (self self' : config) (line : str) :
  builder_inv self -> parse_line self line = Ok self' -> builder_inv self'.
Proof.
  intros Hinv. unfold parse_line.
  destruct (_isComment line || _isBlank line); [intros [= <-]; exact Hinv|].
  destruct (_isClass line); [intros [= <-]; apply _newClass_inv; exact Hinv|].
  destruct (_isSubClass line); [apply _newSubClass_inv; exact Hinv|].
  destruct (_isProperty line); [apply _newProperty_inv; exact Hinv|].
  intros [= <-]; exact Hinv.
Qed.

Lemma parse_lines_inv (lines : list str) (self self' : config) :
  builder_inv self -> parse_lines self lines = Ok self' -> builder_inv self'.
Proof.
  revert self. induction lines as [|line rest IH]; intros self Hinv; simpl.
  - intros [= <-]. exact Hinv.
  - destruct (parse_line self line) as [self1|e] eqn:E; simpl; [|discriminate].
    apply IH. eapply parse_line_inv; eauto.
Qed.

(** Every object that construction returns satisfies the invariant of the
    builder. *)
Lemma __init___inv (file : option str) (self : config) :
  __init__ file = Ok self -> builder_inv self.
Proof.
  unfold __init__, _parse. destruct file as [text|]; simpl; [|discriminate].
  apply parse_lines_inv. apply builder_inv_init.
Qed.

(* ================================================================== *)
(** ** Subclass headers *)

(** C3, as stated, fails: the header [[a.b.c]] is not accepted with its
    extra part discarded; the unpacking of the three parts into two names
    raises [ValueError], and construction fails with it. *)
Lemma C3_three_part_header_raises :
  _getClassSubClass "[a.b.c]" = ["a" : str; "b" : str; "c" : str] /\
  load ["[a.b.c]"] = Raise ValueError.
Proof. split; reflexivity. Qed.

(** C3, amended.  For a subclass header whose bracket-inner text contains
    exactly one dot, processing the header raises no fault in any state of
    the builder: the inner text splits into exactly the two parts (class,
    subclass), the current class becomes that pair, the subclass is
    recorded in the index and the entry exists in the document.  When the
    inner text has more than one dot, the split on all dots gives more
    than two parts and processing the header raises [ValueError]. *)
Theorem C3_subclass_header_needs_exactly_one_dot
        (lines : list str) (self : config) (cls sub : str) :
  parse_lines init lines = Ok self ->
  contains "." cls = false ->
  contains "." sub = false ->
  (exists self',
      parse_line self ("[" ++ cls ++ "." ++ sub ++ "]") = Ok self' /\
      current_class self' = Some (cls, Some sub, true) /\
      set_mem sub (subclass_names self' cls) = true /\
      subtable_entry_present self' cls sub = true) /\
  (forall more,
      parse_line self ("[" ++ cls ++ "." ++ sub ++ "." ++ more ++ "]")
      = Raise ValueError).
Proof.
  intros Hrun Hc Hs.
  assert (builder_inv self) as Hinv
      by (eapply parse_lines_inv; [apply builder_inv_init|exact Hrun]).
  assert (forall rest : str,
             parse_line self ("[" ++ cls ++ "." ++ rest ++ "]")
             = _newSubClass self ("[" ++ cls ++ "." ++ rest ++ "]")) as Hline.
  { intros rest. unfold parse_line, _isComment, _isBlank, _isClass, _isSubClass.
    lits. rewrite is_empty_strip. simpl. eqb_lits. simpl.
    replace ("["%char :: cls ++ "."%char :: rest ++ ["]"%char])
      with (("["%char :: cls ++ "."%char :: rest) ++ ["]"%char])
      by (simpl; rewrite <- app_assoc; reflexivity).
    rewrite endswith_last. eqb_lits. simpl.
    rewrite !contains_app. simpl. eqb_lits. simpl.
    rewrite orb_true_r. reflexivity. }
  assert (forall rest : str,
             _getClassSubClass ("[" ++ cls ++ "." ++ rest ++ "]")
             = cls :: split "." rest) as Hparts.
  { intros rest. unfold _getClassSubClass. lits. simpl.
    replace ("["%char :: cls ++ "."%char :: rest ++ ["]"%char])
      with ("["%char :: (cls ++ "."%char :: rest) ++ ["]"%char])
      by (simpl; rewrite <- app_assoc; reflexivity).
    rewrite slice_brackets. apply split_at_first. exact Hc. }
  split.
  - rewrite Hline.
    destruct (_newSubClass_two_parts self ("[" ++ cls ++ "." ++ sub ++ "]")
                cls sub Hinv) as (self' & H1 & _ & H2 & H3 & H4).
    { rewrite Hparts, split_without by assumption. reflexivity. }
    exists self'. auto.
  - intros more.
    specialize (Hline (sub ++ "." ++ more)).
    specialize (Hparts (sub ++ "." ++ more)).
    rewrite <- !app_assoc in Hline, Hparts.
    rewrite Hline. unfold _newSubClass. rewrite Hparts.
    change ("." ++ more) with ("."%char :: more).
    rewrite split_at_first by assumption.
    destruct (split "." more) eqn:E; [|reflexivity].
    apply split_nonempty in E. contradiction.
Qed.

Lemma C3_subclass_header_needs_exactly_one_dot_witness :
  (exists self',
      parse_line init "[unit.test]" = Ok self' /\
      current_class self' = Some ("unit" : str, Some ("test" : str), true) /\
      set_mem "test" (subclass_names self' "unit") = true /\
      subtable_entry_present self' "unit" "test" = true) /\
  parse_line init "[unit.test.int]" = Raise ValueError.
Proof.
  destruct (C3_subclass_header_needs_exactly_one_dot
              [] init "unit" "test" eq_refl eq_refl eq_refl) as [H1 H2].
  split; [exact H1|exact (H2 "int")].
Defined.

(* ================================================================== *)
(** ** The subtable index *)

(** C5, as stated, fails.  After the file [[a]], [b = 1], [[a.b]] the key
    [b] is in the index of [a] while [Document[a][b]] is the integer 1.
    And [set] breaks the invariant where it held: after the file [[a.b]],
    [set("a.b", 5)] puts the integer 5 under the indexed key. *)
Lemma C5_indexed_entry_can_be_a_scalar :
  (exists self,
      load ["[a]"; "b = 1"; "[a.b]"] = Ok self /\
      set_mem "b" (subclass_names self "a") = true /\
      get self "a.b" = Ok (VInt 1) /\
      subtable_inv self = false) /\
  (exists self,
      load ["[a.b]"] = Ok self /\
      subtable_inv self = true /\
      subtable_inv (fst (set self "a.b" (VInt 5))) = false).
Proof.
  split; eexists; (split; [vm_compute; reflexivity|]); repeat split; reflexivity.
Qed.

Lemma set_mem_In (x : str) (s : list str) : set_mem x s = true <-> In x s.
Proof.
  unfold set_mem. rewrite existsb_exists. split.
  - intros (y & Hy & E). apply eqb_eq in E. congruence.
  - intros H. exists x. split; [exact H|apply eqb_refl].
Qed.

(** C5, amended.  In every state that construction-time parsing returns
    (and [get] never changes the state), for every section name [S] and
    every key [K] in [SubtableIndex[S]], [Document[S]] is a mapping and
    has the key [K]: the entry exists. *)
Theorem C5_indexed_entries_exist (file : option str) (self : config) :
  __init__ file = Ok self ->
  forall S names K,
    dict_get S (subclasses self) = Some names ->
    set_mem K names = true ->
    exists data value,
      dict_get S (file_object self) = Some (VDict data) /\
      dict_get K data = Some value.
Proof.
  intros Hinit S names K Hn HK.
  apply __init___inv in Hinit. destruct Hinit as (_ & _ & Hp).
  unfold subtable_present in Hp. rewrite forallb_forall in Hp.
  specialize (Hp _ (dict_get_In _ _ _ Hn)). simpl in Hp.
  rewrite forallb_forall in Hp. apply set_mem_In in HK.
  specialize (Hp K HK). unfold subtable_entry_present in Hp.
  destruct (dict_get S (file_object self)) as [[| | | | | |data]|];
    try discriminate.
  unfold dict_mem in Hp. destruct (dict_get K data) as [value|] eqn:E;
    [|discriminate].
  exists data, value. split; [reflexivity|exact E].
Qed.

Lemma C5_indexed_entries_exist_witness :
  exists self,
    load ["[a]"; "b = 1"; "[a.b]"] = Ok self /\
    exists data value,
      dict_get "a" (file_object self) = Some (VDict data) /\
      dict_get "b" data = Some value.
Proof.
  eexists. split; [vm_compute; reflexivity|].
  eapply (C5_indexed_entries_exist (Some (file_of ["[a]"; "b = 1"; "[a.b]"]))).
  - vm_compute. reflexivity.
  - vm_compute. reflexivity.
  - reflexivity.
Defined.

(* ================================================================== *)
(** ** Property lines: the first write wins *)

Lemma parse_line_classify (self : config) (line : str) :
  parse_line self line =
  match classify line with
  | ClassHeader => Ok (_newClass self line)
  | SubclassHeader => _newSubClass self line
  | Property => _newProperty self line
  | Comment | Blank | Unknown => Ok self
  end.
Proof.
  unfold parse_line, classify.
  destruct (_isComment line), (_isBlank line), (_isClass line),
    (_isSubClass line), (_isProperty line); reflexivity.
Qed.












(* ================================================================== *)
(** ** Assignments through [set] *)

Lemma dict_set_absent {V} (k : str) (v : V) (d : list (str * V)) :
  dict_get k d = None -> dict_set k v d = d ++ [(k, v)].
Proof.
  induction d as [|[k0 v0] d IH]; simpl; [reflexivity|].
  destruct (PyStr.eqb k k0); [discriminate|].
  intros H. rewrite (IH H). reflexivity.
Qed.








(* ================================================================== *)
(** ** [set] and the subtable index *)






(* ================================================================== *)
(** ** Trimming *)

Lemma last_app_single {A} (s : list A) (x d : A) : last (s ++ [x]) d = x.
Proof.
  induction s as [|y s IH]; simpl; [reflexivity|].
  destruct (s ++ [x]) eqn:E; [destruct s; discriminate|exact IH].
Qed.

Lemma dropwhile_all (p : ascii -> bool) (w s : str) :
  forallb p w = true -> dropwhile p (w ++ s) = dropwhile p s.
Proof.
  induction w as [|c w IH]; simpl; [reflexivity|].
  destruct (p c); simpl; [exact IH|discriminate].
Qed.

Lemma trimmed_by_cons (p : ascii -> bool) (c : ascii) (s : str) :
  trimmed_by p (c :: s) = negb (p c) && negb (p (last (c :: s) c)).
Proof. reflexivity. Qed.

(** Trimming removes the padding around a trimmed string. *)
Lemma strip_by_padded (p : ascii -> bool) (w1 s w2 : str) :
  forallb p w1 = true -> forallb p w2 = true -> trimmed_by p s = true ->
  strip_by p (w1 ++ s ++ w2) = s.
Proof.
  intros H1 H2 Hs. unfold strip_by. rewrite dropwhile_all by exact H1.
  destruct s as [|c s].
  - simpl. apply dropwhile_nil_iff in H2. rewrite H2. reflexivity.
  - rewrite trimmed_by_cons in Hs. apply andb_true_iff in Hs.
    destruct Hs as [Hc Hl].
    apply negb_true_iff in Hc, Hl.
    change ((c :: s) ++ w2) with (c :: s ++ w2).
    rewrite dropwhile_keep by exact Hc.
    change (c :: s ++ w2) with ((c :: s) ++ w2).
    rewrite rev_app_distr, dropwhile_all
      by (rewrite forallb_forall in *; intros x Hx; apply H2, in_rev, Hx).
    destruct (exists_last (l := c :: s)) as (t & l & E); [discriminate|].
    rewrite E in Hl |- *. rewrite last_app_single in Hl.
    rewrite rev_app_distr. simpl. rewrite Hl. simpl.
    rewrite rev_involutive. reflexivity.
Qed.

Lemma strip_by_trimmed (p : ascii -> bool) (s : str) :
  trimmed_by p s = true -> strip_by p s = s.
Proof.
  intros H. pose proof (strip_by_padded p [] s [] eq_refl eq_refl H) as E.
  simpl in E. rewrite app_nil_r in E. exact E.
Qed.

Lemma strip_padded (w1 s w2 : str) :
  forallb is_space w1 = true -> forallb is_space w2 = true ->
  trimmed s = true -> strip (w1 ++ s ++ w2) = s.
Proof. apply strip_by_padded. Qed.

Lemma strip_trimmed (s : str) : trimmed s = true -> strip s = s.
Proof. apply strip_by_trimmed. Qed.

(** The text between two quotes, when it has no quote at its ends. *)
Lemma strip_char_quoted (q : ascii) (s : str) :
  unquoted q s = true -> strip_char q (q :: s ++ [q]) = s.
Proof.
  intros H. apply (strip_by_padded (Ascii.eqb q) [q] s [q]); try exact H;
    simpl; rewrite Ascii.eqb_refl; reflexivity.
Qed.

(** A non-empty string with no character of the class at its ends. *)
Lemma trimmed_by_ends (p : ascii -> bool) (a b : ascii) (s : str) :
  p a = false -> p b = false -> trimmed_by p (a :: s ++ [b]) = true.
Proof.
  intros Ha Hb. rewrite trimmed_by_cons.
  change (a :: s ++ [b]) with ((a :: s) ++ [b]).
  rewrite last_app_single, Ha, Hb. reflexivity.
Qed.

Lemma trimmed_by_all (p : ascii -> bool) (s : str) :
  forallb (fun c => negb (p c)) s = true -> trimmed_by p s = true.
Proof.
  intros H. destruct s as [|c s]; [reflexivity|].
  rewrite trimmed_by_cons. rewrite forallb_forall in H.
  rewrite (H c) by (left; reflexivity). rewrite andb_true_l.
  apply H. destruct (exists_last (l := c :: s)) as (t & l & E); [discriminate|].
  rewrite E, last_app_single. apply in_or_app. right. left. reflexivity.
Qed.

(* ================================================================== *)
(** ** Decimal digits *)

Lemma chars_of_uint_digits (d : Decimal.uint) :
  forallb is_digit (chars_of_uint d) = true.
Proof. induction d; simpl; try rewrite IHd; reflexivity. Qed.

Lemma N_of_digits_acc (d : Decimal.uint) (p : positive) :
  fold_left (fun acc c => (10 * acc + digit_of_char c)%N)
            (chars_of_uint d) (Npos p)
  = Npos (Pos.of_uint_acc d p).
Proof.
  revert p. induction d; intros p; [reflexivity|..];
    cbn [chars_of_uint fold_left Pos.of_uint_acc];
    match goal with
    | |- fold_left _ _ (10 * _ + digit_of_char ?c)%N
         = N.pos (Pos.of_uint_acc _ ?q) =>
        let k := eval vm_compute in (digit_of_char c) in
        change (digit_of_char c) with k;
        replace (10 * N.pos p + k)%N with (N.pos q) by lia
    end; apply IHd.
Qed.

Lemma N_of_digits_uint (d : Decimal.uint) :
  N_of_digits (chars_of_uint d) = N.of_uint d.
Proof.
  unfold N_of_digits, N.of_uint.
  induction d; [reflexivity|exact IHd|..];
    cbn [chars_of_uint fold_left Pos.of_uint];
    match goal with
    | |- fold_left _ _ (10 * 0 + digit_of_char ?c)%N
         = N.pos (Pos.of_uint_acc _ ?q) =>
        change (10 * 0 + digit_of_char c)%N with (N.pos q)
    end; apply N_of_digits_acc.
Qed.

(** Reading back the digits of a number. *)
Lemma N_of_digits_of_N (n : N) : N_of_digits (digits_of_N n) = n.
Proof.
  unfold digits_of_N. rewrite N_of_digits_uint. apply DecimalN.Unsigned.of_to.
Qed.

Lemma digits_of_N_digits (n : N) : forallb is_digit (digits_of_N n) = true.
Proof. apply chars_of_uint_digits. Qed.

Lemma digits_of_N_nonempty (n : N) : digits_of_N n <> [].
Proof.
  unfold digits_of_N. destruct n as [|p]; simpl; [discriminate|].
  pose proof (DecimalPos.Unsigned.to_uint_nonnil p) as H.
  destruct (Pos.to_uint p); simpl; congruence.
Qed.

Lemma isdigit_digits_of_N (n : N) : isdigit (digits_of_N n) = true.
Proof.
  unfold isdigit. pose proof (digits_of_N_nonempty n).
  destruct (digits_of_N n) eqn:E; [contradiction|].
  rewrite <- E. apply digits_of_N_digits.
Qed.

Lemma N_of_digits_app (s t : str) :
  N_of_digits (s ++ t) =
  fold_left (fun acc c => (10 * acc + digit_of_char c)%N) t (N_of_digits s).
Proof. unfold N_of_digits. apply fold_left_app. Qed.

Lemma N_of_digits_snoc (s : str) (c : ascii) :
  N_of_digits (s ++ [c]) = (10 * N_of_digits s + digit_of_char c)%N.
Proof. rewrite N_of_digits_app. reflexivity. Qed.

Lemma N_of_digits_zeros (k : nat) (s : str) :
  N_of_digits (repeat "0"%char k ++ s) = N_of_digits s.
Proof.
  induction k as [|k IH]; simpl; [reflexivity|].
  unfold N_of_digits in *. simpl. exact IH.
Qed.

(* ================================================================== *)
(** ** The value codec reads back what it writes: scalars *)

Lemma convert_fuel_eq (fuel : nat) (value : str) :
  convert_fuel fuel value =
  let self_convert_value :=
    match fuel with
    | O => fun _ => VNone
    | S fuel' => convert_fuel fuel'
    end in
  let value := strip value in
  if PyStr.eqb (lower value) "true" || PyStr.eqb (lower value) "false" then
    VBool (PyStr.eqb (lower value) "true")
  else if isdigit value then VInt (int_of_str value)
  else
    match float_of_str value with
    | Some f => VFloat f
    | None =>
        if startswith "[" value && endswith "]" value then
          let items := split "," (slice_1_m1 value) in
          VList (map (fun item => self_convert_value (strip item))
                     (filter (fun item => negb (is_empty (strip item))) items))
        else if startswith "{" value && endswith "}" value then
          VDict (_parse_inline_dict_with self_convert_value value)
        else VStr (strip_char dq value)
    end.
Proof. destruct fuel; reflexivity. Qed.

Lemma token_char_plain (c : ascii) :
  token_char c = true ->
  is_space c = false /\ is_linebreak c = false /\
  Ascii.eqb c "," = false /\ Ascii.eqb c dq = false /\
  Ascii.eqb c "]" = false /\ Ascii.eqb c "[" = false /\
  Ascii.eqb c "{" = false /\ Ascii.eqb c "=" = false /\
  Ascii.eqb c "#" = false /\ lower_char c = c.
Proof.
  destruct c as [[] [] [] [] [] [] [] []]; intros H;
    try discriminate H; repeat split; reflexivity.
Qed.

Lemma is_digit_token (c : ascii) : is_digit c = true -> token_char c = true.
Proof. unfold token_char. intros ->. reflexivity. Qed.

(** A text that does not begin like [true] or [false]. *)
Lemma not_bool_literal (c : ascii) (s : str) :
  Ascii.eqb (lower_char c) "t" = false ->
  Ascii.eqb (lower_char c) "f" = false ->
  PyStr.eqb (lower (c :: s)) "true" || PyStr.eqb (lower (c :: s)) "false" = false.
Proof.
  intros Ht Hf. apply orb_false_iff. split; apply eqb_neq; simpl; lits;
    intros [= E _]; rewrite E in *; discriminate.
Qed.

Lemma isdigit_first (c : ascii) (s : str) :
  is_digit c = false -> isdigit (c :: s) = false.
Proof. intros H. simpl. rewrite H. reflexivity. Qed.

Lemma digitpart_stop (c : ascii) (s : str) :
  is_digit c = false -> digitpart (c :: s) = ([], c :: s).
Proof. intros H. simpl. rewrite H. reflexivity. Qed.

(** [float] rejects a text that begins with a character that is neither
    a sign, a digit, a dot nor a letter of [inf] or [nan]. *)
Lemma float_of_str_first (c : ascii) (s : str) :
  is_space c = false ->
  is_space (last (c :: s) c) = false ->
  is_digit c = false ->
  Ascii.eqb c "-" = false -> Ascii.eqb c "+" = false ->
  Ascii.eqb c "." = false ->
  Ascii.eqb (lower_char c) "i" = false ->
  Ascii.eqb (lower_char c) "n" = false ->
  float_of_str (c :: s) = None.
Proof.
  intros Hs Hl Hd Hm Hp Hdot Hi Hn. unfold float_of_str.
  rewrite strip_trimmed
    by (unfold trimmed; rewrite trimmed_by_cons, Hs, Hl; reflexivity).
  unfold read_sign. rewrite Hm, Hp.
  replace (PyStr.eqb (lower (c :: s)) "inf") with false
    by (symmetry; apply eqb_neq; simpl; lits; intros [= E _];
        rewrite E in *; discriminate).
  replace (PyStr.eqb (lower (c :: s)) "infinity") with false
    by (symmetry; apply eqb_neq; simpl; lits; intros [= E _];
        rewrite E in *; discriminate).
  replace (PyStr.eqb (lower (c :: s)) "nan") with false
    by (symmetry; apply eqb_neq; simpl; lits; intros [= E _];
        rewrite E in *; discriminate).
  simpl orb. cbv iota.
  unfold read_number. rewrite digitpart_stop by exact Hd.
  rewrite Hdot. reflexivity.
Qed.

Lemma convert_bool (fuel : nat) (b : bool) :
  convert_fuel fuel (_value_to_string (VBool b)) = VBool b.
Proof. destruct fuel, b; reflexivity. Qed.

Lemma convert_int (fuel : nat) (z : Z) :
  (0 <=? z)%Z = true ->
  convert_fuel fuel (_value_to_string (VInt z)) = VInt z.
Proof.
  intros Hz. apply Z.leb_le in Hz.
  assert (_value_to_string (VInt z) = digits_of_N (Z.to_N z)) as ->.
  { simpl. unfold str_of_int. destruct z; try reflexivity. lia. }
  set (t := digits_of_N (Z.to_N z)).
  assert (forallb token_char t = true) as Htok.
  { apply forallb_forall. intros c Hc. apply is_digit_token.
    pose proof (digits_of_N_digits (Z.to_N z)) as H.
    rewrite forallb_forall in H. apply H. exact Hc. }
  assert (strip t = t) as Hstrip.
  { apply strip_trimmed, trimmed_by_all, forallb_forall. intros c Hc.
    rewrite forallb_forall in Htok.
    destruct (token_char_plain c (Htok c Hc)) as (-> & _). reflexivity. }
  rewrite convert_fuel_eq. cbv zeta. rewrite Hstrip.
  pose proof (isdigit_digits_of_N (Z.to_N z)) as Hd. fold t in Hd.
  destruct t as [|c s] eqn:Et; [discriminate|].
  assert (is_digit c = true) as Hc
      by (simpl in Hd; apply andb_true_iff in Hd; tauto).
  rewrite not_bool_literal.
  - rewrite Hd. unfold int_of_str. rewrite <- Et. unfold t.
    rewrite N_of_digits_of_N, Z2N.id by exact Hz. reflexivity.
  - destruct c as [[] [] [] [] [] [] [] []]; try discriminate Hc; reflexivity.
  - destruct c as [[] [] [] [] [] [] [] []]; try discriminate Hc; reflexivity.
Qed.

Lemma convert_str (fuel : nat) (s : str) :
  unquoted dq s = true ->
  convert_fuel fuel (_value_to_string (VStr s)) = VStr s.
Proof.
  intros Hq. simpl _value_to_string.
  assert (strip (dq :: s ++ [dq]) = dq :: s ++ [dq]) as Hstrip
      by (apply strip_trimmed, trimmed_by_ends; reflexivity).
  rewrite convert_fuel_eq. cbv zeta. rewrite Hstrip.
  rewrite not_bool_literal by reflexivity.
  rewrite isdigit_first by reflexivity.
  rewrite float_of_str_first; try reflexivity.
  - simpl startswith. eqb_lits. simpl andb. cbv iota.
    rewrite strip_char_quoted by exact Hq. reflexivity.
  - change (dq :: s ++ [dq]) with ((dq :: s) ++ [dq]).
    rewrite last_app_single. reflexivity.
Qed.

(* ================================================================== *)
(** ** Reading back the text of a float *)

Lemma digit_not_underscore (c : ascii) :
  is_digit c = true -> Ascii.eqb c "_" = false.
Proof.
  destruct c as [[] [] [] [] [] [] [] []]; intros H;
    try discriminate H; reflexivity.
Qed.

Lemma digitpart_cons (c : ascii) (s' : str) :
  digitpart (c :: s') =
  if is_digit c then
    match s' with
    | u :: s'' =>
        if Ascii.eqb u "_" && match s'' with d :: _ => is_digit d | [] => false end
        then let (ds, r) := digitpart s'' in (c :: ds, r)
        else let (ds, r) := digitpart s' in (c :: ds, r)
    | [] => ([c], [])
    end
  else ([], c :: s').
Proof. reflexivity. Qed.

Lemma digitpart_digits (ds rest : str) :
  forallb is_digit ds = true -> stops_digits rest = true ->
  digitpart (ds ++ rest) = (ds, rest).
Proof.
  intros Hd Hr. induction ds as [|c ds IH].
  - destruct rest as [|r rest]; [reflexivity|].
    simpl in *. apply andb_true_iff in Hr. destruct Hr as [Hr _].
    apply negb_true_iff in Hr. rewrite Hr. reflexivity.
  - simpl in Hd. apply andb_true_iff in Hd. destruct Hd as [Hc Hd].
    specialize (IH Hd). change ((c :: ds) ++ rest) with (c :: ds ++ rest).
    rewrite digitpart_cons, Hc.
    destruct (ds ++ rest) as [|u s''] eqn:E.
    + apply app_eq_nil in E. destruct E as [-> ->]. reflexivity.
    + assert (Ascii.eqb u "_" = false) as Hu.
      { destruct ds as [|d ds]; simpl in E.
        - subst rest. simpl in Hr. apply andb_true_iff in Hr.
          destruct Hr as [_ Hr]. apply negb_true_iff in Hr. exact Hr.
        - injection E as -> _. simpl in Hd. apply andb_true_iff in Hd.
          apply digit_not_underscore. tauto. }
      rewrite Hu. simpl andb. cbv iota. rewrite IH. reflexivity.
Qed.

Lemma digitpart_all (ds : str) :
  forallb is_digit ds = true -> digitpart ds = (ds, []).
Proof.
  intros H. pose proof (digitpart_digits ds [] H eq_refl) as E.
  rewrite app_nil_r in E. exact E.
Qed.

Lemma count_leading_zeros_repeat (j : nat) (c : ascii) (s : str) :
  Ascii.eqb c "0" = false ->
  count_leading_zeros (repeat "0"%char j ++ c :: s) = j.
Proof.
  intros Hc. induction j as [|j IH]; simpl.
  - rewrite Hc. reflexivity.
  - eqb_lits. rewrite IH. reflexivity.
Qed.

Lemma rev_repeat {A} (x : A) (j : nat) : rev (repeat x j) = repeat x j.
Proof.
  induction j as [|j IH]; simpl; [reflexivity|].
  rewrite IH. clear IH. induction j as [|j IH]; simpl; [reflexivity|].
  rewrite IH. reflexivity.
Qed.

(** The float of a digit string that ends with [j] zeros after a digit
    other than zero. *)
Lemma mk_float_trailing (neg : bool) (pre : str) (c : ascii) (j : nat) (e0 : Z) :
  Ascii.eqb c "0" = false ->
  N_of_digits (pre ++ [c]) <> 0%N ->
  mk_float neg ((pre ++ [c]) ++ repeat "0"%char j) e0
  = FFin neg (N_of_digits (pre ++ [c])) (e0 + Z.of_nat j).
Proof.
  intros Hc Hm.
  assert (count_leading_zeros (rev ((pre ++ [c]) ++ repeat "0"%char j)) = j)
    as H1.
  { rewrite !rev_app_distr, rev_repeat.
    change (rev [c] ++ rev pre) with (c :: rev pre).
    apply count_leading_zeros_repeat. exact Hc. }
  assert (firstn (length ((pre ++ [c]) ++ repeat "0"%char j) - j)
                 ((pre ++ [c]) ++ repeat "0"%char j) = pre ++ [c]) as H2.
  { rewrite length_app, repeat_length, Nat.add_sub.
    rewrite firstn_app, Nat.sub_diag, firstn_all. simpl firstn.
    apply app_nil_r. }
  unfold mk_float. rewrite H1, H2.
  destruct (N.eqb_spec (N_of_digits (pre ++ [c])) 0); [contradiction|].
  reflexivity.
Qed.

(** The last digit of a number that is not a multiple of ten. *)
Lemma digits_of_N_last (m : N) :
  (m mod 10 <> 0)%N ->
  exists pre c, digits_of_N m = pre ++ [c] /\ Ascii.eqb c "0" = false.
Proof.
  intros Hm.
  destruct (exists_last (digits_of_N_nonempty m)) as (pre & c & E).
  exists pre, c. split; [exact E|].
  destruct (Ascii.eqb c "0") eqn:Hc; [|reflexivity].
  apply Ascii.eqb_eq in Hc. subst c. exfalso. apply Hm.
  pose proof (N_of_digits_of_N m) as H. rewrite E, N_of_digits_snoc in H.
  change (digit_of_char "0") with 0%N in H. rewrite <- H.
  rewrite N.add_0_r, N.mul_comm. apply N.Div0.mod_mul.
Qed.

Lemma N_of_digits_pad2 (s : str) : N_of_digits (pad2 s) = N_of_digits s.
Proof. destruct s as [|c [|d s]]; reflexivity. Qed.

Lemma pad2_digits (s : str) :
  forallb is_digit s = true -> forallb is_digit (pad2 s) = true.
Proof. destruct s as [|c [|d s]]; simpl; auto. Qed.

Lemma pad2_nonempty (s : str) : s <> [] -> pad2 s <> [].
Proof. destruct s as [|c [|d s]]; simpl; congruence. Qed.

(** The exponent part that [str] writes. *)
Lemma read_exponent_written (x : Z) :
  read_exponent ("e" ++ (if (x <? 0)%Z then "-" else "+")
                     ++ pad2 (digits_of_N (Z.abs_N x))) = Some x.
Proof.
  set (ds := pad2 (digits_of_N (Z.abs_N x))).
  assert (digitpart ds = (ds, [])) as Hdp
      by (apply digitpart_all, pad2_digits, digits_of_N_digits).
  assert (ds <> []) as Hne by (apply pad2_nonempty, digits_of_N_nonempty).
  assert (N_of_digits ds = Z.abs_N x) as Hval
      by (unfold ds; rewrite N_of_digits_pad2; apply N_of_digits_of_N).
  unfold read_exponent. lits. simpl app. eqb_lits.
  change (Ascii.eqb (lower_char "e") "e") with true. cbv iota.
  destruct (x <? 0)%Z eqn:Hx; simpl app; unfold read_sign; eqb_lits;
    cbv iota; rewrite Hdp; destruct ds; try contradiction;
    rewrite Hval, N2Z.inj_abs_N;
    change (lower_char "e"%char) with "e"%char; eqb_lits; cbv iota; f_equal;
    [apply Z.ltb_lt in Hx|apply Z.ltb_ge in Hx]; lia.
Qed.

Lemma read_number_dotted (neg : bool) (ip fp r2 : str) (x : Z) :
  forallb is_digit ip = true -> forallb is_digit fp = true ->
  ip ++ fp <> [] -> stops_digits r2 = true ->
  read_exponent r2 = Some x ->
  read_number neg (ip ++ "."%char :: fp ++ r2)
  = Some (mk_float neg (ip ++ fp) (x - Z.of_nat (length fp))).
Proof.
  intros Hi Hf Hne Hr Hx. unfold read_number.
  rewrite digitpart_digits by (assumption || reflexivity).
  eqb_lits. cbv iota. rewrite digitpart_digits by assumption.
  destruct (ip ++ fp) eqn:E; [contradiction|]. rewrite Hx. reflexivity.
Qed.

Lemma read_number_plain (neg : bool) (ip r2 : str) (c : ascii) (x : Z) :
  forallb is_digit ip = true -> ip <> [] ->
  is_digit c = false -> Ascii.eqb c "_" = false -> Ascii.eqb c "." = false ->
  read_exponent (c :: r2) = Some x ->
  read_number neg (ip ++ c :: r2) = Some (mk_float neg ip x).
Proof.
  intros Hi Hne Hc Hu Hd Hx. unfold read_number.
  rewrite digitpart_digits
    by (try assumption; simpl; rewrite Hc, Hu; reflexivity).
  rewrite Hd, app_nil_r. destruct ip; [contradiction|].
  rewrite Hx. simpl length. rewrite Z.sub_0_r. reflexivity.
Qed.

Lemma repeat_snoc {A} (x : A) (k : nat) : repeat x k ++ [x] = repeat x (S k).
Proof. induction k as [|k IH]; simpl; [reflexivity|]. rewrite IH. reflexivity. Qed.

Lemma forallb_repeat {A} (f : A -> bool) (x : A) (k : nat) :
  f x = true -> forallb f (repeat x k) = true.
Proof. intros H. induction k; simpl; [reflexivity|]. rewrite H. assumption. Qed.

Lemma forallb_firstn {A} (f : A -> bool) (k : nat) (l : list A) :
  forallb f l = true -> forallb f (firstn k l) = true.
Proof.
  rewrite !forallb_forall. intros H x Hx. apply H.
  rewrite <- (firstn_skipn k l). apply in_or_app. left. exact Hx.
Qed.

Lemma forallb_skipn {A} (f : A -> bool) (k : nat) (l : list A) :
  forallb f l = true -> forallb f (skipn k l) = true.
Proof.
  rewrite !forallb_forall. intros H x Hx. apply H.
  rewrite <- (firstn_skipn k l). apply in_or_app. right. exact Hx.
Qed.

(** The float of the digits of [m] between [k] leading and [j] trailing
    zeros. *)
Lemma mk_float_digits (neg : bool) (m : N) (k j : nat) (e0 : Z) :
  (m mod 10 <> 0)%N ->
  mk_float neg (repeat "0"%char k ++ digits_of_N m ++ repeat "0"%char j) e0
  = FFin neg m (e0 + Z.of_nat j).
Proof.
  intros Hm. destruct (digits_of_N_last m Hm) as (pre & c & Eds & Hc).
  assert (N_of_digits ((repeat "0"%char k ++ pre) ++ [c]) = m) as Hval.
  { rewrite <- app_assoc, N_of_digits_zeros, <- Eds. apply N_of_digits_of_N. }
  rewrite Eds.
  replace (repeat "0"%char k ++ (pre ++ [c]) ++ repeat "0"%char j)
    with (((repeat "0"%char k ++ pre) ++ [c]) ++ repeat "0"%char j)
    by (rewrite <- !app_assoc; reflexivity).
  rewrite mk_float_trailing; rewrite ?Hval; auto.
  intros ->. apply Hm. reflexivity.
Qed.

(** [float] reads the text of a finite float back. *)
Lemma read_repr_finite (neg : bool) (m : N) (e : Z) :
  float_ok (FFin neg m e) = true ->
  read_number neg (repr_finite m e) = Some (FFin neg m e).
Proof.
  unfold float_ok. destruct (N.eqb_spec m 0) as [->|Hm0].
  - intros He. apply Z.eqb_eq in He. subst e. destruct neg; reflexivity.
  - intros Hm. apply negb_true_iff, N.eqb_neq in Hm.
    pose proof (digits_of_N_digits m) as Hdig.
    pose proof (digits_of_N_nonempty m) as Hne.
    pose proof (mk_float_digits neg m) as Hmk.
    unfold repr_finite.
    destruct (N.eqb_spec m 0) as [|_]; [contradiction|].
    set (ds := digits_of_N m) in *.
    set (n := Z.of_nat (length ds)).
    assert (0 < n)%Z as Hn.
    { subst n. destruct ds; [contradiction|]. simpl length. lia. }
    destruct ((-4 <? n + e) && (n + e <=? 16))%Z eqn:Hrange.
    + destruct (n + e <=? 0)%Z eqn:HA.
      * (* 0.000ddd *)
        apply Z.leb_le in HA.
        set (k := Z.to_nat (- (n + e))).
        replace ("0." ++ repeat "0"%char k ++ ds)
          with (["0"%char] ++ "."%char :: (repeat "0"%char k ++ ds) ++ [])
          by (rewrite app_nil_r; reflexivity).
        rewrite read_number_dotted with (x := 0%Z); try reflexivity.
        -- f_equal.
           replace (["0"%char] ++ repeat "0"%char k ++ ds)
             with (repeat "0"%char (S k) ++ ds ++ repeat "0"%char 0)
             by (simpl; rewrite app_nil_r; reflexivity).
           rewrite Hmk by exact Hm.
           f_equal. rewrite length_app, repeat_length.
           fold ds. subst k n. lia.
        -- rewrite forallb_app, forallb_repeat by reflexivity. exact Hdig.
        -- discriminate.
      * apply Z.leb_gt in HA. destruct (n <=? n + e)%Z eqn:HB.
        -- (* ddd000.0 *)
           apply Z.leb_le in HB.
           set (k := Z.to_nat (n + e - n)).
           replace (ds ++ repeat "0"%char k ++ ".0")
             with ((ds ++ repeat "0"%char k) ++ "."%char :: ["0"%char] ++ [])
             by (rewrite <- app_assoc; reflexivity).
           rewrite read_number_dotted with (x := 0%Z); try reflexivity.
           ++ f_equal.
              replace ((ds ++ repeat "0"%char k) ++ ["0"%char])
                with (repeat "0"%char 0 ++ ds ++ repeat "0"%char (S k))
                by (rewrite <- app_assoc, repeat_snoc; reflexivity).
              rewrite Hmk by exact Hm.
              f_equal. subst k n. simpl length. lia.
           ++ rewrite forallb_app, forallb_repeat by reflexivity.
              rewrite Hdig. reflexivity.
           ++ destruct ds; [contradiction|discriminate].
        -- (* dd.ddd *)
           apply Z.leb_gt in HB.
           set (d := Z.to_nat (n + e)).
           replace (firstn d ds ++ "." ++ skipn d ds)
             with (firstn d ds ++ "."%char :: skipn d ds ++ [])
             by (rewrite app_nil_r; reflexivity).
           rewrite read_number_dotted with (x := 0%Z); try reflexivity.
           ++ f_equal. rewrite firstn_skipn.
              replace ds with (repeat "0"%char 0 ++ ds ++ repeat "0"%char 0) at 1
                by (simpl; apply app_nil_r).
              rewrite Hmk by exact Hm.
              f_equal. rewrite length_skipn. subst d n. lia.
           ++ apply forallb_firstn. exact Hdig.
           ++ apply forallb_skipn. exact Hdig.
           ++ rewrite firstn_skipn. exact Hne.
    + (* d.ddde+XX *)
      set (x := (n + e - 1)%Z).
      set (ex := (if (x <? 0)%Z then "-" else "+")
                   ++ pad2 (digits_of_N (Z.abs_N x))).
      pose proof (read_exponent_written x) as Hex. fold ex in Hex.
      assert (forall e0, mk_float neg ds e0 = FFin neg m e0) as Hmk0.
      { intros e0.
        replace ds with (repeat "0"%char 0 ++ ds ++ repeat "0"%char 0) at 1
          by (simpl; apply app_nil_r).
        rewrite Hmk by exact Hm. f_equal. lia. }
      clearbody ds. clear Hmk.
      destruct ds as [|d1 rest]; [contradiction|].
      simpl in Hdig. apply andb_true_iff in Hdig. destruct Hdig as [Hd1 Hrest].
      simpl firstn. simpl skipn.
      destruct rest as [|r0 rest'].
      * change ([d1] ++ [] ++ "e" ++ ex) with ([d1] ++ "e"%char :: ex).
        rewrite read_number_plain with (x := x);
          try reflexivity; try discriminate; try assumption.
        -- rewrite Hmk0. do 2 f_equal. subst x n. simpl length. lia.
        -- simpl. rewrite Hd1. reflexivity.
      * change ([d1] ++ ("."%char :: r0 :: rest') ++ "e" ++ ex)
          with ([d1] ++ "."%char :: (r0 :: rest') ++ "e"%char :: ex).
        rewrite read_number_dotted with (x := x);
          try reflexivity; try discriminate; try assumption.
        -- change ([d1] ++ r0 :: rest') with (d1 :: r0 :: rest').
           rewrite Hmk0. do 2 f_equal. subst x n. simpl length. lia.
        -- simpl. rewrite Hd1. reflexivity.
Qed.

Lemma forallb_impl {A} (f g : A -> bool) (l : list A) :
  (forall x, f x = true -> g x = true) ->
  forallb f l = true -> forallb g l = true.
Proof. rewrite !forallb_forall. auto. Qed.

Lemma isdigit_false_in (c : ascii) (s : str) :
  In c s -> is_digit c = false -> isdigit s = false.
Proof.
  intros Hin Hc. destruct s as [|x s]; [reflexivity|].
  unfold isdigit. destruct (forallb is_digit (x :: s)) eqn:E; [|reflexivity].
  rewrite forallb_forall in E. rewrite (E c Hin) in Hc. discriminate.
Qed.

(** The text of a finite float begins with a digit, is made of the
    characters of numbers, and is not made of digits only. *)
Lemma repr_finite_shape (m : N) (e : Z) :
  exists c rest,
    repr_finite m e = c :: rest /\ is_digit c = true /\
    forallb token_char rest = true /\
    exists x, In x rest /\ is_digit x = false.
Proof.
  pose proof (digits_of_N_digits m) as Hdig.
  pose proof (digits_of_N_nonempty m) as Hne.
  assert (forallb token_char (digits_of_N m) = true) as Htok
      by (eapply forallb_impl; [apply is_digit_token|exact Hdig]).
  unfold repr_finite. set (ds := digits_of_N m) in *.
  set (n := Z.of_nat (length ds)).
  destruct (N.eqb m 0).
  { exists "0"%char, ".0". repeat split. exists "."%char. split; [left|]; reflexivity. }
  destruct ((-4 <? n + e) && (n + e <=? 16))%Z.
  - destruct (n + e <=? 0)%Z eqn:HA.
    + exists "0"%char, ("." ++ repeat "0"%char (Z.to_nat (- (n + e))) ++ ds).
      repeat split.
      * lits. simpl. rewrite forallb_app, forallb_repeat by reflexivity.
        exact Htok.
      * exists "."%char. split; [left|]; reflexivity.
    + apply Z.leb_gt in HA. destruct (n <=? n + e)%Z.
      * destruct ds as [|d1 rest]; [contradiction|].
        simpl in Hdig, Htok. apply andb_true_iff in Hdig, Htok.
        exists d1, (rest ++ repeat "0"%char (Z.to_nat (n + e - n)) ++ ".0").
        repeat split; try tauto.
        -- rewrite !forallb_app, forallb_repeat by reflexivity.
           destruct Htok as [_ ->]. reflexivity.
        -- exists "."%char. split; [|reflexivity].
           apply in_or_app. right. apply in_or_app. right. left. reflexivity.
      * destruct ds as [|d1 rest]; [contradiction|].
        simpl in Hdig, Htok. apply andb_true_iff in Hdig, Htok.
        destruct (Z.to_nat (n + e)) as [|d] eqn:Ed; [lia|].
        exists d1, (firstn d rest ++ "." ++ skipn (S d) (d1 :: rest)).
        repeat split; try tauto.
        -- rewrite forallb_app, forallb_firstn by tauto. lits. simpl.
           apply forallb_skipn. tauto.
        -- exists "."%char. split; [|reflexivity].
           apply in_or_app. right. left. reflexivity.
  - destruct ds as [|d1 rest]; [contradiction|].
    simpl in Hdig, Htok. apply andb_true_iff in Hdig, Htok.
    exists d1, (match rest with [] => [] | a :: l => "."%char :: a :: l end
                  ++ "e" ++ (if (n + e - 1 <? 0)%Z then "-" else "+")
                  ++ pad2 (digits_of_N (Z.abs_N (n + e - 1)))).
    split; [reflexivity|]. repeat split; try tauto.
    + rewrite !forallb_app.
      assert (forallb token_char
                match rest with [] => [] | a :: l => "."%char :: a :: l end
              = true) as -> by (destruct rest; [reflexivity|simpl; tauto]).
      assert (forallb token_char
                (pad2 (digits_of_N (Z.abs_N (n + e - 1)))) = true) as ->.
      { eapply forallb_impl; [apply is_digit_token|].
        apply pad2_digits, digits_of_N_digits. }
      destruct (n + e - 1 <? 0)%Z; reflexivity.
    + exists "e"%char. split; [|reflexivity].
      apply in_or_app. right. lits. simpl. left. reflexivity.
Qed.

Lemma token_text_trimmed (t : str) :
  forallb token_char t = true ->
  strip t = t /\ no_linebreak t = true /\ contains "," t = false.
Proof.
  intros H. rewrite forallb_forall in H. split; [|split].
  - apply strip_trimmed, trimmed_by_all, forallb_forall. intros c Hc.
    destruct (token_char_plain c (H c Hc)) as (-> & _). reflexivity.
  - apply forallb_forall. intros c Hc.
    destruct (token_char_plain c (H c Hc)) as (_ & -> & _). reflexivity.
  - apply contains_false_iff. intros Hin.
    destruct (token_char_plain _ (H _ Hin)) as (_ & _ & E & _). discriminate E.
Qed.

(** The text of a float is made of the characters of numbers. *)
Lemma str_of_float_tokens (f : pyfloat) :
  forallb token_char (str_of_float f) = true /\ str_of_float f <> [].
Proof.
  destruct f as [neg m e|neg|]; simpl.
  - destruct (repr_finite_shape m e) as (c & rest & -> & Hc & Hr & _).
    split; [|destruct neg; discriminate].
    rewrite forallb_app. simpl. rewrite (is_digit_token c Hc), Hr.
    destruct neg; reflexivity.
  - destruct neg; split; (reflexivity || discriminate).
  - split; (reflexivity || discriminate).
Qed.

(** [float] reads back the text of a float other than NaN. *)
Lemma float_of_str_written (f : pyfloat) :
  float_ok f = true -> float_of_str (str_of_float f) = Some f.
Proof.
  intros Hok. destruct f as [neg m e|neg|]; [|destruct neg; reflexivity|discriminate].
  unfold float_of_str.
  destruct (str_of_float_tokens (FFin neg m e)) as [Htok _].
  destruct (token_text_trimmed _ Htok) as (-> & _).
  pose proof (read_repr_finite neg m e Hok) as Hread.
  destruct (repr_finite_shape m e) as (c & rest & E & Hc & _).
  simpl str_of_float. rewrite E in *.
  assert (read_sign ((if neg then ["-"%char] else []) ++ c :: rest)
          = (neg, c :: rest)) as ->.
  { destruct neg; [reflexivity|]. simpl.
    destruct c as [[] [] [] [] [] [] [] []]; try discriminate Hc; reflexivity. }
  replace (PyStr.eqb (lower (c :: rest)) "inf") with false
    by (symmetry; apply eqb_neq; simpl; lits; intros [= E1 _];
        destruct c as [[] [] [] [] [] [] [] []]; try discriminate Hc;
        discriminate E1).
  replace (PyStr.eqb (lower (c :: rest)) "infinity") with false
    by (symmetry; apply eqb_neq; simpl; lits; intros [= E1 _];
        destruct c as [[] [] [] [] [] [] [] []]; try discriminate Hc;
        discriminate E1).
  replace (PyStr.eqb (lower (c :: rest)) "nan") with false
    by (symmetry; apply eqb_neq; simpl; lits; intros [= E1 _];
        destruct c as [[] [] [] [] [] [] [] []]; try discriminate Hc;
        discriminate E1).
  exact Hread.
Qed.

Lemma convert_float (fuel : nat) (f : pyfloat) :
  float_ok f = true ->
  convert_fuel fuel (_value_to_string (VFloat f)) = VFloat f.
Proof.
  intros Hok. simpl _value_to_string.
  destruct (str_of_float_tokens f) as [Htok Hne].
  destruct (token_text_trimmed _ Htok) as (Hstrip & _).
  rewrite convert_fuel_eq. cbv zeta. rewrite Hstrip.
  rewrite (float_of_str_written f Hok).
  assert (isdigit (str_of_float f) = false) as ->.
  { destruct f as [neg m e|neg|]; [|destruct neg; reflexivity|reflexivity].
    simpl. destruct (repr_finite_shape m e) as (c & rest & -> & _ & _ & x & Hx & Hd).
    apply (isdigit_false_in x); [|exact Hd].
    apply in_or_app. right. right. exact Hx. }
  destruct (str_of_float f) as [|c t] eqn:E; [contradiction|].
  rewrite not_bool_literal; [reflexivity| |].
  - destruct f as [neg m e|neg|]; simpl in E.
    + destruct (repr_finite_shape m e) as (c' & rest & E' & Hc & _).
      rewrite E' in E. destruct neg; injection E as <- _; [reflexivity|].
      destruct c' as [[] [] [] [] [] [] [] []]; try discriminate Hc; reflexivity.
    + destruct neg; injection E as <- _; reflexivity.
    + injection E as <- _; reflexivity.
  - destruct f as [neg m e|neg|]; simpl in E.
    + destruct (repr_finite_shape m e) as (c' & rest & E' & Hc & _).
      rewrite E' in E. destruct neg; injection E as <- _; [reflexivity|].
      destruct c' as [[] [] [] [] [] [] [] []]; try discriminate Hc; reflexivity.
    + destruct neg; injection E as <- _; reflexivity.
    + injection E as <- _; reflexivity.
Qed.

(** The decoder reads back the text of a scalar, whatever the fuel. *)
Lemma convert_scalar (fuel : nat) (in_literal : bool) (v : pyval) :
  scalar_ok in_literal v = true ->
  convert_fuel fuel (_value_to_string v) = v.
Proof.
  destruct v; simpl scalar_ok; intros H; try discriminate H.
  - apply convert_bool.
  - apply convert_int. exact H.
  - apply convert_float. exact H.
  - apply convert_str. apply andb_true_iff in H. destruct H as [H _].
    apply andb_true_iff in H. tauto.
Qed.

Lemma no_linebreak_app (a b : str) :
  no_linebreak (a ++ b) = no_linebreak a && no_linebreak b.
Proof. apply forallb_app. Qed.

(** The text of a scalar: trimmed, not empty, on one line, without comma
    inside a literal, and not ended by a closing bracket. *)
Lemma scalar_text (in_literal : bool) (v : pyval) :
  scalar_ok in_literal v = true ->
  trimmed (_value_to_string v) = true /\
  _value_to_string v <> [] /\
  no_linebreak (_value_to_string v) = true /\
  (in_literal = true -> contains "," (_value_to_string v) = false) /\
  endswith "]" (_value_to_string v) = false.
Proof.
  assert (forall t, forallb token_char t = true -> t <> [] ->
            trimmed t = true /\ t <> [] /\ no_linebreak t = true /\
            (in_literal = true -> contains "," t = false) /\
            endswith "]" t = false) as Htoken.
  { intros t Ht Hne. destruct (token_text_trimmed t Ht) as (H1 & H2 & H3).
    repeat split; auto.
    - apply trimmed_by_all, forallb_forall. intros c Hc.
      rewrite forallb_forall in Ht.
      destruct (token_char_plain c (Ht c Hc)) as (-> & _). reflexivity.
    - destruct (exists_last Hne) as (t' & c & ->). lits. rewrite endswith_last.
      rewrite forallb_forall in Ht.
      destruct (token_char_plain c) as (_ & _ & _ & _ & E & _).
      { apply Ht, in_or_app. right. left. reflexivity. }
      rewrite Ascii.eqb_sym. exact E. }
  destruct v; simpl scalar_ok; intros H; try discriminate H.
  - apply Htoken; destruct b; (reflexivity || discriminate).
  - apply Z.leb_le in H. apply Htoken.
    + simpl. unfold str_of_int. destruct z; try lia;
        (eapply forallb_impl; [apply is_digit_token|apply digits_of_N_digits]).
    + simpl. unfold str_of_int. destruct z; try lia; apply digits_of_N_nonempty.
  - apply Htoken; apply str_of_float_tokens.
  - apply andb_true_iff in H. destruct H as [H Hcomma].
    apply andb_true_iff in H. destruct H as [Hq Hnl].
    simpl _value_to_string. repeat split.
    + apply trimmed_by_ends; reflexivity.
    + discriminate.
    + change (dq :: s ++ [dq]) with ([dq] ++ s ++ [dq]).
      rewrite !no_linebreak_app, Hnl. reflexivity.
    + intros ->. simpl in Hcomma. apply negb_true_iff in Hcomma.
      change (dq :: s ++ [dq]) with ([dq] ++ s ++ [dq]).
      rewrite !contains_app, Hcomma. reflexivity.
    + change (dq :: s ++ [dq]) with ((dq :: s) ++ [dq]). lits.
      rewrite endswith_last. reflexivity.
Qed.

(* ================================================================== *)
(** ** The value codec reads back what it writes: lists and tables *)

(** Splitting at the commas what was joined with a comma and a space. *)
Lemma split_join_padded (texts : list str) (p : str) :
  forallb is_space p = true ->
  Forall (fun t => contains "," t = false) texts ->
  texts <> [] ->
  exists pieces,
    split "," (p ++ join ", " texts) = pieces /\ Forall2 padded pieces texts.
Proof.
  intros Hp Hall Hne. revert p Hp.
  assert (forall p, forallb is_space p = true -> contains "," p = false)
    as Hspace.
  { intros p Hp. apply contains_false_iff. intros Hin.
    rewrite forallb_forall in Hp. specialize (Hp _ Hin). discriminate Hp. }
  induction Hall as [|t rest Ht Hrest IH]; [contradiction|]. intros p Hp.
  destruct rest as [|u rest].
  - eexists. split; [reflexivity|]. simpl join.
    rewrite split_without by (rewrite contains_app, Ht, Hspace; auto).
    constructor; [|constructor]. exists p. auto.
  - destruct (IH ltac:(discriminate) [" "%char] eq_refl) as (pieces & E & HF).
    eexists. split; [reflexivity|].
    change (join ", " (t :: u :: rest))
      with (t ++ ","%char :: [" "%char] ++ join ", " (u :: rest)).
    rewrite app_assoc, split_at_first
      by (rewrite contains_app, Ht, Hspace; auto).
    rewrite E. constructor; [|exact HF]. exists p. auto.
Qed.

Lemma strip_piece (piece text : str) :
  padded piece text -> trimmed text = true -> strip piece = text.
Proof.
  intros (w & Hw & ->) Ht.
  rewrite <- (app_nil_r text) at 1. apply strip_padded; auto.
Qed.

(** The items of a list literal, read from its pieces. *)
Lemma pieces_items (conv : str -> pyval) (pieces texts : list str) :
  Forall2 padded pieces texts ->
  Forall (fun t => trimmed t = true /\ t <> []) texts ->
  map (fun item => conv (strip item))
      (filter (fun item => negb (is_empty (strip item))) pieces)
  = map conv texts.
Proof.
  induction 1 as [|piece text pieces texts Hp _ IH]; intros Hall;
    [reflexivity|].
  inversion Hall as [|? ? [Ht Hne] Hrest]; subst.
  simpl. rewrite (strip_piece piece text Hp Ht).
  destruct text; [contradiction|]. simpl.
  rewrite (strip_piece piece _ Hp Ht), IH by exact Hrest.
  reflexivity.
Qed.

Lemma bracketed_last (a b : ascii) (s : str) : last (a :: s ++ [b]) a = b.
Proof.
  change (a :: s ++ [b]) with ((a :: s) ++ [b]). apply last_app_single.
Qed.

(** The decoder reads back a list of scalars. *)
Lemma convert_list (fuel : nat) (items : list pyval) :
  forallb (scalar_ok true) items = true ->
  convert_fuel (S fuel) (_value_to_string (VList items)) = VList items.
Proof.
  intros Hok. rewrite forallb_forall in Hok.
  destruct items as [|v0 items0]; [reflexivity|].
  remember (v0 :: items0) as items eqn:Eitems.
  set (texts := map _value_to_string items).
  assert (_value_to_string (VList items)
          = "["%char :: join ", " texts ++ ["]"%char]) as -> by reflexivity.
  set (J := join ", " texts).
  rewrite convert_fuel_eq. cbv zeta.
  rewrite strip_trimmed by (apply trimmed_by_ends; reflexivity).
  rewrite not_bool_literal by reflexivity.
  rewrite isdigit_first by reflexivity.
  rewrite float_of_str_first
    by (try reflexivity; rewrite bracketed_last; reflexivity).
  simpl startswith. eqb_lits. lits.
  change ("["%char :: J ++ ["]"%char]) with (("["%char :: J) ++ ["]"%char]).
  rewrite endswith_last. eqb_lits. simpl andb. cbv iota.
  change (("["%char :: J) ++ ["]"%char]) with ("["%char :: J ++ ["]"%char]).
  rewrite slice_brackets. f_equal.
  assert (map (convert_fuel fuel) texts = items) as Hmap.
  { unfold texts. rewrite map_map. rewrite <- (map_id items) at 2.
    apply map_ext_in. intros v Hv. apply (convert_scalar fuel true).
    apply Hok. exact Hv. }
  destruct (split_join_padded texts [] eq_refl) as (pieces & E & HF).
  - apply Forall_forall. intros t Ht. apply in_map_iff in Ht.
    destruct Ht as (x & <- & Hx).
    apply (scalar_text true x (Hok x Hx)). reflexivity.
  - unfold texts. rewrite Eitems. discriminate.
  - change ([] ++ join ", " texts) with J in E. rewrite E.
    rewrite (pieces_items (convert_fuel fuel) pieces texts HF); [exact Hmap|].
    apply Forall_forall. intros t Ht. apply in_map_iff in Ht.
    destruct Ht as (x & <- & Hx).
    destruct (scalar_text true x (Hok x Hx)) as (H1 & H2 & _). auto.
Qed.

Lemma last_app_nonempty {A} (a b : list A) (d : A) :
  b <> [] -> last (a ++ b) d = last b d.
Proof.
  intros Hb. destruct (exists_last Hb) as (b' & x & ->).
  rewrite app_assoc, !last_app_single. reflexivity.
Qed.

(** A text that begins with a trimmed text and ends with another one. *)
Lemma trimmed_by_app (p : ascii -> bool) (a m b : str) :
  a <> [] -> b <> [] ->
  trimmed_by p a = true -> trimmed_by p b = true ->
  trimmed_by p (a ++ m ++ b) = true.
Proof.
  intros Ha Hb Hta Htb.
  destruct a as [|c a]; [contradiction|]. destruct b as [|x b]; [contradiction|].
  rewrite trimmed_by_cons in Hta, Htb.
  apply andb_true_iff in Hta, Htb. destruct Hta as [Hc _], Htb as [_ Hx].
  change ((c :: a) ++ m ++ x :: b) with (c :: a ++ m ++ x :: b).
  rewrite trimmed_by_cons, Hc. rewrite andb_true_l.
  replace (c :: a ++ m ++ x :: b) with ((c :: a ++ m) ++ (x :: b))
    by (simpl; rewrite <- app_assoc; reflexivity).
  rewrite last_app_nonempty by discriminate.
  destruct (exists_last (l := x :: b)) as (b' & y & E); [discriminate|].
  rewrite E in *. rewrite last_app_single in *. exact Hx.
Qed.

Lemma trimmed_by_join (p : ascii -> bool) (sep : str) (texts : list str) :
  Forall (fun t => trimmed_by p t = true /\ t <> []) texts ->
  trimmed_by p (join sep texts) = true /\ (texts <> [] -> join sep texts <> []).
Proof.
  induction 1 as [|t rest [Ht Hne] Hrest IH]; [split; [reflexivity|congruence]|].
  destruct rest as [|u rest].
  - simpl. split; [exact Ht|intros _; exact Hne].
  - destruct IH as [IH1 IH2]. specialize (IH2 ltac:(discriminate)).
    change (join sep (t :: u :: rest)) with (t ++ sep ++ join sep (u :: rest)).
    split; [apply trimmed_by_app; assumption|].
    intros _. destruct t; [contradiction|discriminate].
Qed.

Lemma uniq_keys_app {V} (a b : list (str * V)) :
  uniq_keys (a ++ b) = true ->
  uniq_keys a = true /\ uniq_keys b = true /\
  forall k, dict_mem k b = true -> dict_get k a = None.
Proof.
  induction a as [|[k v] a IH]; simpl; [auto|].
  intros H. apply andb_true_iff in H. destruct H as [Hk H].
  apply negb_true_iff in Hk. destruct (IH H) as (Ha & Hb & Hab).
  unfold dict_mem in Hk. rewrite dict_get_app in Hk.
  destruct (dict_get k a) eqn:Eka; [discriminate|].
  split; [|split; [exact Hb|]].
  - unfold dict_mem. rewrite Eka. simpl. exact Ha.
  - intros k' Hk'. destruct (PyStr.eqb k' k) eqn:E.
    + apply eqb_eq in E. subst k'. unfold dict_mem in Hk'.
      destruct (dict_get k b); discriminate.
    + apply Hab. exact Hk'.
Qed.

(** Assigning the entries of a dictionary with distinct keys, in order,
    builds that dictionary. *)
Lemma fold_dict_set_uniq (d acc : dict) :
  uniq_keys (acc ++ d) = true ->
  fold_left (fun result kv => dict_set (fst kv) (snd kv) result) d acc
  = acc ++ d.
Proof.
  revert acc. induction d as [|[k v] d IH]; intros acc H; simpl.
  - rewrite app_nil_r. reflexivity.
  - destruct (uniq_keys_app acc ((k, v) :: d) H) as (_ & _ & Hfresh).
    rewrite dict_set_absent.
    + rewrite IH; rewrite <- app_assoc; [reflexivity|exact H].
    + apply Hfresh. unfold dict_mem. simpl. rewrite eqb_refl. reflexivity.
Qed.

Lemma read_entry_written (fuel : nat) (result : dict) (part : str)
      (kv : str * pyval) :
  padded part (entry_text kv) ->
  inline_key_ok (fst kv) = true -> scalar_ok true (snd kv) = true ->
  read_entry (convert_fuel fuel) result part
  = dict_set (fst kv) (snd kv) result.
Proof.
  destruct kv as [k v]. simpl fst. simpl snd.
  intros (w & Hw & ->) Hk Hv. unfold inline_key_ok in Hk.
  repeat (apply andb_true_iff in Hk; destruct Hk as [Hk ?]).
  destruct (scalar_text true v Hv) as (Htrim & Hne & _).
  assert (contains "=" w = false) as Hweq.
  { apply contains_false_iff. intros Hin. rewrite forallb_forall in Hw.
    specialize (Hw _ Hin). discriminate Hw. }
  assert (w ++ entry_text (k, v)
          = (w ++ (dq :: k ++ [dq]) ++ [" "%char])
              ++ "="%char :: [" "%char] ++ _value_to_string v) as E.
  { unfold entry_text. simpl fst. simpl snd. lits. simpl.
    rewrite <- !app_assoc. simpl. rewrite <- !app_assoc. reflexivity. }
  assert (contains "=" (w ++ (dq :: k ++ [dq]) ++ [" "%char]) = false) as Hno.
  { rewrite !contains_app, Hweq. simpl. eqb_lits. simpl.
    rewrite contains_app. simpl. eqb_lits.
    match goal with H : negb (contains "=" k) = true |- _ =>
      apply negb_true_iff in H; rewrite H end. reflexivity. }
  unfold read_entry. rewrite E.
  rewrite contains_app. simpl contains at 2. eqb_lits.
  rewrite orb_true_r. rewrite split1_at_first by exact Hno.
  rewrite strip_padded by (try assumption; try reflexivity;
                           apply trimmed_by_ends; reflexivity).
  rewrite strip_char_quoted by assumption.
  unfold strip_char at 1. rewrite strip_by_trimmed by assumption.
  rewrite <- (app_nil_r (_value_to_string v)) at 1.
  rewrite strip_padded by (assumption || reflexivity).
  rewrite (convert_scalar fuel true v Hv). reflexivity.
Qed.

Lemma read_entries_written (fuel : nat) (d : dict) (parts : list str)
      (result : dict) :
  Forall2 padded parts (map entry_text d) ->
  forallb (fun kv => inline_key_ok (fst kv) && scalar_ok true (snd kv)) d = true ->
  fold_left (read_entry (convert_fuel fuel)) parts result
  = fold_left (fun result kv => dict_set (fst kv) (snd kv) result) d result.
Proof.
  revert parts result. induction d as [|kv d IH]; intros parts result HF Hok.
  - inversion HF. reflexivity.
  - simpl in HF. inversion HF as [|part ? parts' ? Hp HF']; subst.
    simpl in Hok. apply andb_true_iff in Hok. destruct Hok as [Hkv Hok].
    apply andb_true_iff in Hkv. destruct Hkv as [Hk Hv].
    simpl. rewrite (read_entry_written fuel result part kv Hp Hk Hv).
    apply IH; assumption.
Qed.

Lemma _parse_inline_dict_with_eq (conv : str -> pyval) (value : str) :
  _parse_inline_dict_with conv value =
  let inner := strip (slice_1_m1 value) in
  if is_empty inner then []
  else fold_left (read_entry conv) (split "," inner) [].
Proof. reflexivity. Qed.

Lemma entry_text_facts (kv : str * pyval) :
  inline_key_ok (fst kv) = true -> scalar_ok true (snd kv) = true ->
  trimmed (entry_text kv) = true /\ entry_text kv <> [] /\
  contains "," (entry_text kv) = false /\
  no_linebreak (entry_text kv) = true.
Proof.
  destruct kv as [k v]. simpl fst. simpl snd. intros Hk Hv.
  unfold inline_key_ok in Hk.
  repeat (apply andb_true_iff in Hk; destruct Hk as [Hk ?]).
  destruct (scalar_text true v Hv) as (Htrim & Hne & Hnl & Hcomma & _).
  specialize (Hcomma eq_refl).
  assert (entry_text (k, v)
          = [dq] ++ (k ++ dq :: " = ") ++ _value_to_string v) as E.
  { unfold entry_text. simpl. rewrite <- app_assoc. reflexivity. }
  rewrite E. repeat split.
  - apply trimmed_by_app; try discriminate; try assumption. reflexivity.
  - discriminate.
  - rewrite !contains_app, Hcomma. lits. simpl. eqb_lits.
    match goal with H : negb (contains "," k) = true |- _ =>
      apply negb_true_iff in H; rewrite H end. reflexivity.
  - rewrite !no_linebreak_app, Hnl. lits. simpl.
    match goal with H : no_linebreak k = true |- _ => rewrite H end.
    reflexivity.
Qed.

(** The decoder reads back an inline table of scalars. *)
Lemma convert_table (fuel : nat) (d : dict) :
  uniq_keys d = true ->
  forallb (fun kv => inline_key_ok (fst kv) && scalar_ok true (snd kv)) d = true ->
  convert_fuel (S fuel) (_value_to_string (VDict d)) = VDict d.
Proof.
  intros Huniq Hok.
  destruct d as [|kv0 d0]; [reflexivity|].
  remember (kv0 :: d0) as d eqn:Ed.
  set (texts := map entry_text d).
  set (J := join ", " texts).
  assert (_value_to_string (VDict d)
          = "{"%char :: (" "%char :: J ++ [" "%char]) ++ ["}"%char]) as ->.
  { simpl. unfold J, texts, entry_text. lits. simpl.
    rewrite <- app_assoc. reflexivity. }
  assert (Forall (fun t => trimmed t = true /\ t <> [] /\
                           contains "," t = false) texts) as Htexts.
  { apply Forall_forall. intros t Ht. apply in_map_iff in Ht.
    destruct Ht as (kv & <- & Hin). rewrite forallb_forall in Hok.
    specialize (Hok kv Hin). apply andb_true_iff in Hok.
    destruct (entry_text_facts kv) as (H1 & H2 & H3 & _); tauto. }
  assert (texts <> []) as Hne by (unfold texts; rewrite Ed; discriminate).
  destruct (trimmed_by_join is_space ", " texts) as [HJ HJne].
  { eapply Forall_impl; [|exact Htexts]. simpl. tauto. }
  specialize (HJne Hne). fold J in HJ, HJne.
  remember ("{"%char :: (" "%char :: J ++ [" "%char]) ++ ["}"%char]) as T eqn:ET.
  assert (strip T = T) as Hstrip
      by (subst T; apply strip_trimmed, trimmed_by_ends; reflexivity).
  assert (PyStr.eqb (lower T) "true" || PyStr.eqb (lower T) "false" = false)
    as Hbool by (subst T; apply not_bool_literal; reflexivity).
  assert (isdigit T = false) as Hdig
      by (subst T; apply isdigit_first; reflexivity).
  assert (float_of_str T = None) as Hfloat
      by (subst T; apply float_of_str_first; try reflexivity;
          rewrite bracketed_last; reflexivity).
  assert (startswith "[" T = false) as Hlist by (subst T; reflexivity).
  assert (startswith "{" T = true) as Hopen by (subst T; reflexivity).
  assert (endswith "}" T = true) as Hclose.
  { subst T. lits. rewrite app_comm_cons, endswith_last. reflexivity. }
  assert (strip (slice_1_m1 T) = J) as Hinner.
  { subst T. rewrite slice_brackets.
    change (" "%char :: J ++ [" "%char]) with ([" "%char] ++ J ++ [" "%char]).
    apply strip_padded; (assumption || reflexivity). }
  rewrite convert_fuel_eq. cbv zeta.
  rewrite Hstrip, Hbool, Hdig, Hfloat, Hlist, Hopen, Hclose. simpl andb.
  cbv iota. rewrite _parse_inline_dict_with_eq. cbv zeta. rewrite Hinner.
  assert (is_empty J = false) as -> by (destruct J; [contradiction|reflexivity]).
  f_equal.
  destruct (split_join_padded texts [] eq_refl) as (parts & E & HF).
  - eapply Forall_impl; [|exact Htexts]. simpl. tauto.
  - exact Hne.
  - change ([] ++ join ", " texts) with J in E. rewrite E.
    rewrite (read_entries_written fuel d parts [] HF Hok).
    apply (fold_dict_set_uniq d []). exact Huniq.
Qed.

(** The decoder reads back the text of every value of the supported
    grammar. *)
Lemma convert_written (v : pyval) :
  value_ok v = true -> _convert_value (_value_to_string v) = v.
Proof.
  intros H. unfold _convert_value.
  destruct v; try (apply (convert_scalar _ false); exact H).
  - simpl _value_to_string at 1. lits. simpl length. apply convert_list. exact H.
  - apply andb_true_iff in H. destruct H as [Hu Hok].
    simpl _value_to_string at 1. lits. simpl length.
    apply convert_table; assumption.
Qed.

(* ================================================================== *)
(** ** Lines *)

Lemma splitlines_from_line (line rest : str) :
  no_linebreak line = true ->
  splitlines_from false (line ++ nl :: rest)
  = line :: splitlines_from false rest.
Proof.
  induction line as [|c line IH]; simpl; intros H.
  - reflexivity.
  - apply andb_true_iff in H. destruct H as [Hc H].
    apply negb_true_iff in Hc. rewrite Hc, (IH H). reflexivity.
Qed.

(** Splitting into lines what was written line by line. *)
Lemma splitlines_unlines (lines : list str) :
  forallb no_linebreak lines = true -> splitlines (unlines lines) = lines.
Proof.
  unfold splitlines, unlines. induction lines as [|line lines IH]; simpl;
    [reflexivity|].
  intros H. apply andb_true_iff in H. destruct H as [Hl H].
  rewrite <- app_assoc. simpl. rewrite splitlines_from_line by exact Hl.
  rewrite (IH H). reflexivity.
Qed.

Lemma unlines_app (a b : list str) : unlines (a ++ b) = unlines a ++ unlines b.
Proof. unfold unlines. rewrite map_app, concat_app. reflexivity. Qed.

Lemma property_line_text (kv : str * pyval) :
  property_line kv = property_text kv ++ [nl].
Proof.
  unfold property_line, property_text. rewrite <- !app_assoc. reflexivity.
Qed.

Lemma concat_property_lines (props : dict) :
  concat (map property_line props) = unlines (map property_text props).
Proof.
  unfold unlines. rewrite map_map. f_equal. apply map_ext.
  intros kv. apply property_line_text.
Qed.

Lemma save_props_lines (class_name : str) (props : dict) :
  save_props class_name props = unlines (props_lines class_name props).
Proof.
  unfold save_props, props_lines. destruct props as [|kv props]; [reflexivity|].
  rewrite concat_property_lines.
  change (unlines (("[" ++ class_name ++ "]")
                     :: map property_text (kv :: props) ++ [[]]))
    with ((("[" ++ class_name ++ "]") ++ [nl])
            ++ unlines (map property_text (kv :: props) ++ [[]])).
  rewrite unlines_app, <- !app_assoc. reflexivity.
Qed.

Lemma save_sub_lines (class_name : str) (sub : str * pyval) :
  is_dict (snd sub) = true ->
  save_sub class_name sub = Ok (unlines (sub_lines class_name sub)).
Proof.
  unfold save_sub, sub_lines. destruct (snd sub); try discriminate. intros _.
  rewrite concat_property_lines. f_equal.
  change (unlines (("[" ++ class_name ++ "." ++ fst sub ++ "]")
                     :: map property_text d ++ [[]]))
    with ((("[" ++ class_name ++ "." ++ fst sub ++ "]") ++ [nl])
            ++ unlines (map property_text d ++ [[]])).
  rewrite unlines_app, <- !app_assoc. reflexivity.
Qed.

Lemma save_subs_lines (class_name : str) (subs : dict) :
  forallb (fun sub => is_dict (snd sub)) subs = true ->
  save_subs class_name subs
  = Ok (unlines (flat_map (sub_lines class_name) subs)).
Proof.
  induction subs as [|sub subs IH]; simpl; [reflexivity|].
  intros H. apply andb_true_iff in H. destruct H as [Hs H].
  rewrite (save_sub_lines class_name sub Hs), (IH H). simpl.
  rewrite unlines_app. reflexivity.
Qed.

Lemma sub_ok_is_dict (sub : str * pyval) :
  sub_ok sub = true -> is_dict (snd sub) = true.
Proof.
  unfold sub_ok. intros H. apply andb_true_iff in H. destruct H as [_ H].
  destruct (snd sub); try discriminate. reflexivity.
Qed.

Lemma save_class_lines (self : config) (entry : str * pyval) :
  section_ok (subclass_names self (fst entry)) entry = true ->
  save_class self entry
  = Ok (unlines (class_lines (subclass_names self (fst entry)) entry)).
Proof.
  unfold section_ok, save_class, class_lines.
  destruct (snd entry) as [| | | | | |data]; try discriminate. intros H.
  repeat (apply andb_true_iff in H; destruct H as [H ?]).
  rewrite save_subs_lines.
  - simpl. rewrite save_props_lines, unlines_app. reflexivity.
  - eapply forallb_impl; [|eassumption]. apply sub_ok_is_dict.
Qed.

(** What [_save] writes for a document of the supported grammar. *)
Lemma _save_lines (self : config) :
  round_trippable self = true ->
  _save self = Ok (unlines (save_lines self)).
Proof.
  unfold round_trippable, _save, save_lines. intros H.
  apply andb_true_iff in H. destruct H as [_ H].
  induction (file_object self) as [|entry entries IH]; [reflexivity|].
  simpl in H. apply andb_true_iff in H. destruct H as [He H].
  simpl. rewrite (save_class_lines self entry He), (IH H). simpl.
  rewrite unlines_app. reflexivity.
Qed.

Lemma no_linebreak_join (sep : str) (texts : list str) :
  no_linebreak sep = true -> forallb no_linebreak texts = true ->
  no_linebreak (join sep texts) = true.
Proof.
  intros Hsep. induction texts as [|t rest IH]; [reflexivity|].
  intros H. simpl in H. apply andb_true_iff in H. destruct H as [Ht H].
  destruct rest as [|u rest]; [exact Ht|].
  change (join sep (t :: u :: rest)) with (t ++ sep ++ join sep (u :: rest)).
  rewrite !no_linebreak_app, Ht, Hsep, (IH H). reflexivity.
Qed.

(** The text of a value of the supported grammar: trimmed, not empty,
    on one line, and ended by a closing bracket exactly when the value is
    a list. *)
Lemma value_text (v : pyval) :
  value_ok v = true ->
  trimmed (_value_to_string v) = true /\
  _value_to_string v <> [] /\
  no_linebreak (_value_to_string v) = true /\
  endswith "]" (_value_to_string v) = is_list v.
Proof.
  intros H.
  destruct v; try (destruct (scalar_text false _ H) as (H1 & H2 & H3 & _ & H5);
                   repeat split; assumption).
  - (* list *)
    simpl in H.
    assert (_value_to_string (VList l)
            = "["%char :: join ", " (map _value_to_string l) ++ ["]"%char])
      as -> by reflexivity.
    repeat split.
    + apply trimmed_by_ends; reflexivity.
    + discriminate.
    + change ("["%char :: join ", " (map _value_to_string l) ++ ["]"%char])
        with (["["%char] ++ join ", " (map _value_to_string l) ++ ["]"%char]).
      rewrite !no_linebreak_app, no_linebreak_join; try reflexivity.
      rewrite forallb_forall in *. intros t Ht. apply in_map_iff in Ht.
      destruct Ht as (x & <- & Hx). apply (scalar_text true x (H x Hx)).
    + lits. rewrite app_comm_cons, endswith_last. reflexivity.
  - (* inline table *)
    simpl in H. apply andb_true_iff in H. destruct H as [_ H].
    assert (_value_to_string (VDict d)
            = "{"%char :: (" "%char :: join ", " (map entry_text d)
                              ++ [" "%char]) ++ ["}"%char]) as ->.
    { simpl. unfold entry_text. lits. simpl. rewrite <- app_assoc. reflexivity. }
    repeat split.
    + apply trimmed_by_ends; reflexivity.
    + discriminate.
    + change ("{"%char :: (" "%char :: join ", " (map entry_text d)
                               ++ [" "%char]) ++ ["}"%char])
        with ("{ " ++ (join ", " (map entry_text d) ++ " ") ++ "}").
      rewrite !no_linebreak_app, no_linebreak_join; try reflexivity.
      rewrite forallb_forall in *. intros t Ht. apply in_map_iff in Ht.
      destruct Ht as (x & <- & Hx). specialize (H x Hx).
      apply andb_true_iff in H. apply entry_text_facts; tauto.
    + lits. rewrite app_comm_cons, endswith_last. reflexivity.
Qed.

Lemma startswith_app_char (c : ascii) (a b : str) :
  a <> [] -> startswith [c] (a ++ b) = startswith [c] a.
Proof. destruct a; [contradiction|reflexivity]. Qed.

Lemma endswith_app_char (c : ascii) (a b : str) :
  b <> [] -> endswith [c] (a ++ b) = endswith [c] b.
Proof.
  intros Hb. destruct (exists_last Hb) as (b' & x & ->).
  rewrite app_assoc, !endswith_last. reflexivity.
Qed.

(** The line of a property of the supported grammar is read as a property
    line, with the same key and value. *)
Lemma property_text_read (k : str) (v : pyval) :
  key_ok k v = true -> value_ok v = true ->
  classify (property_text (k, v)) = Property /\
  property_of (property_text (k, v)) = Some (k, v) /\
  no_linebreak (property_text (k, v)) = true.
Proof.
  intros Hk Hv. unfold key_ok in Hk.
  apply andb_true_iff in Hk. destruct Hk as [Hk Hbracket].
  apply andb_true_iff in Hk. destruct Hk as [Hk Hhash].
  apply andb_true_iff in Hk. destruct Hk as [Hk Heq].
  apply andb_true_iff in Hk. destruct Hk as [Hk Hknl].
  apply negb_true_iff in Hbracket, Hhash, Heq.
  destruct (value_text v Hv) as (Htrim & Hne & Hnl & Hend).
  set (t := _value_to_string v) in *.
  assert (property_text (k, v) = (k ++ [" "%char]) ++ "="%char :: [" "%char] ++ t)
    as E.
  { unfold property_text. simpl fst. simpl snd. fold t. lits. simpl.
    rewrite <- app_assoc. reflexivity. }
  assert (contains "=" (k ++ [" "%char]) = false) as Hnoeq.
  { rewrite contains_app, Heq. reflexivity. }
  rewrite E. split; [|split].
  - unfold classify, _isComment, _isBlank, _isClass, _isSubClass, _isProperty.
    rewrite is_empty_strip.
    assert (startswith "#" ((k ++ [" "%char]) ++ "="%char :: [" "%char] ++ t)
            = false) as ->.
    { destruct k as [|c k]; [reflexivity|exact Hhash]. }
    assert (forallb is_space ((k ++ [" "%char]) ++ "="%char :: [" "%char] ++ t)
            = false) as ->.
    { rewrite forallb_app. simpl. apply andb_false_r. }
    assert (startswith "[" ((k ++ [" "%char]) ++ "="%char :: [" "%char] ++ t)
            && endswith "]" ((k ++ [" "%char]) ++ "="%char :: [" "%char] ++ t)
            = false) as ->.
    { lits.
      replace ((k ++ [" "%char]) ++ "="%char :: [" "%char] ++ t)
        with ((k ++ " = ") ++ t)
        by (lits; rewrite <- !app_assoc; reflexivity).
      rewrite endswith_app_char by exact Hne.
      change (endswith ["]"%char] t) with (endswith "]" t). rewrite Hend.
      destruct k as [|c k]; [reflexivity|exact Hbracket]. }
    simpl andb. cbv iota.
    rewrite contains_app. simpl contains at 2. eqb_lits.
    rewrite orb_true_r. reflexivity.
  - unfold property_of. rewrite split1_at_first by exact Hnoeq.
    rewrite <- (app_nil_l (k ++ [" "%char])).
    rewrite strip_padded by (assumption || reflexivity).
    rewrite <- (app_nil_r t) at 1.
    rewrite strip_padded by (assumption || reflexivity).
    unfold t. rewrite (convert_written v Hv). reflexivity.
  - rewrite !no_linebreak_app, Hknl. simpl. exact Hnl.
Qed.

(** The header line of a class. *)
Lemma class_header_read (S : str) :
  name_ok S = true ->
  classify ("[" ++ S ++ "]") = ClassHeader /\
  slice_1_m1 ("[" ++ S ++ "]") = S /\
  no_linebreak ("[" ++ S ++ "]") = true.
Proof.
  unfold name_ok. intros H. apply andb_true_iff in H. destruct H as [Hnl Hdot].
  apply negb_true_iff in Hdot. lits. simpl app. split; [|split].
  - unfold classify, _isComment, _isBlank, _isClass.
    rewrite is_empty_strip. simpl. eqb_lits. simpl.
    rewrite app_comm_cons, endswith_last, contains_app. simpl. eqb_lits.
    rewrite Hdot. reflexivity.
  - apply slice_brackets.
  - change ("["%char :: S ++ ["]"%char]) with (["["%char] ++ S ++ ["]"%char]).
    rewrite !no_linebreak_app, Hnl. reflexivity.
Qed.

(** The header line of a subclass. *)
Lemma subclass_header_read (S T : str) :
  name_ok S = true -> name_ok T = true ->
  classify ("[" ++ S ++ "." ++ T ++ "]") = SubclassHeader /\
  _getClassSubClass ("[" ++ S ++ "." ++ T ++ "]") = [S; T] /\
  no_linebreak ("[" ++ S ++ "." ++ T ++ "]") = true.
Proof.
  unfold name_ok. intros HS HT.
  apply andb_true_iff in HS, HT. destruct HS as [HSnl HSdot], HT as [HTnl HTdot].
  apply negb_true_iff in HSdot, HTdot. lits. simpl app.
  assert ("["%char :: S ++ "."%char :: T ++ ["]"%char]
          = ("["%char :: S ++ "."%char :: T) ++ ["]"%char]) as E1
      by (simpl; rewrite <- app_assoc; reflexivity).
  assert ("["%char :: S ++ "."%char :: T ++ ["]"%char]
          = "["%char :: (S ++ "."%char :: T) ++ ["]"%char]) as E2
      by (rewrite <- app_assoc; reflexivity).
  split; [|split].
  - unfold classify, _isComment, _isBlank, _isClass, _isSubClass.
    rewrite is_empty_strip. simpl. eqb_lits. simpl.
    rewrite E1, endswith_last. eqb_lits. simpl.
    rewrite !contains_app. simpl. eqb_lits. simpl.
    rewrite orb_true_r. reflexivity.
  - unfold _getClassSubClass. rewrite E2, slice_brackets.
    rewrite split_at_first, split_without by assumption. reflexivity.
  - change ("["%char :: S ++ "."%char :: T ++ ["]"%char])
      with (["["%char] ++ S ++ ["."%char] ++ T ++ ["]"%char]).
    rewrite !no_linebreak_app, HSnl, HTnl. reflexivity.
Qed.

(* ================================================================== *)
(** ** Reading a written document back *)

Lemma parse_lines_app (a b : list str) (self : config) :
  parse_lines self (a ++ b) =
  (self' <- parse_lines self a ;; parse_lines self' b).
Proof.
  revert self. induction a as [|line a IH]; intros self; simpl; [reflexivity|].
  destruct (parse_line self line) as [self1|e]; simpl; [apply IH|reflexivity].
Qed.

Lemma dict_get_last {V} (k : str) (v : V) (d : list (str * V)) :
  dict_get k d = None -> dict_get k (d ++ [(k, v)]) = Some v.
Proof.
  intros H. rewrite dict_get_app, H. simpl. rewrite eqb_refl. reflexivity.
Qed.

Lemma dict_set_last {V} (k : str) (v v' : V) (d : list (str * V)) :
  dict_get k d = None -> dict_set k v' (d ++ [(k, v)]) = d ++ [(k, v')].
Proof.
  induction d as [|[k0 v0] d IH]; simpl.
  - rewrite eqb_refl. reflexivity.
  - destruct (PyStr.eqb k k0); [discriminate|].
    intros H. rewrite (IH H). reflexivity.
Qed.

Lemma dict_setdefault_absent {V} (k : str) (v : V) (d : list (str * V)) :
  dict_get k d = None -> dict_setdefault k v d = d ++ [(k, v)].
Proof. intros H. unfold dict_setdefault, dict_mem. rewrite H. reflexivity. Qed.

Lemma dict_mem_false {V} (k : str) (d : list (str * V)) :
  dict_mem k d = false <-> dict_get k d = None.
Proof. unfold dict_mem. destruct (dict_get k d); split; congruence. Qed.

(** A property line read while the last class of the document is the
    current class. *)
Lemma property_into_class (done : dict) (S : str) (data : dict) sc
      (line k : str) (v : pyval) :
  property_of line = Some (k, v) ->
  dict_get S done = None -> dict_get k data = None ->
  _newProperty (mkConfig (done ++ [(S, VDict data)]) (Some (S, None, false)) sc)
               line
  = Ok (mkConfig (done ++ [(S, VDict (data ++ [(k, v)]))])
                 (Some (S, None, false)) sc).
Proof.
  intros Hp HS Hk. unfold property_of in Hp. unfold _newProperty. simpl.
  destruct (split1 "=" line) as [|a [|b [|? ?]]]; try discriminate.
  injection Hp as <- <-.
  rewrite dict_get_last by exact HS.
  rewrite dict_set_last by exact HS.
  rewrite dict_setdefault_absent by exact Hk. reflexivity.
Qed.

(** A property line read while the last entry of the last class is the
    current subclass. *)
Lemma property_into_subclass (done : dict) (S : str) (data : dict) (T : str)
      (sub_data : dict) sc (line k : str) (v : pyval) :
  property_of line = Some (k, v) ->
  dict_get S done = None -> dict_get T data = None ->
  dict_get k sub_data = None ->
  _newProperty
    (mkConfig (done ++ [(S, VDict (data ++ [(T, VDict sub_data)]))])
              (Some (S, Some T, true)) sc)
    line
  = Ok (mkConfig
          (done ++ [(S, VDict (data ++ [(T, VDict (sub_data ++ [(k, v)]))]))])
          (Some (S, Some T, true)) sc).
Proof.
  intros Hp HS HT Hk. unfold property_of in Hp. unfold _newProperty. simpl.
  destruct (split1 "=" line) as [|a [|b [|? ?]]]; try discriminate.
  injection Hp as <- <-.
  rewrite dict_get_last by exact HS.
  rewrite dict_get_last by exact HT.
  rewrite dict_set_last by exact HS.
  rewrite dict_set_last by exact HT.
  rewrite dict_setdefault_absent by exact Hk. reflexivity.
Qed.

Lemma props_ok_cons (kv : str * pyval) (props : dict) :
  forallb (fun kv => key_ok (fst kv) (snd kv) && value_ok (snd kv))
          (kv :: props) = true ->
  key_ok (fst kv) (snd kv) = true /\ value_ok (snd kv) = true /\
  forallb (fun kv => key_ok (fst kv) (snd kv) && value_ok (snd kv)) props = true.
Proof.
  simpl. intros H. apply andb_true_iff in H. destruct H as [H1 H2].
  apply andb_true_iff in H1. tauto.
Qed.

Lemma uniq_keys_snoc {V} (a : list (str * V)) (k : str) (v : V)
      (b : list (str * V)) :
  uniq_keys (a ++ (k, v) :: b) = true ->
  dict_get k a = None /\ uniq_keys ((a ++ [(k, v)]) ++ b) = true.
Proof.
  intros H. split.
  - destruct (uniq_keys_app a ((k, v) :: b) H) as (_ & _ & Hfresh).
    apply Hfresh. unfold dict_mem. simpl. rewrite eqb_refl. reflexivity.
  - rewrite <- app_assoc. exact H.
Qed.

(** The property lines of a class, read back. *)
Lemma properties_into_class (props done : dict) (S : str) (data : dict) sc :
  forallb (fun kv => key_ok (fst kv) (snd kv) && value_ok (snd kv)) props = true ->
  uniq_keys (data ++ props) = true ->
  dict_get S done = None ->
  parse_lines
    (mkConfig (done ++ [(S, VDict data)]) (Some (S, None, false)) sc)
    (map property_text props)
  = Ok (mkConfig (done ++ [(S, VDict (data ++ props))])
                 (Some (S, None, false)) sc).
Proof.
  revert data. induction props as [|[k v] props IH]; intros data Hok Hu HS.
  - simpl. rewrite app_nil_r. reflexivity.
  - destruct (props_ok_cons _ _ Hok) as (Hk & Hv & Hok').
    destruct (property_text_read k v Hk Hv) as (Hc & Hp & _).
    destruct (uniq_keys_snoc _ _ _ _ Hu) as (Hfresh & Hu').
    simpl map. simpl parse_lines. rewrite parse_line_classify, Hc.
    rewrite (property_into_class done S data sc _ k v Hp HS Hfresh). simpl.
    rewrite IH by assumption. rewrite <- app_assoc. reflexivity.
Qed.

(** The property lines of a subclass, read back. *)
Lemma properties_into_subclass (props done : dict) (S : str) (data : dict)
      (T : str) (sub_data : dict) sc :
  forallb (fun kv => key_ok (fst kv) (snd kv) && value_ok (snd kv)) props = true ->
  uniq_keys (sub_data ++ props) = true ->
  dict_get S done = None -> dict_get T data = None ->
  parse_lines
    (mkConfig (done ++ [(S, VDict (data ++ [(T, VDict sub_data)]))])
              (Some (S, Some T, true)) sc)
    (map property_text props)
  = Ok (mkConfig
          (done ++ [(S, VDict (data ++ [(T, VDict (sub_data ++ props))]))])
          (Some (S, Some T, true)) sc).
Proof.
  revert sub_data. induction props as [|[k v] props IH];
    intros sub_data Hok Hu HS HT.
  - simpl. rewrite app_nil_r. reflexivity.
  - destruct (props_ok_cons _ _ Hok) as (Hk & Hv & Hok').
    destruct (property_text_read k v Hk Hv) as (Hc & Hp & _).
    destruct (uniq_keys_snoc _ _ _ _ Hu) as (Hfresh & Hu').
    simpl map. simpl parse_lines. rewrite parse_line_classify, Hc.
    rewrite (property_into_subclass done S data T sub_data sc _ k v
               Hp HS HT Hfresh). simpl.
    rewrite IH by assumption. rewrite <- app_assoc. reflexivity.
Qed.

Lemma parse_lines_cons (line : str) (rest : list str) (self : config) :
  parse_lines self (line :: rest) =
  (self' <- parse_line self line ;; parse_lines self' rest).
Proof. reflexivity. Qed.

Lemma bind_Ok {A B} (a : A) (k : A -> result B) : bind (Ok a) k = k a.
Proof. reflexivity. Qed.

Lemma props_ok_parts (props : dict) :
  props_ok props = true ->
  uniq_keys props = true /\
  forallb (fun kv => key_ok (fst kv) (snd kv) && value_ok (snd kv)) props = true.
Proof. unfold props_ok. intros H. apply andb_true_iff in H. exact H. Qed.

(** The header of a class and its properties, read back where the class
    is new. *)
Lemma props_block_read (done : dict) cur sc (S : str) (props : dict) :
  name_ok S = true -> dict_get S done = None ->
  props_ok props = true -> props <> [] ->
  parse_lines (mkConfig done cur sc) (props_lines S props)
  = Ok (mkConfig (done ++ [(S, VDict props)]) (Some (S, None, false))
                 (dict_set S [] sc)).
Proof.
  intros HS Hnew Hok Hne. destruct (props_ok_parts props Hok) as [Hu Hall].
  destruct (class_header_read S HS) as (Hc & Hslice & _).
  unfold props_lines. destruct props as [|kv props]; [contradiction|].
  remember (kv :: props) as ps.
  rewrite parse_lines_cons, parse_line_classify, Hc, bind_Ok.
  unfold _newClass, _classExists. rewrite Hslice. simpl file_object.
  rewrite (proj2 (dict_mem_false S done) Hnew). simpl negb. cbv iota.
  rewrite dict_setdefault_absent by exact Hnew. simpl subclasses.
  rewrite parse_lines_app.
  rewrite (properties_into_class ps done S [] _ Hall Hu Hnew). reflexivity.
Qed.

Lemma _newSubClass_existing (done : dict) (S : str) (data : dict) cur sc
      (names : list str) (line T : str) :
  _getClassSubClass line = [S; T] ->
  dict_get S done = None -> dict_get T data = None ->
  dict_get S sc = Some names ->
  _newSubClass (mkConfig (done ++ [(S, VDict data)]) cur sc) line
  = Ok (mkConfig (done ++ [(S, VDict (data ++ [(T, VDict [])]))])
                 (Some (S, Some T, true))
                 (dict_set S (set_add T names) sc)).
Proof.
  intros Hparts HS HT Hn. unfold _newSubClass, _classExists. rewrite Hparts.
  simpl file_object. simpl subclasses.
  assert (dict_mem S (done ++ [(S, VDict data)]) = true) as ->
      by (unfold dict_mem; rewrite dict_get_last by exact HS; reflexivity).
  simpl negb. cbv iota. rewrite Hn, dict_get_last by exact HS.
  rewrite dict_set_last by exact HS.
  rewrite dict_setdefault_absent by exact HT. reflexivity.
Qed.

Lemma _newSubClass_new (done : dict) (S : str) cur sc (line T : str) :
  _getClassSubClass line = [S; T] ->
  dict_get S done = None ->
  _newSubClass (mkConfig done cur sc) line
  = Ok (mkConfig (done ++ [(S, VDict [(T, VDict [])])])
                 (Some (S, Some T, true))
                 (dict_set S (set_add T []) (dict_set S [] sc))).
Proof.
  intros Hparts HS. unfold _newSubClass, _classExists. rewrite Hparts.
  simpl file_object. simpl subclasses.
  rewrite (proj2 (dict_mem_false S done) HS). simpl negb. cbv iota.
  rewrite dict_get_set_same.
  rewrite dict_setdefault_absent by exact HS.
  rewrite dict_get_last by exact HS.
  rewrite dict_set_last by exact HS. reflexivity.
Qed.

Lemma sub_ok_parts (sub : str * pyval) :
  sub_ok sub = true ->
  exists sub_data,
    snd sub = VDict sub_data /\ name_ok (fst sub) = true /\
    props_ok sub_data = true.
Proof.
  unfold sub_ok. intros H. apply andb_true_iff in H. destruct H as [Hn H].
  destruct (snd sub); try discriminate. eauto.
Qed.

(** The header of a subclass and its properties, read back after the
    entries of its class that were written before it. *)
Lemma sub_block_read (done : dict) (S : str) (data : dict) cur sc
      (names : list str) (T : str) (sub_data : dict) :
  name_ok S = true -> name_ok T = true -> props_ok sub_data = true ->
  dict_get S done = None -> dict_get T data = None ->
  dict_get S sc = Some names ->
  parse_lines (mkConfig (done ++ [(S, VDict data)]) cur sc)
              (sub_lines S (T, VDict sub_data))
  = Ok (mkConfig (done ++ [(S, VDict (data ++ [(T, VDict sub_data)]))])
                 (Some (S, Some T, true))
                 (dict_set S (set_add T names) sc)).
Proof.
  intros HS HT Hok Hnew Hfresh Hn.
  destruct (props_ok_parts sub_data Hok) as [Hu Hall].
  destruct (subclass_header_read S T HS HT) as (Hc & Hparts & _).
  change (sub_lines S (T, VDict sub_data))
    with (("[" ++ S ++ "." ++ T ++ "]") :: map property_text sub_data ++ [[]]).
  rewrite parse_lines_cons, parse_line_classify, Hc.
  rewrite (_newSubClass_existing done S data cur sc names _ T Hparts Hnew
             Hfresh Hn), bind_Ok.
  rewrite parse_lines_app.
  rewrite (properties_into_subclass sub_data done S data T [] _ Hall Hu Hnew
             Hfresh). reflexivity.
Qed.

(** The same where the class is new: the header of the subclass creates
    the class. *)
Lemma sub_block_read_new (done : dict) (S : str) cur sc
      (T : str) (sub_data : dict) :
  name_ok S = true -> name_ok T = true -> props_ok sub_data = true ->
  dict_get S done = None ->
  parse_lines (mkConfig done cur sc) (sub_lines S (T, VDict sub_data))
  = Ok (mkConfig (done ++ [(S, VDict [(T, VDict sub_data)])])
                 (Some (S, Some T, true))
                 (dict_set S (set_add T []) (dict_set S [] sc))).
Proof.
  intros HS HT Hok Hnew.
  destruct (props_ok_parts sub_data Hok) as [Hu Hall].
  destruct (subclass_header_read S T HS HT) as (Hc & Hparts & _).
  change (sub_lines S (T, VDict sub_data))
    with (("[" ++ S ++ "." ++ T ++ "]") :: map property_text sub_data ++ [[]]).
  rewrite parse_lines_cons, parse_line_classify, Hc.
  rewrite (_newSubClass_new done S cur sc _ T Hparts Hnew), bind_Ok.
  rewrite parse_lines_app.
  rewrite (properties_into_subclass sub_data done S [] T [] _ Hall Hu Hnew
             eq_refl). reflexivity.
Qed.

(** The subclasses of a class, read back one after the other. *)
Lemma sub_blocks_read (subs done : dict) (S : str) (data : dict) cur sc
      (names : list str) :
  name_ok S = true -> forallb sub_ok subs = true ->
  uniq_keys (data ++ subs) = true ->
  dict_get S done = None -> dict_get S sc = Some names ->
  exists cur' sc',
    parse_lines (mkConfig (done ++ [(S, VDict data)]) cur sc)
                (flat_map (sub_lines S) subs)
    = Ok (mkConfig (done ++ [(S, VDict (data ++ subs))]) cur' sc').
Proof.
  revert data cur sc names.
  induction subs as [|[T v] subs IH]; intros data cur sc names HS Hok Hu Hnew Hn.
  - exists cur, sc. simpl. rewrite app_nil_r. reflexivity.
  - simpl in Hok. apply andb_true_iff in Hok. destruct Hok as [Hsub Hok].
    destruct (sub_ok_parts _ Hsub) as (sub_data & Ev & HT & Hprops).
    simpl in Ev, HT. subst v.
    destruct (uniq_keys_snoc _ _ _ _ Hu) as (Hfresh & Hu').
    change (flat_map (sub_lines S) ((T, VDict sub_data) :: subs))
      with (sub_lines S (T, VDict sub_data) ++ flat_map (sub_lines S) subs).
    rewrite parse_lines_app.
    rewrite (sub_block_read done S data cur sc names T sub_data); try assumption.
    rewrite bind_Ok.
    destruct (IH (data ++ [(T, VDict sub_data)]) (Some (S, Some T, true))
                 (dict_set S (set_add T names) sc) (set_add T names))
      as (cur' & sc' & E); try assumption.
    + apply dict_get_set_same.
    + exists cur', sc'. rewrite E, <- app_assoc. reflexivity.
Qed.

Lemma filter_all {A} (f : A -> bool) (l : list A) :
  forallb f l = true -> filter f l = l.
Proof.
  induction l as [|x l IH]; simpl; [reflexivity|].
  intros H. apply andb_true_iff in H. destruct H as [Hx H].
  rewrite Hx, (IH H). reflexivity.
Qed.

Lemma filter_none {A} (f : A -> bool) (l : list A) :
  forallb f l = true -> filter (fun x => negb (f x)) l = [].
Proof.
  induction l as [|x l IH]; simpl; [reflexivity|].
  intros H. apply andb_true_iff in H. destruct H as [Hx H].
  rewrite Hx. simpl. apply IH. exact H.
Qed.

Lemma props_then_subs_split (names : list str) (data : dict) :
  props_then_subs names data = true ->
  data = props_of names data ++ subs_of names data.
Proof.
  unfold props_of, subs_of.
  induction data as [|[k v] rest IH]; simpl; [reflexivity|].
  destruct (set_mem k names) eqn:E; simpl.
  - intros H.
    rewrite (filter_none (fun kv => set_mem (fst kv) names) rest H).
    rewrite (filter_all (fun kv => set_mem (fst kv) names) rest H).
    reflexivity.
  - intros H. rewrite <- (IH H). reflexivity.
Qed.

Lemma section_ok_parts (names : list str) (S : str) (v : pyval) :
  section_ok names (S, v) = true ->
  exists data,
    v = VDict data /\ name_ok S = true /\ data <> [] /\
    uniq_keys data = true /\
    data = props_of names data ++ subs_of names data /\
    props_ok (props_of names data) = true /\
    forallb sub_ok (subs_of names data) = true.
Proof.
  unfold section_ok. simpl fst. simpl snd.
  destruct v as [| | | | | |data]; try discriminate. intros H.
  apply andb_true_iff in H. destruct H as [H Hsubs].
  apply andb_true_iff in H. destruct H as [H Hprops].
  apply andb_true_iff in H. destruct H as [H Horder].
  apply andb_true_iff in H. destruct H as [H Huniq].
  apply andb_true_iff in H. destruct H as [Hname Hne].
  exists data. repeat split; try assumption.
  - destruct data; [discriminate|discriminate].
  - apply props_then_subs_split. exact Horder.
Qed.

(** The lines written for a class, read back where the class is new. *)
Lemma class_read (done : dict) cur sc (names : list str) (S : str) (v : pyval) :
  section_ok names (S, v) = true -> dict_get S done = None ->
  exists cur' sc',
    parse_lines (mkConfig done cur sc) (class_lines names (S, v))
    = Ok (mkConfig (done ++ [(S, v)]) cur' sc').
Proof.
  intros Hok Hnew.
  destruct (section_ok_parts names S v Hok)
    as (data & -> & HS & Hne & Hu & Esplit & Hprops & Hsubs).
  change (class_lines names (S, VDict data))
    with (props_lines S (props_of names data)
            ++ flat_map (sub_lines S) (subs_of names data)).
  remember (props_of names data) as props eqn:Eprops.
  remember (subs_of names data) as subs eqn:Esubs.
  clear Eprops Esubs. subst data.
  destruct props as [|p props].
  - (* no property: the first subclass header creates the class *)
    simpl app in *. destruct subs as [|[T w] subs]; [contradiction|].
    simpl in Hsubs. apply andb_true_iff in Hsubs. destruct Hsubs as [Hsub Hsubs].
    destruct (sub_ok_parts _ Hsub) as (sub_data & Ew & HT & Hsd).
    simpl in Ew, HT. subst w.
    change (flat_map (sub_lines S) ((T, VDict sub_data) :: subs))
      with (sub_lines S (T, VDict sub_data) ++ flat_map (sub_lines S) subs).
    rewrite parse_lines_app.
    rewrite (sub_block_read_new done S cur sc T sub_data HS HT Hsd Hnew).
    rewrite bind_Ok.
    apply (sub_blocks_read subs done S [(T, VDict sub_data)] _ _ (set_add T []));
      try assumption.
    apply dict_get_set_same.
  - rewrite parse_lines_app.
    rewrite (props_block_read done cur sc S (p :: props) HS Hnew Hprops)
      by discriminate.
    rewrite bind_Ok.
    apply (sub_blocks_read subs done S (p :: props) _ _ []); try assumption.
    apply dict_get_set_same.
Qed.

(** The lines written for a document, read back. *)
Lemma document_read (f : str -> list str) (entries done : dict) cur sc :
  uniq_keys (done ++ entries) = true ->
  forallb (fun entry => section_ok (f (fst entry)) entry) entries = true ->
  exists cur' sc',
    parse_lines (mkConfig done cur sc)
                (flat_map (fun entry => class_lines (f (fst entry)) entry)
                          entries)
    = Ok (mkConfig (done ++ entries) cur' sc').
Proof.
  revert done cur sc. induction entries as [|[S v] entries IH];
    intros done cur sc Hu Hok.
  - exists cur, sc. simpl. rewrite app_nil_r. reflexivity.
  - simpl in Hok. apply andb_true_iff in Hok. destruct Hok as [He Hok].
    destruct (uniq_keys_snoc _ _ _ _ Hu) as (Hnew & Hu').
    destruct (class_read done cur sc (f S) S v He Hnew) as (cur1 & sc1 & E1).
    destruct (IH (done ++ [(S, v)]) cur1 sc1 Hu' Hok) as (cur' & sc' & E).
    exists cur', sc'.
    change (flat_map (fun entry => class_lines (f (fst entry)) entry)
                     ((S, v) :: entries))
      with (class_lines (f S) (S, v)
              ++ flat_map (fun entry => class_lines (f (fst entry)) entry)
                          entries).
    rewrite parse_lines_app, E1, bind_Ok, E, <- app_assoc. reflexivity.
Qed.

Lemma property_lines_one_line (props : dict) :
  props_ok props = true ->
  forallb no_linebreak (map property_text props) = true.
Proof.
  intros H. destruct (props_ok_parts props H) as [_ Hall].
  apply forallb_forall. intros line Hin. apply in_map_iff in Hin.
  destruct Hin as ([k v] & <- & Hkv). rewrite forallb_forall in Hall.
  specialize (Hall _ Hkv). apply andb_true_iff in Hall.
  apply property_text_read; tauto.
Qed.

(** Every line written for a class is one line. *)
Lemma class_lines_one_line (names : list str) (S : str) (v : pyval) :
  section_ok names (S, v) = true ->
  forallb no_linebreak (class_lines names (S, v)) = true.
Proof.
  intros Hok.
  destruct (section_ok_parts names S v Hok)
    as (data & -> & HS & _ & _ & _ & Hprops & Hsubs).
  change (class_lines names (S, VDict data))
    with (props_lines S (props_of names data)
            ++ flat_map (sub_lines S) (subs_of names data)).
  rewrite forallb_app. apply andb_true_iff. split.
  - unfold props_lines. destruct (props_of names data) eqn:E; [reflexivity|].
    rewrite <- E in *.
    change (forallb no_linebreak
              (("[" ++ S ++ "]") :: map property_text (props_of names data)
                 ++ [[]]))
      with (no_linebreak ("[" ++ S ++ "]")
            && forallb no_linebreak
                 (map property_text (props_of names data) ++ [[]])).
    destruct (class_header_read S HS) as (_ & _ & ->).
    rewrite forallb_app, property_lines_one_line by exact Hprops. reflexivity.
  - induction (subs_of names data) as [|[T w] subs IH]; [reflexivity|].
    simpl in Hsubs. apply andb_true_iff in Hsubs. destruct Hsubs as [Hsub Hsubs].
    destruct (sub_ok_parts _ Hsub) as (sub_data & Ew & HT & Hsd).
    simpl in Ew, HT. subst w.
    change (flat_map (sub_lines S) ((T, VDict sub_data) :: subs))
      with ((("[" ++ S ++ "." ++ T ++ "]")
               :: map property_text sub_data ++ [[]])
              ++ flat_map (sub_lines S) subs).
    rewrite forallb_app. apply andb_true_iff. split; [|exact (IH Hsubs)].
    change (forallb no_linebreak
              (("[" ++ S ++ "." ++ T ++ "]") :: map property_text sub_data
                 ++ [[]]))
      with (no_linebreak ("[" ++ S ++ "." ++ T ++ "]")
            && forallb no_linebreak (map property_text sub_data ++ [[]])).
    destruct (subclass_header_read S T HS HT) as (_ & _ & ->).
    rewrite forallb_app, property_lines_one_line by exact Hsd. reflexivity.
Qed.

Lemma save_lines_one_line (self : config) :
  round_trippable self = true ->
  forallb no_linebreak (save_lines self) = true.
Proof.
  unfold round_trippable, save_lines. intros H.
  apply andb_true_iff in H. destruct H as [_ H].
  induction (file_object self) as [|[S v] entries IH]; [reflexivity|].
  simpl in H. apply andb_true_iff in H. destruct H as [He H].
  simpl flat_map. rewrite forallb_app. apply andb_true_iff.
  split; [|exact (IH H)].
  apply class_lines_one_line. exact He.
Qed.

(* ================================================================== *)
(** ** The fuel of [_convert_value] is enough *)

Lemma length_dropwhile (p : ascii -> bool) (s : str) :
  (length (dropwhile p s) <= length s)%nat.
Proof.
  induction s as [|c s IH]; simpl; [lia|]. destruct (p c); simpl; lia.
Qed.

Lemma length_strip_by (p : ascii -> bool) (s : str) :
  (length (strip_by p s) <= length s)%nat.
Proof.
  unfold strip_by. rewrite length_rev.
  pose proof (length_dropwhile p (rev (dropwhile p s))) as H1.
  rewrite length_rev in H1. pose proof (length_dropwhile p s). lia.
Qed.

Lemma length_slice (s : str) :
  s <> [] -> (length (slice_1_m1 s) < length s)%nat.
Proof.
  destruct s as [|c s]; [contradiction|]. intros _. unfold slice_1_m1. simpl.
  destruct s as [|d s]; [simpl; lia|].
  rewrite removelast_firstn_len, length_firstn. simpl. lia.
Qed.

Lemma length_split_piece (c : ascii) (s piece : str) :
  In piece (split c s) -> (length piece <= length s)%nat.
Proof.
  revert piece. induction s as [|x s IH]; intros piece; simpl.
  - intros [<-|[]]. simpl. lia.
  - destruct (Ascii.eqb x c).
    + intros [<-|H]; [simpl; lia|]. specialize (IH _ H). lia.
    + destruct (split c s) as [|h t] eqn:Es.
      * intros [<-|[]]. simpl. lia.
      * intros [<-|H].
        -- specialize (IH h (or_introl eq_refl)). simpl. lia.
        -- specialize (IH piece (or_intror H)). lia.
Qed.

Lemma length_split1_piece (c : ascii) (s a b : str) :
  split1 c s = [a; b] -> (length b <= length s)%nat.
Proof.
  revert a. induction s as [|x s IH]; intros a; simpl; [discriminate|].
  destruct (Ascii.eqb x c).
  - intros [= _ <-]. lia.
  - destruct (split1 c s) as [|h [|h2 [|? ?]]] eqn:Es; try discriminate.
    intros [= _ <-]. specialize (IH h eq_refl). lia.
Qed.

Lemma read_entries_ext (conv1 conv2 : str -> pyval) (n : nat)
      (parts : list str) (result : dict) :
  (forall s, (length s <= n)%nat -> conv1 s = conv2 s) ->
  Forall (fun part => (length part <= n)%nat) parts ->
  fold_left (read_entry conv1) parts result
  = fold_left (read_entry conv2) parts result.
Proof.
  intros Hconv Hparts. revert result.
  induction Hparts as [|part parts Hp _ IH]; intros result; simpl;
    [reflexivity|].
  assert (read_entry conv1 result part = read_entry conv2 result part) as ->;
    [|apply IH].
  unfold read_entry. destruct (contains "=" part); [|reflexivity].
  destruct (split1 "=" part) as [|k [|v [|? ?]]] eqn:Es; try reflexivity.
  rewrite Hconv; [reflexivity|].
  pose proof (length_split1_piece _ _ _ _ Es).
  pose proof (length_strip_by is_space v). unfold strip. lia.
Qed.

(** With at least as much fuel as the text is long, the result does not
    depend on the fuel: the recursive calls are on shorter texts, and the
    fuel does not run out. *)
Lemma convert_fuel_enough (fuel1 fuel2 : nat) (value : str) :
  (length value <= fuel1)%nat -> (length value <= fuel2)%nat ->
  convert_fuel fuel1 value = convert_fuel fuel2 value.
Proof.
  revert fuel2 value. induction fuel1 as [fuel1 IH] using lt_wf_ind.
  intros fuel2 value H1 H2. rewrite !convert_fuel_eq. cbv zeta.
  set (rec1 := match fuel1 with
               | O => fun _ : str => VNone
               | S fuel' => convert_fuel fuel'
               end).
  set (rec2 := match fuel2 with
               | O => fun _ : str => VNone
               | S fuel' => convert_fuel fuel'
               end).
  pose proof (length_strip_by is_space value) as Hlen. fold (strip value) in Hlen.
  assert (strip value <> [] ->
          forall s, (length s < length (strip value))%nat -> rec1 s = rec2 s)
    as Hrec.
  { intros Hne s Hs. unfold rec1, rec2.
    destruct fuel1 as [|f1]; [lia|]. destruct fuel2 as [|f2]; [lia|].
    apply IH; lia. }
  destruct (PyStr.eqb (lower (strip value)) "true"
            || PyStr.eqb (lower (strip value)) "false"); [reflexivity|].
  destruct (isdigit (strip value)); [reflexivity|].
  destruct (float_of_str (strip value)); [reflexivity|].
  destruct (strip value) as [|c v] eqn:Ev; [reflexivity|].
  assert (c :: v <> []) as Hne by discriminate.
  specialize (Hrec Hne). pose proof (length_slice (c :: v) Hne) as Hsl.
  destruct (startswith "[" (c :: v) && endswith "]" (c :: v)).
  { f_equal. apply map_ext_in. intros item Hitem.
    apply filter_In in Hitem. destruct Hitem as [Hitem _].
    apply length_split_piece in Hitem.
    pose proof (length_strip_by is_space item). unfold strip in *.
    apply Hrec. lia. }
  destruct (startswith "{" (c :: v) && endswith "}" (c :: v)); [|reflexivity].
  f_equal. rewrite !_parse_inline_dict_with_eq. cbv zeta.
  destruct (is_empty _); [reflexivity|].
  apply read_entries_ext with (n := length (slice_1_m1 (c :: v))).
  - intros s Hs. apply Hrec. lia.
  - apply Forall_forall. intros part Hpart.
    apply length_split_piece in Hpart.
    pose proof (length_strip_by is_space (slice_1_m1 (c :: v))).
    unfold strip in *. lia.
Qed.

Lemma _convert_value_fuel (fuel : nat) (value : str) :
  (length value <= fuel)%nat -> convert_fuel fuel value = _convert_value value.
Proof. intros H. apply convert_fuel_enough; [exact H|lia]. Qed.

(* ================================================================== *)
(** ** What the decoder returns *)

Lemma forallb_incl {A} (f : A -> bool) (l m : list A) :
  incl l m -> forallb f m = true -> forallb f l = true.
Proof. rewrite !forallb_forall. unfold incl. auto. Qed.

Lemma incl_dropwhile (p : ascii -> bool) (s : str) : incl (dropwhile p s) s.
Proof.
  induction s as [|c s IH]; simpl; [apply incl_refl|].
  destruct (p c); [apply incl_tl; exact IH|apply incl_refl].
Qed.

Lemma incl_rev_l {A} (l : list A) : incl (rev l) l.
Proof. intros x Hx. apply in_rev. exact Hx. Qed.

Lemma incl_rev_r {A} (l : list A) : incl l (rev l).
Proof. intros x Hx. apply in_rev. rewrite rev_involutive. exact Hx. Qed.

Lemma incl_strip_by (p : ascii -> bool) (s : str) : incl (strip_by p s) s.
Proof.
  unfold strip_by.
  eapply incl_tran; [apply incl_rev_l|].
  eapply incl_tran; [apply incl_dropwhile|].
  eapply incl_tran; [apply incl_rev_l|]. apply incl_dropwhile.
Qed.

Lemma incl_removelast {A} (l : list A) : incl (removelast l) l.
Proof.
  induction l as [|x l IH]; simpl; [apply incl_refl|].
  destruct l as [|y l]; [intros ? []|].
  intros z [->|Hz]; [left; reflexivity|right; apply IH; exact Hz].
Qed.

Lemma incl_slice (s : str) : incl (slice_1_m1 s) s.
Proof.
  unfold slice_1_m1. eapply incl_tran; [apply incl_removelast|].
  destruct s; [apply incl_refl|apply incl_tl, incl_refl].
Qed.

(** The pieces of a split are made of characters of the text, the
    separator apart. *)
Lemma split_pieces (c : ascii) (s : str) (piece : str) :
  In piece (split c s) -> incl piece s /\ contains c piece = false.
Proof.
  revert piece. induction s as [|x s IH]; intros piece; simpl.
  - intros [<-|[]]. split; [apply incl_refl|reflexivity].
  - destruct (Ascii.eqb x c) eqn:E.
    + intros [<-|H]; [split; [intros ? []|reflexivity]|].
      destruct (IH piece H) as [H1 H2]. split; [apply incl_tl; exact H1|exact H2].
    + destruct (split c s) as [|h t] eqn:Es.
      * intros [<-|[]]. split; [intros z [->|[]]; left; reflexivity|].
        simpl. rewrite Ascii.eqb_sym, E. reflexivity.
      * intros [<-|H].
        -- destruct (IH h (or_introl eq_refl)) as [H1 H2]. split.
           ++ intros z [->|Hz]; [left; reflexivity|right; apply H1; exact Hz].
           ++ simpl. rewrite Ascii.eqb_sym, E, H2. reflexivity.
        -- destruct (IH piece (or_intror H)) as [H1 H2].
           split; [apply incl_tl; exact H1|exact H2].
Qed.

Lemma split1_pieces (c : ascii) (s a b : str) :
  split1 c s = [a; b] ->
  incl a s /\ incl b s /\ contains c a = false.
Proof.
  revert a. induction s as [|x s IH]; intros a; simpl; [discriminate|].
  destruct (Ascii.eqb x c) eqn:E.
  - intros [= <- <-]. repeat split; [intros ? []|apply incl_tl, incl_refl].
  - destruct (split1 c s) as [|h [|h2 [|? ?]]] eqn:Es; try discriminate.
    intros [= <- <-]. destruct (IH h eq_refl) as (H1 & H2 & H3).
    repeat split.
    + intros z [->|Hz]; [left; reflexivity|right; apply H1; exact Hz].
    + apply incl_tl. exact H2.
    + simpl. rewrite Ascii.eqb_sym, E, H3. reflexivity.
Qed.

(** What trimming returns is trimmed. *)
Lemma dropwhile_head (p : ascii -> bool) (s : str) (c : ascii) (t : str) :
  dropwhile p s = c :: t -> p c = false.
Proof.
  induction s as [|x s IH]; simpl; [discriminate|].
  destruct (p x) eqn:E; [exact IH|]. intros [= <- _]. exact E.
Qed.

Lemma dropwhile_suffix (p : ascii -> bool) (s : str) :
  exists w, s = w ++ dropwhile p s.
Proof.
  induction s as [|x s IH]; simpl; [exists []; reflexivity|].
  destruct (p x); [|exists []; reflexivity].
  destruct IH as [w Hw]. exists (x :: w). simpl. rewrite <- Hw. reflexivity.
Qed.

Lemma strip_by_is_trimmed (p : ascii -> bool) (s : str) :
  trimmed_by p (strip_by p s) = true.
Proof.
  unfold strip_by. set (t := dropwhile p s).
  destruct (dropwhile p (rev t)) as [|c u] eqn:Eu; [reflexivity|].
  pose proof (dropwhile_head _ _ _ _ Eu) as Hc.
  destruct (dropwhile_suffix p (rev t)) as [w Hw]. rewrite Eu in Hw.
  (* the first character of the result is the first character of [t] *)
  assert (exists u', rev (c :: u) = last (c :: u) c :: u') as [u' Eu'].
  { destruct (exists_last (l := c :: u)) as (v & z & E); [discriminate|].
    rewrite E, last_app_single, rev_app_distr. simpl. eauto. }
  assert (p (last (c :: u) c) = false) as Hfirst.
  { assert (t <> []) as Ht.
    { intros Et. rewrite Et in Hw. simpl in Hw. destruct w; discriminate. }
    destruct t as [|t0 t'] eqn:Et; [contradiction|].
    assert (p t0 = false) as Ht0 by (apply (dropwhile_head p s t0 t'); exact Et).
    assert (last (c :: u) c = t0) as ->; [|exact Ht0].
    assert (last (rev (t0 :: t')) c = t0) as Hl
        by (simpl; apply last_app_single).
    rewrite Hw in Hl. rewrite last_app_nonempty in Hl by discriminate.
    exact Hl. }
  rewrite Eu', trimmed_by_cons, Hfirst. rewrite andb_true_l, <- Eu'.
  change (rev (c :: u)) with (rev u ++ [c]).
  rewrite last_app_single, Hc. reflexivity.
Qed.

(** The floats that [float] returns. *)
Lemma count_leading_zeros_split (s : str) :
  s = repeat "0"%char (count_leading_zeros s) ++ skipn (count_leading_zeros s) s
  /\ (skipn (count_leading_zeros s) s = []
      \/ exists c r, skipn (count_leading_zeros s) s = c :: r
                     /\ Ascii.eqb c "0" = false).
Proof.
  induction s as [|c s [IH1 IH2]]; simpl; [split; [reflexivity|left; reflexivity]|].
  destruct (Ascii.eqb c "0") eqn:E.
  - apply Ascii.eqb_eq in E. subst c. simpl. split; [f_equal; exact IH1|exact IH2].
  - simpl. split; [reflexivity|]. right. exists c, s. split; [reflexivity|exact E].
Qed.

Lemma digit_of_char_digit (c : ascii) :
  is_digit c = true -> Ascii.eqb c "0" = false ->
  (0 < digit_of_char c < 10)%N.
Proof.
  destruct c as [[] [] [] [] [] [] [] []]; intros H H0;
    try discriminate H; try discriminate H0; vm_compute; split; reflexivity.
Qed.

Lemma mk_float_ok (neg : bool) (ds : str) (e0 : Z) :
  forallb is_digit ds = true -> float_ok (mk_float neg ds e0) = true.
Proof.
  intros Hd. unfold mk_float.
  set (k := count_leading_zeros (rev ds)).
  destruct (N.eqb_spec (N_of_digits (firstn (length ds - k) ds)) 0) as [|Hm];
    [reflexivity|].
  destruct (count_leading_zeros_split (rev ds)) as [H1 H2]. fold k in H1, H2.
  assert (ds = rev (skipn k (rev ds)) ++ repeat "0"%char k) as Hds.
  { rewrite <- (rev_involutive ds) at 1. rewrite H1 at 1.
    rewrite rev_app_distr, rev_repeat. reflexivity. }
  assert (firstn (length ds - k) ds = rev (skipn k (rev ds))) as Hpre.
  { rewrite Hds at 2. rewrite Hds at 1.
    rewrite length_app, repeat_length, Nat.add_sub.
    rewrite firstn_app, Nat.sub_diag, firstn_all. apply app_nil_r. }
  rewrite Hpre in Hm |- *.
  destruct H2 as [H2|(c & r & H2 & Hc)].
  - rewrite H2 in Hm. simpl in Hm. contradiction.
  - rewrite H2 in Hm |- *. simpl rev in *.
    assert (is_digit c = true) as Hcd.
    { rewrite forallb_forall in Hd. apply Hd. apply in_rev.
      rewrite H1. apply in_or_app. right. rewrite H2. left. reflexivity. }
    pose proof (digit_of_char_digit c Hcd Hc) as Hrange.
    unfold float_ok.
    destruct (N.eqb_spec (N_of_digits (rev r ++ [c])) 0); [contradiction|].
    rewrite N_of_digits_snoc. apply negb_true_iff, N.eqb_neq.
    rewrite N.mul_comm, N.add_comm, N.Div0.mod_add.
    rewrite N.mod_small by lia. lia.
Qed.

Lemma digitpart_is_digits (n : nat) (s : str) :
  (length s <= n)%nat -> forallb is_digit (fst (digitpart s)) = true.
Proof.
  revert s. induction n as [|n IH]; intros s Hn.
  - destruct s; [reflexivity|simpl in Hn; lia].
  - destruct s as [|c s']; [reflexivity|].
    rewrite digitpart_cons. destruct (is_digit c) eqn:Hc; [|reflexivity].
    destruct s' as [|u s'']; [simpl; rewrite Hc; reflexivity|].
    simpl in Hn.
    destruct (Ascii.eqb u "_" && _).
    + pose proof (IH s'' ltac:(lia)) as H.
      destruct (digitpart s''). simpl in *. rewrite Hc. exact H.
    + pose proof (IH (u :: s'') ltac:(simpl; lia)) as H.
      destruct (digitpart (u :: s'')). simpl in *. rewrite Hc. exact H.
Qed.

Lemma read_number_norm (neg : bool) (s : str) (f : pyfloat) :
  read_number neg s = Some f -> float_norm f = true.
Proof.
  unfold read_number.
  pose proof (digitpart_is_digits (length s) s (le_n _)) as Hip.
  destruct (digitpart s) as [ip r1]. simpl in Hip.
  assert (forall fp r2,
    (fp, r2) = match r1 with
               | c :: r => if Ascii.eqb c "." then digitpart r else ([], r1)
               | [] => ([], [])
               end -> forallb is_digit fp = true) as Hfp.
  { intros fp r2. destruct r1 as [|c r]; [intros [= -> _]; reflexivity|].
    destruct (Ascii.eqb c "."); [|intros [= -> _]; reflexivity].
    intros E. pose proof (digitpart_is_digits (length r) r (le_n _)) as H.
    rewrite <- E in H. exact H. }
  destruct (match r1 with
            | c :: r => if Ascii.eqb c "." then digitpart r else ([], r1)
            | [] => ([], [])
            end) as [fp r2].
  specialize (Hfp fp r2 eq_refl).
  assert (forallb is_digit (ip ++ fp) = true) as Hds
      by (rewrite forallb_app, Hip, Hfp; reflexivity).
  destruct (ip ++ fp) as [|d ds]; [discriminate|].
  destruct (read_exponent r2); [|discriminate].
  intros [= <-]. unfold float_norm.
  rewrite mk_float_ok by exact Hds. apply orb_true_r.
Qed.

Lemma float_of_str_norm (s : str) (f : pyfloat) :
  float_of_str s = Some f -> float_norm f = true.
Proof.
  unfold float_of_str. destruct (read_sign (strip s)) as [neg body].
  destruct (_ || _); [intros [= <-]; reflexivity|].
  destruct (PyStr.eqb _ _); [intros [= <-]; reflexivity|].
  apply read_number_norm.
Qed.

Lemma PyStr_eqb_sym (a b : str) : PyStr.eqb a b = PyStr.eqb b a.
Proof.
  destruct (PyStr.eqb a b) eqn:E; symmetry.
  - apply eqb_eq in E. subst. apply eqb_refl.
  - apply eqb_neq. apply eqb_neq in E. congruence.
Qed.

Lemma uniq_keys_dict_set {V} (k : str) (v : V) (d : list (str * V)) :
  uniq_keys d = true -> uniq_keys (dict_set k v d) = true.
Proof.
  induction d as [|[k0 v0] d IH]; simpl; [reflexivity|].
  intros H. apply andb_true_iff in H. destruct H as [H0 H].
  destruct (PyStr.eqb k k0) eqn:E; simpl.
  - apply eqb_eq in E. subst k0. rewrite H0, H. reflexivity.
  - rewrite dict_mem_set, IH by exact H.
    rewrite PyStr_eqb_sym, E. simpl. rewrite H0. reflexivity.
Qed.

Lemma uniq_keys_dict_setdefault {V} (k : str) (v : V) (d : list (str * V)) :
  uniq_keys d = true -> uniq_keys (dict_setdefault k v d) = true.
Proof.
  intros H. unfold dict_setdefault. destruct (dict_mem k d) eqn:E; [exact H|].
  induction d as [|[k0 v0] d IH]; simpl; [reflexivity|].
  simpl in H. apply andb_true_iff in H. destruct H as [H0 H].
  unfold dict_mem in E. simpl in E.
  destruct (PyStr.eqb k k0) eqn:Ek; [discriminate|].
  rewrite IH; [|exact H|unfold dict_mem; exact E].
  unfold dict_mem. rewrite dict_get_app. unfold dict_mem in H0.
  destruct (dict_get k0 d); [discriminate|]. simpl.
  rewrite PyStr_eqb_sym, Ek. reflexivity.
Qed.

Lemma good_chars (lit : bool) (s : str) :
  forallb (good_char lit) s = true ->
  no_linebreak s = true /\ (negb lit || negb (contains "," s)) = true.
Proof.
  intros H. split.
  - unfold no_linebreak. eapply forallb_impl; [|exact H].
    intros c Hc. unfold good_char in Hc. apply andb_true_iff in Hc. tauto.
  - destruct lit; [|reflexivity]. simpl. apply negb_true_iff.
    apply contains_false_iff. intros Hin.
    rewrite forallb_forall in H. specialize (H _ Hin).
    unfold good_char in H. rewrite Ascii.eqb_refl in H. simpl in H.
    try rewrite andb_false_r in H; discriminate.
Qed.

Lemma good_chars_piece (lit : bool) (s : str) :
  no_linebreak s = true -> contains "," s = false ->
  forallb (good_char lit) s = true.
Proof.
  intros H1 H2. apply forallb_forall. intros c Hc.
  unfold no_linebreak in H1. rewrite forallb_forall in H1.
  unfold good_char. rewrite (H1 c Hc). simpl.
  destruct (Ascii.eqb c ",") eqn:E; [|apply orb_true_r].
  apply Ascii.eqb_eq in E. subst c.
  apply contains_false_iff in H2. contradiction.
Qed.

Lemma no_linebreak_incl (s t : str) :
  incl s t -> no_linebreak t = true -> no_linebreak s = true.
Proof. apply forallb_incl. Qed.

Lemma contains_incl (c : ascii) (s t : str) :
  incl s t -> contains c t = false -> contains c s = false.
Proof.
  intros Hi H. apply contains_false_iff. apply contains_false_iff in H.
  intros Hin. apply H, Hi, Hin.
Qed.

(** One part of an inline table, read into a table of decoded entries. *)
Lemma read_entry_decoded (conv : str -> pyval) (result : dict) (part : str) :
  (forall s, forallb (good_char true) s = true -> decoded true (conv s) = true) ->
  no_linebreak part = true -> contains "," part = false ->
  uniq_keys result = true ->
  forallb (fun kv => inline_key_clean (fst kv) && decoded true (snd kv)) result
    = true ->
  uniq_keys (read_entry conv result part) = true /\
  forallb (fun kv => inline_key_clean (fst kv) && decoded true (snd kv))
          (read_entry conv result part) = true.
Proof.
  intros Hconv Hnl Hcomma Hu Hall. unfold read_entry.
  destruct (contains "=" part); [|tauto].
  destruct (split1 "=" part) as [|k [|v [|? ?]]] eqn:Es; try tauto.
  destruct (split1_pieces _ _ _ _ Es) as (Hk & Hv & Hkeq).
  split; [apply uniq_keys_dict_set; exact Hu|].
  apply forallb_Forall. apply dict_set_Forall; [apply forallb_Forall; exact Hall|].
  cbv beta. simpl fst. simpl snd. apply andb_true_iff. split.
  - assert (incl (strip_char sq (strip_char dq (strip k))) part) as Hi.
    { eapply incl_tran; [apply incl_strip_by|].
      eapply incl_tran; [apply incl_strip_by|].
      eapply incl_tran; [apply incl_strip_by|]. exact Hk. }
    unfold inline_key_clean, unquoted, strip_char at 1.
    rewrite strip_by_is_trimmed.
    rewrite (no_linebreak_incl _ _ Hi Hnl).
    rewrite (contains_incl _ _ _ Hi Hcomma).
    rewrite (contains_incl "=" _ k); [reflexivity| |exact Hkeq].
    eapply incl_tran; [apply incl_strip_by|].
    eapply incl_tran; [apply incl_strip_by|]. apply incl_strip_by.
  - apply Hconv. apply good_chars_piece.
    + eapply no_linebreak_incl; [|exact Hnl].
      eapply incl_tran; [apply incl_strip_by|exact Hv].
    + eapply contains_incl; [|exact Hcomma].
      eapply incl_tran; [apply incl_strip_by|exact Hv].
Qed.

Lemma read_entries_decoded (conv : str -> pyval) (parts : list str) (result : dict) :
  (forall s, forallb (good_char true) s = true -> decoded true (conv s) = true) ->
  Forall (fun part => no_linebreak part = true /\ contains "," part = false)
         parts ->
  uniq_keys result = true ->
  forallb (fun kv => inline_key_clean (fst kv) && decoded true (snd kv)) result
    = true ->
  uniq_keys (fold_left (read_entry conv) parts result) = true /\
  forallb (fun kv => inline_key_clean (fst kv) && decoded true (snd kv))
          (fold_left (read_entry conv) parts result) = true.
Proof.
  intros Hconv Hparts. revert result.
  induction Hparts as [|part parts [H1 H2] _ IH]; intros result Hu Hall; simpl.
  - tauto.
  - destruct (read_entry_decoded conv result part Hconv H1 H2 Hu Hall) as [A B].
    apply IH; assumption.
Qed.

(** What [_convert_value] returns, whatever the text. *)
Lemma convert_fuel_decoded (fuel : nat) (lit : bool) (value : str) :
  forallb (good_char lit) value = true ->
  decoded lit (convert_fuel fuel value) = true.
Proof.
  revert lit value. induction fuel as [fuel IH] using lt_wf_ind.
  intros lit value Hgood.
  set (rec := match fuel with
              | O => fun _ : str => VNone
              | S fuel' => convert_fuel fuel'
              end).
  assert (forall s, forallb (good_char true) s = true ->
                    decoded true (rec s) = true) as Hrec.
  { intros s Hs. unfold rec. destruct fuel as [|fuel']; [reflexivity|].
    apply IH; [lia|exact Hs]. }
  rewrite convert_fuel_eq. cbv zeta. fold rec.
  assert (incl (strip value) value) as Hi by apply incl_strip_by.
  destruct (good_chars lit value Hgood) as [Hnl Hcomma].
  destruct (PyStr.eqb (lower (strip value)) "true"
            || PyStr.eqb (lower (strip value)) "false"); [reflexivity|].
  destruct (isdigit (strip value)).
  { simpl. unfold int_of_str. apply Z.leb_le. lia. }
  destruct (float_of_str (strip value)) as [f|] eqn:Ef.
  { simpl. apply float_of_str_norm with (s := strip value). exact Ef. }
  destruct (startswith "[" (strip value) && endswith "]" (strip value)).
  { simpl. apply forallb_forall. intros v Hv.
    apply in_map_iff in Hv. destruct Hv as (item & <- & Hitem).
    apply filter_In in Hitem. destruct Hitem as [Hitem _].
    apply split_pieces in Hitem. destruct Hitem as [Hsub Hno].
    apply Hrec. apply good_chars_piece.
    - eapply no_linebreak_incl; [|exact Hnl].
      eapply incl_tran; [apply incl_strip_by|].
      eapply incl_tran; [exact Hsub|].
      eapply incl_tran; [apply incl_slice|exact Hi].
    - eapply contains_incl; [apply incl_strip_by|exact Hno]. }
  destruct (startswith "{" (strip value) && endswith "}" (strip value)).
  { rewrite _parse_inline_dict_with_eq. cbv zeta.
    destruct (is_empty _); [reflexivity|].
    simpl decoded. apply andb_true_iff.
    apply read_entries_decoded; [exact Hrec| |reflexivity|reflexivity].
    apply Forall_forall. intros part Hpart.
    apply split_pieces in Hpart. destruct Hpart as [Hsub Hno].
    split; [|exact Hno].
    eapply no_linebreak_incl; [|exact Hnl].
    eapply incl_tran; [exact Hsub|].
    eapply incl_tran; [apply incl_strip_by|].
    eapply incl_tran; [apply incl_slice|exact Hi]. }
  simpl. unfold unquoted, strip_char. rewrite strip_by_is_trimmed.
  assert (incl (strip_by (Ascii.eqb dq) (strip value)) value) as Hi2
      by (eapply incl_tran; [apply incl_strip_by|exact Hi]).
  rewrite (no_linebreak_incl _ _ Hi2 Hnl). simpl.
  destruct lit; [|reflexivity]. simpl in *.
  apply negb_true_iff in Hcomma. apply negb_true_iff.
  eapply contains_incl; [exact Hi2|exact Hcomma].
Qed.

Lemma _convert_value_decoded (value : str) :
  no_linebreak value = true -> decoded false (_convert_value value) = true.
Proof.
  intros H. apply convert_fuel_decoded.
  eapply forallb_impl; [|exact H].
  intros c Hc. unfold good_char. rewrite Hc. reflexivity.
Qed.

(* ================================================================== *)
(** ** What the builder stores *)

Lemma splitlines_from_one_line (skip_lf : bool) (s : str) :
  Forall (fun l => no_linebreak l = true) (splitlines_from skip_lf s).
Proof.
  revert skip_lf. induction s as [|c s IH]; intros skip_lf; simpl; [constructor|].
  destruct (skip_lf && Ascii.eqb c nl); [apply IH|].
  destruct (is_linebreak c) eqn:E; [constructor; [reflexivity|apply IH]|].
  specialize (IH false). destruct (splitlines_from false s) as [|l ls].
  - constructor; [|constructor]. simpl. rewrite E. reflexivity.
  - inversion IH as [|? ? Hl Hls]; subst. constructor; [|exact Hls].
    simpl. rewrite E. exact Hl.
Qed.

Lemma decoded_weaken (lit : bool) (v : pyval) :
  decoded true v = true -> decoded lit v = true.
Proof.
  destruct v; simpl; auto. intros H.
  apply andb_true_iff in H. destruct H as [H1 H2]. rewrite H1, H2.
  apply orb_true_r.
Qed.

(** An inline table stored by a property line is as good as a section
    filled by property lines. *)
Lemma decoded_table_inv (lit : bool) (d : dict) :
  decoded lit (VDict d) = true -> table_inv d = true.
Proof.
  simpl. unfold table_inv. intros H. apply andb_true_iff in H.
  destruct H as [-> H]. simpl. eapply forallb_impl; [|exact H].
  intros [k w] Hkw. simpl in *. apply andb_true_iff in Hkw.
  destruct Hkw as [Hk Hw]. unfold inline_key_clean in Hk.
  apply andb_true_iff in Hk. destruct Hk as [Hk Heq].
  apply andb_true_iff in Hk. destruct Hk as [Hk _].
  apply andb_true_iff in Hk. destruct Hk as [_ Hnl].
  rewrite Hnl, Heq, (decoded_weaken false w Hw). reflexivity.
Qed.

Lemma uniq_keys_not_in {V} (k : str) (d : list (str * V)) (e : str * V) :
  dict_mem k d = false -> In e d -> fst e <> k.
Proof.
  intros Hk He E. destruct e as [k' v]. simpl in E. subst k'.
  induction d as [|[k0 v0] d IH]; [contradiction|].
  unfold dict_mem in *. simpl in Hk.
  destruct (PyStr.eqb k k0) eqn:E; [discriminate|].
  destruct He as [He|He]; [|exact (IH Hk He)].
  injection He as -> _. rewrite eqb_refl in E. discriminate.
Qed.

Lemma forallb_dict_set {V} (f g : str * V -> bool) (k : str) (v : V)
      (d : list (str * V)) :
  uniq_keys d = true -> forallb f d = true -> g (k, v) = true ->
  (forall e, In e d -> fst e <> k -> f e = true -> g e = true) ->
  forallb g (dict_set k v d) = true.
Proof.
  intros Hu Hf Hg Hfg. induction d as [|[k0 v0] d IH]; simpl.
  - rewrite Hg. reflexivity.
  - simpl in Hu, Hf. apply andb_true_iff in Hu. destruct Hu as [Hk0 Hu].
    apply andb_true_iff in Hf. destruct Hf as [Hf0 Hf].
    apply negb_true_iff in Hk0.
    destruct (PyStr.eqb k k0) eqn:E; simpl.
    + apply eqb_eq in E. subst k0. rewrite Hg. simpl.
      apply forallb_forall. intros e He. rewrite forallb_forall in Hf.
      apply Hfg; [right; exact He| |apply Hf; exact He].
      eapply uniq_keys_not_in; eauto.
    + apply andb_true_iff. split.
      * apply Hfg; [left; reflexivity| |exact Hf0].
        simpl. apply eqb_neq in E. congruence.
      * apply IH; [exact Hu|exact Hf|].
        intros e He. apply Hfg. right. exact He.
Qed.

Lemma dict_setdefault_as_set {V} (k : str) (v : V) (d : list (str * V)) :
  dict_mem k d = false -> dict_setdefault k v d = dict_set k v d.
Proof.
  intros H. unfold dict_setdefault. rewrite H. symmetry.
  apply dict_set_absent. unfold dict_mem in H.
  destruct (dict_get k d); [discriminate|reflexivity].
Qed.

(** Replacing the section [cls]; the index may change at [cls]. *)
Lemma parsed_inv_update (self self' : config) (cls : str) (data' : dict) :
  parsed_inv self = true ->
  file_object self' = dict_set cls (VDict data') (file_object self) ->
  (forall S, S <> cls -> subclass_names self' S = subclass_names self S) ->
  current_inv self' = true ->
  name_ok cls = true -> uniq_keys data' = true ->
  forallb (entry_inv (subclass_names self' cls)) data' = true ->
  parsed_inv self' = true.
Proof.
  intros Hinv Hfo Hsc Hcur Hname Hu Hall. unfold parsed_inv in *.
  apply andb_true_iff in Hinv. destruct Hinv as [Hinv Hsec].
  apply andb_true_iff in Hinv. destruct Hinv as [_ Hufo].
  rewrite Hcur, Hfo, uniq_keys_dict_set by exact Hufo. simpl.
  eapply forallb_dict_set; [exact Hufo|exact Hsec| |].
  - unfold section_inv. simpl. rewrite Hname, Hu, Hall. reflexivity.
  - intros e He Hne H. rewrite Hsc by exact Hne. exact H.
Qed.

Lemma section_of_parsed (self : config) (cls : str) (v : pyval) :
  parsed_inv self = true -> dict_get cls (file_object self) = Some v ->
  section_inv (subclass_names self cls) (cls, v) = true.
Proof.
  intros Hinv Hget. unfold parsed_inv in Hinv.
  apply andb_true_iff in Hinv. destruct Hinv as [_ Hsec].
  rewrite forallb_Forall in Hsec.
  exact (dict_get_Forall _ _ _ _ Hsec Hget).
Qed.

Lemma section_inv_parts (names : list str) (cls : str) (data : dict) :
  section_inv names (cls, VDict data) = true ->
  name_ok cls = true /\ uniq_keys data = true /\
  forallb (entry_inv names) data = true.
Proof.
  unfold section_inv. simpl. intros H.
  apply andb_true_iff in H. destruct H as [H1 H].
  apply andb_true_iff in H. tauto.
Qed.

(** An indexed entry exists. *)
Lemma indexed_is_present (self : config) (cls K : str) (data : dict) :
  builder_inv self ->
  dict_get cls (file_object self) = Some (VDict data) ->
  set_mem K (subclass_names self cls) = true -> dict_mem K data = true.
Proof.
  intros (_ & _ & Hp) Hget HK. unfold subclass_names in HK.
  destruct (dict_get cls (subclasses self)) as [names|] eqn:E;
    [|discriminate].
  unfold subtable_present in Hp. rewrite forallb_forall in Hp.
  specialize (Hp _ (dict_get_In _ _ _ E)). simpl in Hp.
  rewrite forallb_forall in Hp. apply set_mem_In in HK.
  specialize (Hp K HK). unfold subtable_entry_present in Hp.
  rewrite Hget in Hp. exact Hp.
Qed.

Lemma _newClass_parsed (self : config) (line : str) :
  parsed_inv self = true -> no_linebreak line = true ->
  _isClass line = true -> parsed_inv (_newClass self line) = true.
Proof.
  intros Hinv Hnl Hc. unfold _newClass, _classExists.
  destruct (dict_mem (slice_1_m1 line) (file_object self)) eqn:E; simpl;
    [exact Hinv|].
  eapply parsed_inv_update with (cls := slice_1_m1 line) (data' := []);
    [exact Hinv| | |reflexivity| |reflexivity|reflexivity].
  - simpl. apply dict_setdefault_as_set. exact E.
  - intros S HS. unfold subclass_names. simpl.
    rewrite dict_get_set_other by exact HS. reflexivity.
  - unfold name_ok. rewrite (no_linebreak_incl _ _ (incl_slice line) Hnl).
    unfold _isClass in Hc. apply andb_true_iff in Hc. destruct Hc as [_ Hc].
    apply negb_true_iff in Hc.
    rewrite (contains_incl _ _ _ (incl_slice line) Hc). reflexivity.
Qed.

Lemma entry_inv_add (names : list str) (sub : str) (e : str * pyval) :
  name_ok sub = true -> entry_inv names e = true ->
  entry_inv (set_add sub names) e = true.
Proof.
  intros Hsub H. unfold entry_inv in *. rewrite set_mem_add.
  destruct (PyStr.eqb (fst e) sub) eqn:E; simpl; [|exact H].
  apply eqb_eq in E. rewrite E, Hsub. simpl.
  destruct (set_mem (fst e) names).
  - apply andb_true_iff in H. tauto.
  - apply andb_true_iff in H. destruct H as [_ H].
    destruct (snd e); try reflexivity.
    eapply decoded_table_inv. exact H.
Qed.

Lemma _newSubClass_parsed (self self' : config) (line : str) :
  builder_inv self -> parsed_inv self = true -> no_linebreak line = true ->
  _newSubClass self line = Ok self' -> parsed_inv self' = true.
Proof.
  intros Hb Hinv Hnl. unfold _newSubClass.
  destruct (_getClassSubClass line) as [|cls [|sub [|? ?]]] eqn:Es;
    try discriminate.
  assert (name_ok cls = true /\ name_ok sub = true) as [Hcls Hsub].
  { unfold _getClassSubClass in Es.
    assert (forall piece, In piece (split "." (slice_1_m1 line)) ->
                          name_ok piece = true) as H.
    { intros piece Hp. apply split_pieces in Hp. destruct Hp as [Hi Hno].
      unfold name_ok. rewrite Hno.
      rewrite (no_linebreak_incl piece line); [reflexivity| |exact Hnl].
      eapply incl_tran; [exact Hi|apply incl_slice]. }
    rewrite Es in H. split; apply H; simpl; auto. }
  assert (exists self1,
             (if negb (_classExists self cls)
              then (dict_setdefault cls (VDict []) (file_object self),
                    dict_set cls [] (subclasses self))
              else (file_object self, subclasses self))
             = (file_object self1, subclasses self1) /\
             parsed_inv self1 = true)
    as (self1 & -> & Hinv1).
  { unfold _classExists.
    destruct (dict_mem cls (file_object self)) eqn:E; simpl.
    - exists self. auto.
    - eexists (mkConfig _ None _). simpl. split; [reflexivity|].
      eapply parsed_inv_update with (cls := cls) (data' := []);
        [exact Hinv| | |reflexivity|exact Hcls|reflexivity|reflexivity].
      + simpl. apply dict_setdefault_as_set. exact E.
      + intros S HS. unfold subclass_names. simpl.
        rewrite dict_get_set_other by exact HS. reflexivity. }
  destruct (dict_get cls (subclasses self1)) as [names|] eqn:Hn;
    [|discriminate].
  destruct (dict_get cls (file_object self1)) as [[| | | | | |data]|] eqn:Hd;
    try discriminate.
  intros [= <-].
  pose proof (section_of_parsed _ _ _ Hinv1 Hd) as Hsec.
  apply section_inv_parts in Hsec. destruct Hsec as (_ & Hu & Hall).
  unfold subclass_names in Hall. rewrite Hn in Hall.
  eapply parsed_inv_update with (cls := cls);
    [exact Hinv1|reflexivity| | |exact Hcls| |].
  - intros S HS. unfold subclass_names. simpl.
    rewrite dict_get_set_other by exact HS. reflexivity.
  - unfold current_inv, subclass_names. simpl. rewrite dict_get_set_same.
    rewrite set_mem_add, eqb_refl. reflexivity.
  - apply uniq_keys_dict_setdefault. exact Hu.
  - unfold subclass_names. simpl. rewrite dict_get_set_same.
    unfold dict_setdefault. destruct (dict_mem sub data).
    + eapply forallb_impl; [|exact Hall].
      intros e. apply entry_inv_add. exact Hsub.
    + rewrite forallb_app. apply andb_true_iff. split.
      * eapply forallb_impl; [|exact Hall].
        intros e. apply entry_inv_add. exact Hsub.
      * simpl. unfold entry_inv. simpl.
        rewrite set_mem_add, eqb_refl, Hsub. reflexivity.
Qed.

(** The key and the value that [_newProperty] stores. *)
Lemma property_parts (line k0 v0 : str) :
  no_linebreak line = true -> split1 "=" line = [k0; v0] ->
  clean_key (strip k0) = true /\
  decoded false (_convert_value (strip v0)) = true.
Proof.
  intros Hnl Es. destruct (split1_pieces _ _ _ _ Es) as (Hk & Hv & Hkeq).
  split.
  - unfold clean_key, trimmed, strip. rewrite strip_by_is_trimmed.
    rewrite (no_linebreak_incl (strip_by is_space k0) line);
      [|eapply incl_tran; [apply incl_strip_by|exact Hk]|exact Hnl].
    rewrite (contains_incl "=" _ k0 (incl_strip_by _ _) Hkeq). reflexivity.
  - apply _convert_value_decoded.
    eapply no_linebreak_incl; [|exact Hnl].
    eapply incl_tran; [apply incl_strip_by|exact Hv].
Qed.

Lemma clean_key_parts (k : str) :
  clean_key k = true ->
  no_linebreak k = true /\ contains "=" k = false.
Proof.
  unfold clean_key. intros H. apply andb_true_iff in H. destruct H as [H H2].
  apply andb_true_iff in H. destruct H as [_ H1].
  apply negb_true_iff in H2. tauto.
Qed.

Lemma _newProperty_parsed (self self' : config) (line : str) :
  builder_inv self -> parsed_inv self = true -> no_linebreak line = true ->
  _newProperty self line = Ok self' -> parsed_inv self' = true.
Proof.
  intros Hb Hinv Hnl. unfold _newProperty.
  destruct (current_class self) as [[[cls sub] in_subclass]|] eqn:Hcur;
    [|intros [= <-]; exact Hinv].
  destruct (split1 "=" line) as [|k0 [|v0 [|? ?]]] eqn:Es; try discriminate.
  destruct (property_parts line k0 v0 Hnl Es) as [Hkey Hval].
  destruct (dict_get cls (file_object self)) as [[| | | | | |data]|] eqn:Hd;
    try (destruct in_subclass; discriminate).
  pose proof (section_of_parsed _ _ _ Hinv Hd) as Hsec.
  apply section_inv_parts in Hsec. destruct Hsec as (Hcls & Hu & Hall).
  assert (current_inv self = true) as Hci.
  { unfold parsed_inv in Hinv. apply andb_true_iff in Hinv.
    destruct Hinv as [Hinv _]. apply andb_true_iff in Hinv. tauto. }
  destruct in_subclass.
  - destruct sub as [subclass|]; [|discriminate].
    destruct (dict_get subclass data) as [[| | | | | |sub_data]|] eqn:Hsd;
      try discriminate.
    intros [= <-].
    assert (set_mem subclass (subclass_names self cls) = true) as Hidx.
    { unfold current_inv in Hci. rewrite Hcur in Hci. exact Hci. }
    assert (entry_inv (subclass_names self cls) (subclass, VDict sub_data)
            = true) as Hold.
    { rewrite forallb_Forall in Hall.
      exact (dict_get_Forall _ _ _ _ Hall Hsd). }
    unfold entry_inv in Hold. simpl in Hold. rewrite Hidx in Hold.
    apply andb_true_iff in Hold. destruct Hold as [Hsub Htab].
    eapply parsed_inv_update with (cls := cls);
      [exact Hinv|reflexivity|reflexivity| |exact Hcls| |].
    + unfold current_inv. simpl. exact Hidx.
    + apply uniq_keys_dict_set. exact Hu.
    + change (subclass_names _ cls) with (subclass_names self cls).
      eapply forallb_dict_set; [exact Hu|exact Hall| |auto].
      unfold entry_inv. simpl. rewrite Hidx, Hsub. simpl.
      unfold table_inv in *. apply andb_true_iff in Htab.
      destruct Htab as [Hu2 Hall2].
      rewrite uniq_keys_dict_setdefault by exact Hu2. simpl.
      apply forallb_Forall. apply dict_setdefault_Forall;
        [apply forallb_Forall; exact Hall2|].
      simpl. destruct (clean_key_parts _ Hkey) as [-> ->]. exact Hval.
  - intros [= <-].
    eapply parsed_inv_update with (cls := cls);
      [exact Hinv|reflexivity|reflexivity| |exact Hcls| |].
    + unfold current_inv in *. simpl. rewrite Hcur in Hci. exact Hci.
    + apply uniq_keys_dict_setdefault. exact Hu.
    + change (subclass_names _ cls) with (subclass_names self cls).
      unfold dict_setdefault. destruct (dict_mem (strip k0) data) eqn:Em;
        [exact Hall|].
      rewrite forallb_app, Hall. simpl. unfold entry_inv. simpl.
      destruct (set_mem (strip k0) (subclass_names self cls)) eqn:Ei.
      * rewrite (indexed_is_present self cls _ data Hb Hd Ei) in Em.
        discriminate.
      * rewrite Hkey, Hval. reflexivity.
Qed.

Lemma parse_line_parsed (self self' : config) (line : str) :
  builder_inv self -> parsed_inv self = true -> no_linebreak line = true ->
  parse_line self line = Ok self' -> parsed_inv self' = true.
Proof.
  intros Hb Hinv Hnl. unfold parse_line.
  destruct (_isComment line || _isBlank line); [intros [= <-]; exact Hinv|].
  destruct (_isClass line) eqn:Ec;
    [intros [= <-]; apply _newClass_parsed; assumption|].
  destruct (_isSubClass line); [apply _newSubClass_parsed; assumption|].
  destruct (_isProperty line); [apply _newProperty_parsed; assumption|].
  intros [= <-]; exact Hinv.
Qed.

Lemma parse_lines_parsed (lines : list str) (self self' : config) :
  builder_inv self -> parsed_inv self = true ->
  Forall (fun l => no_linebreak l = true) lines ->
  parse_lines self lines = Ok self' -> parsed_inv self' = true.
Proof.
  intros Hb Hinv Hlines. revert self Hb Hinv.
  induction Hlines as [|line rest Hl _ IH]; intros self Hb Hinv; simpl.
  - intros [= <-]. exact Hinv.
  - destruct (parse_line self line) as [self1|e] eqn:E; simpl; [|discriminate].
    apply IH.
    + eapply parse_line_inv; eauto.
    + eapply parse_line_parsed; eauto.
Qed.

(** Every object that construction returns stores names from headers,
    and keys and values from property lines. *)
Lemma __init___parsed (file : option str) (self : config) :
  __init__ file = Ok self -> parsed_inv self = true.
Proof.
  unfold __init__, _parse. destruct file as [text|]; simpl; [|discriminate].
  apply parse_lines_parsed;
    [apply builder_inv_init|reflexivity|apply splitlines_from_one_line].
Qed.

(* ================================================================== *)
(** ** The documents of a parse that are read back *)

Lemma scalar_ok_of (lit : bool) (v : pyval) :
  decoded lit v = true -> simple_scalar v = true -> scalar_ok lit v = true.
Proof.
  destruct v as [| | |f| | |]; simpl; try discriminate; auto.
  unfold float_norm. destruct (is_nan f); [discriminate|auto].
Qed.

Lemma forallb_both {A} (f g h : A -> bool) (l : list A) :
  (forall x, f x = true -> g x = true -> h x = true) ->
  forallb f l = true -> forallb g l = true -> forallb h l = true.
Proof. rewrite !forallb_forall. auto. Qed.

Lemma value_ok_of (v : pyval) :
  decoded false v = true -> simple_value v = true -> value_ok v = true.
Proof.
  destruct v as [| | | | |items|d]; try (apply scalar_ok_of).
  - simpl. apply forallb_both. intros x. apply scalar_ok_of.
  - simpl. intros H1 H2. apply andb_true_iff in H1. destruct H1 as [-> H1].
    simpl. revert H1 H2. apply forallb_both. intros [k w]. simpl.
    intros Hd Hs. apply andb_true_iff in Hd. destruct Hd as [Hk Hw].
    apply andb_true_iff in Hs. destruct Hs as [Hq Hsw].
    rewrite (scalar_ok_of true w Hw Hsw).
    unfold inline_key_ok. unfold inline_key_clean in Hk.
    rewrite Hq. simpl. rewrite Hk. reflexivity.
Qed.

Lemma dict_mem_filter {V} (f : str * V -> bool) (k : str) (d : list (str * V)) :
  dict_mem k d = false -> dict_mem k (filter f d) = false.
Proof.
  unfold dict_mem. induction d as [|[k0 v0] d IH]; simpl; [reflexivity|].
  destruct (PyStr.eqb k k0) eqn:E; [discriminate|]. intros H.
  destruct (f (k0, v0)); simpl; [rewrite E|]; apply IH; exact H.
Qed.

Lemma uniq_keys_filter {V} (f : str * V -> bool) (d : list (str * V)) :
  uniq_keys d = true -> uniq_keys (filter f d) = true.
Proof.
  induction d as [|[k0 v0] d IH]; simpl; [reflexivity|]. intros H.
  apply andb_true_iff in H. destruct H as [H0 H]. apply negb_true_iff in H0.
  destruct (f (k0, v0)); simpl; [|apply IH; exact H].
  rewrite (dict_mem_filter f k0 d H0), IH by exact H. reflexivity.
Qed.

Lemma props_ok_of (d : dict) :
  uniq_keys d = true ->
  forallb (fun kv => clean_key (fst kv) && decoded false (snd kv)) d = true ->
  simple_props d = true ->
  props_ok d = true.
Proof.
  intros Hu Hinv Hs. unfold props_ok. rewrite Hu. simpl.
  revert Hinv Hs. apply forallb_both. intros [k v]. cbn [fst snd].
  intros H1 H2.
  apply andb_true_iff in H1. destruct H1 as [Hk Hv].
  apply andb_true_iff in H2. destruct H2 as [H2 Hsv].
  apply andb_true_iff in H2. destruct H2 as [Hhash Hbracket].
  rewrite (value_ok_of v Hv Hsv). unfold key_ok. unfold clean_key in Hk.
  rewrite Hk, Hhash, Hbracket. reflexivity.
Qed.

Lemma sub_ok_of (names : list str) (sub : str * pyval) :
  set_mem (fst sub) names = true ->
  entry_inv names sub = true -> simple_sub sub = true -> sub_ok sub = true.
Proof.
  destruct sub as [T v]. unfold entry_inv, simple_sub, sub_ok. simpl.
  intros -> H1 H2. destruct v as [| | | | | |sd]; try discriminate.
  apply andb_true_iff in H1. destruct H1 as [-> Htab]. simpl.
  apply andb_true_iff in H2. destruct H2 as [Htrim Hs].
  unfold table_inv in Htab. apply andb_true_iff in Htab.
  destruct Htab as [Hu Hall].
  apply props_ok_of; [exact Hu| |exact Hs].
  revert Hall Htrim. apply forallb_both. intros [k w]. simpl. intros H Ht.
  apply andb_true_iff in H. destruct H as [H Hw].
  apply andb_true_iff in H. destruct H as [Hnl Heq].
  unfold clean_key. rewrite Ht, Hnl, Heq, Hw. reflexivity.
Qed.

Lemma section_ok_of (names : list str) (entry : str * pyval) :
  section_inv names entry = true -> simple_section names entry = true ->
  section_ok names entry = true.
Proof.
  destruct entry as [S v]. unfold section_inv, simple_section, section_ok.
  simpl. destruct v as [| | | | | |data]; try (intros _; discriminate).
  intros H1 H2.
  apply andb_true_iff in H1. destruct H1 as [-> H1].
  apply andb_true_iff in H1. destruct H1 as [Hu Hall].
  apply andb_true_iff in H2. destruct H2 as [H2 Hsubs].
  apply andb_true_iff in H2. destruct H2 as [H2 Hprops].
  apply andb_true_iff in H2. destruct H2 as [-> ->].
  rewrite Hu. simpl. apply andb_true_iff. split.
  - apply props_ok_of; [apply uniq_keys_filter; exact Hu| |exact Hprops].
    unfold props_of. apply forallb_forall. intros e He.
    apply filter_In in He. destruct He as [He Hm].
    apply negb_true_iff in Hm. rewrite forallb_forall in Hall.
    specialize (Hall e He). unfold entry_inv in Hall. rewrite Hm in Hall.
    exact Hall.
  - apply forallb_forall. intros e He.
    rewrite forallb_forall in Hsubs. specialize (Hsubs e He).
    unfold subs_of in He. apply filter_In in He. destruct He as [He Hm].
    rewrite forallb_forall in Hall.
    exact (sub_ok_of names e Hm (Hall e He) Hsubs).
Qed.

(** What parsing establishes and the restrictions together make a
    document that is read back. *)
Lemma supported_round_trippable (self : config) :
  parsed_inv self = true -> supported self = true ->
  round_trippable self = true.
Proof.
  unfold parsed_inv, supported, round_trippable. intros H1 H2.
  apply andb_true_iff in H1. destruct H1 as [H1 Hall].
  apply andb_true_iff in H1. destruct H1 as [_ ->]. simpl.
  revert Hall H2. apply forallb_both. intros e. apply section_ok_of.
Qed.

(* ================================================================== *)
(** ** Round trip *)

(** C1, as stated, fails: a section without entry is not written.  The
    file [[a]] gives the document with the empty section [a]; [_save]
    writes nothing for it, and reading the empty output gives the empty
    document. *)
Lemma C1_empty_section_is_not_written :
  exists self self',
    load ["[a]"] = Ok self /\
    file_object self = [("a" : str, VDict [])] /\
    _save self = Ok [] /\
    __init__ (Some []) = Ok self' /\
    file_object self' = [].
Proof.
  eexists. eexists. split; [vm_compute; reflexivity|].
  repeat split; reflexivity.
Qed.

(** A document of the kind described above is read back, whatever
    produced it: [_save] succeeds, the text it writes parses, and the
    document read back is the one that was written. *)
Lemma written_document_is_read_back (self : config) :
  round_trippable self = true ->
  exists out self',
    _save self = Ok out /\
    __init__ (Some out) = Ok self' /\
    file_object self' = file_object self.
Proof.
  intros Hok.
  pose proof (_save_lines self Hok) as Hsave.
  pose proof (save_lines_one_line self Hok) as Hlines.
  unfold round_trippable in Hok. apply andb_true_iff in Hok.
  destruct Hok as [Hu Hall].
  destruct (document_read (subclass_names self) (file_object self) []
                          None [] Hu Hall) as (cur' & sc' & E).
  exists (unlines (save_lines self)), (mkConfig (file_object self) cur' sc').
  split; [exact Hsave|]. split; [|reflexivity].
  unfold __init__, _parse, _load. rewrite bind_Ok.
  rewrite splitlines_unlines by exact Hlines. exact E.
Qed.

(** C1, amended.  Let a file be parsed into a document in which every
    section has at least one entry; every recorded subclass is a mapping
    whose keys are trimmed, and comes after the properties of its class;
    no key begins with a hash, nor with a bracket when its value is a
    list; and every value is a boolean, a number other than NaN, a string,
    a list of these, or an inline table of these whose keys neither begin
    nor end with a double quote.  Then [_save] succeeds, the text it
    writes parses, and the document read back is the document of the
    first parse, entry for entry and in the same order.  What else the
    reading back relies on (names without dot, distinct keys without
    equals sign, non-negative integers, floats in normal form, strings
    with no double quote at either end and, inside lists and tables, no
    comma) parsing establishes by itself. *)
Theorem C1_round_trip_of_supported_documents (text : str) (self : config) :
  __init__ (Some text) = Ok self ->
  supported self = true ->
  exists out self',
    _save self = Ok out /\
    __init__ (Some out) = Ok self' /\
    file_object self' = file_object self.
Proof.
  intros Hparse Hsup. apply written_document_is_read_back.
  apply supported_round_trippable; [|exact Hsup].
  apply (__init___parsed (Some text)). exact Hparse.
Qed.

Lemma C1_round_trip_of_supported_documents_witness :
  exists self,
    load ["[unit]"; "x = 5"; "f = -5"; "s = hello"; "l = [1, 2.5, x, true]";
          "d = { a = 1, b = yes }"; "e = []"; "[unit.test]"; "y = true";
          "[other.sub]"; "z = 1e30"] = Ok self /\
    exists out self',
      _save self = Ok out /\
      __init__ (Some out) = Ok self' /\
      file_object self' = file_object self.
Proof.
  eexists. split; [vm_compute; reflexivity|].
  apply (C1_round_trip_of_supported_documents
           (file_of ["[unit]"; "x = 5"; "f = -5"; "s = hello";
                     "l = [1, 2.5, x, true]"; "d = { a = 1, b = yes }";
                     "e = []"; "[unit.test]"; "y = true"; "[other.sub]";
                     "z = 1e30"])).
  - vm_compute. reflexivity.
  - vm_compute. reflexivity.
Defined.

(** The conditions are there for a reason.  Outside them the document is
    not read back: a key that begins with a hash is written as a comment
    line; a key that begins with a bracket, with a list as its value, is
    written as a line that reads as a class header; a key of an inline
    table that begins with a double quote loses it; and [_save] raises on
    a recorded subclass that is a scalar. *)
Lemma outside_the_supported_documents :
  (exists self out self',
      load ["[a]"; " #k = 1"; "x = 2"] = Ok self /\
      _save self = Ok out /\ __init__ (Some out) = Ok self' /\
      get self "a.#k" = Ok (VInt 1) /\ get self' "a.#k" = Ok VNone) /\
  (exists self out self',
      load ["[a]"; " [k = [1]"] = Ok self /\
      _save self = Ok out /\ __init__ (Some out) = Ok self' /\
      get self "a.[k" = Ok (VList [VInt 1]) /\ get self' "a.[k" = Ok VNone) /\
  (exists self out self',
      __init__ (Some (unlines ["[a]" : str; "d = {'" ++ [dq] ++ "k' = 1}"]))
      = Ok self /\
      _save self = Ok out /\ __init__ (Some out) = Ok self' /\
      get self "a.d" = Ok (VDict [(dq :: "k", VInt 1)]) /\
      get self' "a.d" = Ok (VDict [("k" : str, VInt 1)])) /\
  (exists self,
      load ["[a]"; "b = 1"; "[a.b]"] = Ok self /\
      _save self = Raise AttributeError).
Proof.
  repeat split;
    repeat eexists; try (vm_compute; reflexivity).
Qed.

(* ================================================================== *)
(** * Further properties of the code *)

(* ================================================================== *)
(** ** The path accessors [get] and [set] *)

Lemma get_walk_set_walk (d : dict) (parts : list str) (value : pyval) :
  parts <> [] -> get_walk (VDict (set_walk d parts value)) parts = Ok value.
Proof.
  revert d. induction parts as [|p rest IH]; intros d Hne; [contradiction|].
  destruct rest as [|q r].
  - simpl. rewrite dict_get_set_same. reflexivity.
  - change (set_walk d (p :: q :: r) value)
      with (dict_set p (VDict (set_walk
              match dict_get p d with Some (VDict m) => m | _ => [] end
              (q :: r) value)) d).
    change (get_walk (VDict ?m) (p :: q :: r))
      with (get_walk (match dict_get p m with Some v => v | None => VNone end)
                     (q :: r)).
    rewrite dict_get_set_same. apply IH. discriminate.
Qed.

Lemma not_star (key : str) : key <> "*" -> PyStr.eqb key "*" = false.
Proof. intros H. apply eqb_neq. exact H. Qed.




Lemma set_walk_cons2 (d : dict) (p q : str) (r : list str) (value : pyval) :
  set_walk d (p :: q :: r) value =
  dict_set p
    (VDict (set_walk match dict_get p d with Some (VDict m) => m | _ => [] end
                     (q :: r) value)) d.
Proof. reflexivity. Qed.

Lemma set_walk_cons (d : dict) (p : str) (rest : list str) (value : pyval) :
  rest <> [] ->
  set_walk d (p :: rest) value =
  dict_set p
    (VDict (set_walk match dict_get p d with Some (VDict m) => m | _ => [] end
                     rest value)) d.
Proof. destruct rest; [contradiction|reflexivity]. Qed.

Lemma get_walk_cons (m : dict) (p : str) (rest : list str) :
  get_walk (VDict m) (p :: rest) =
  get_walk (match dict_get p m with Some v => v | None => VNone end) rest.
Proof. reflexivity. Qed.



(** A walk that ends on a mapping has met a mapping at every step. *)
Lemma get_walk_to_dict (d : pyval) (pre : list str) (m : dict) :
  get_walk d pre = Ok (VDict m) ->
  match pre with
  | [] => d = VDict m
  | p :: pre' =>
      exists m0 m1, d = VDict m0 /\ dict_get p m0 = Some (VDict m1)
                    /\ get_walk (VDict m1) pre' = Ok (VDict m)
  end.
Proof.
  destruct pre as [|p pre']; simpl; [congruence|].
  destruct d as [| | | | | |m0]; try discriminate.
  destruct (dict_get p m0) as [v|] eqn:E.
  - destruct v as [| | | | | |m1];
      try (destruct pre'; simpl; discriminate).
    intros H. exists m0, m1. auto.
  - rewrite get_walk_none. discriminate.
Qed.

Lemma set_walk_frame (pre : list str) (x y : str) (r1 r2 : list str)
      (d m : dict) (value : pyval) :
  x <> y ->
  get_walk (VDict d) pre = Ok (VDict m) ->
  get_walk (VDict (set_walk d (pre ++ x :: r1) value)) (pre ++ y :: r2)
  = get_walk (VDict d) (pre ++ y :: r2).
Proof.
  intros Hxy. revert d. induction pre as [|p pre IH]; intros d Hwalk.
  - simpl app. rewrite !get_walk_cons.
    assert (dict_get y (set_walk d (x :: r1) value) = dict_get y d) as ->;
      [|reflexivity].
    destruct r1 as [|q r]; [simpl|rewrite set_walk_cons2];
      apply dict_get_set_other; congruence.
  - apply get_walk_to_dict in Hwalk.
    destruct Hwalk as (m0 & m1 & [= <-] & Hp & Hwalk).
    change ((p :: pre) ++ x :: r1) with (p :: (pre ++ x :: r1)).
    change ((p :: pre) ++ y :: r2) with (p :: (pre ++ y :: r2)).
    rewrite set_walk_cons by (destruct pre; discriminate).
    rewrite !get_walk_cons, dict_get_set_same, Hp.
    apply IH. exact Hwalk.
Qed.

(** X3.  [set] leaves the other paths alone, in a state where no
    mapping is shared between two paths (a state that construction
    returned, changed since by calls of [set] with values that hold no
    mapping).  When two keys share their first parts, these lead to a
    mapping of the document, and the keys then part (each has a next
    part, and the two differ), [get] on the second key returns after
    [set] on the first what it returned (or raised) before.  With nothing
    shared this says that [set] under one name at the top does not touch
    what lies under another. *)
Theorem X3_set_keeps_the_other_paths
        (self : config) (key key' : str) (value : pyval)
        (pre : list str) (x y : str) (r1 r2 : list str) (m : dict) :
  unshared self ->
  key' <> "*" ->
  split "." key = pre ++ x :: r1 ->
  split "." key' = pre ++ y :: r2 ->
  x <> y ->
  get_walk (VDict (file_object self)) pre = Ok (VDict m) ->
  get (fst (set self key value)) key' = get self key'.
Proof.
  intros _ Hstar Hk Hk' Hxy Hwalk. unfold get. rewrite (not_star key' Hstar).
  simpl. rewrite Hk, Hk'. eapply set_walk_frame; eassumption.
Qed.

Lemma X3_set_keeps_the_other_paths_witness :
  exists self,
    load ["[unit]"; "x = 5"; "[unit.test]"; "y = 1"] = Ok self /\
    get (fst (set (fst (set self "net.port" (VInt 80))) "unit.test.z" (VInt 7)))
        "unit.test.y" = Ok (VInt 1) /\
    get (fst (set (fst (set self "net.port" (VInt 80))) "unit.test.z" (VInt 7)))
        "unit.x.deep" = Raise AttributeError.
Proof.
  eexists.
  match goal with
  | |- load ?l = Ok ?s /\ _ =>
      assert (load l = Ok s) as Hl by (vm_compute; reflexivity)
  end.
  split; [exact Hl|].
  match type of Hl with
  | load _ = Ok ?s =>
      assert (unshared (fst (set s "net.port" (VInt 80)))) as Hu
        by (apply unshared_set;
            [exact (unshared_init _ _ Hl)|reflexivity])
  end.
  split.
  - rewrite (X3_set_keeps_the_other_paths _ "unit.test.z" "unit.test.y"
               (VInt 7) ["unit" : str; "test" : str] "z" "y" [] []
               [("y" : str, VInt 1)] Hu); try reflexivity; discriminate.
  - rewrite (X3_set_keeps_the_other_paths _ "unit.test.z" "unit.x.deep"
               (VInt 7) ["unit" : str] "test" "x" ["z" : str]
               ["deep" : str]
               [("x" : str, VInt 5);
                ("test" : str, VDict [("y" : str, VInt 1)])] Hu);
      try reflexivity; discriminate.
Defined.

Lemma get_walk_app (d : pyval) (a b : list str) :
  get_walk d (a ++ b) = (v <- get_walk d a ;; get_walk v b).
Proof.
  revert d. induction a as [|p a IH]; intros d; [reflexivity|].
  simpl. destruct d; try reflexivity.
  - simpl. rewrite get_walk_none. reflexivity.
  - apply IH.
Qed.

(** X4.  A missing key anywhere along the path gives the absence marker:
    when the parts before it lead to a mapping that does not hold the
    next part, [get] returns [None] without a fault, however many parts
    follow. *)
Theorem X4_get_past_a_missing_key
        (self : config) (key : str) (pre : list str) (part : str)
        (rest : list str) (m : dict) :
  key <> "*" ->
  split "." key = pre ++ part :: rest ->
  get_walk (VDict (file_object self)) pre = Ok (VDict m) ->
  dict_get part m = None ->
  get self key = Ok VNone.
Proof.
  intros Hstar Hk Hwalk Hpart. unfold get. rewrite (not_star key Hstar), Hk.
  rewrite get_walk_app, Hwalk. simpl. rewrite Hpart. apply get_walk_none.
Qed.

Lemma X4_get_past_a_missing_key_witness :
  exists self,
    load ["[unit]"; "x = 5"] = Ok self /\
    get self "unit.nothing.here.at.all" = Ok VNone.
Proof.
  eexists. split; [vm_compute; reflexivity|].
  apply (X4_get_past_a_missing_key _ _ ["unit" : str] "nothing"
           ["here" : str; "at" : str; "all" : str] [("x" : str, VInt 5)]);
    try reflexivity; discriminate.
Defined.




(* ================================================================== *)
(** ** When [_save] succeeds *)







(* ================================================================== *)
(** ** The loop of [_parse] *)

Lemma parse_line_ignored (self : config) (line : str) :
  is_ignored line = true -> parse_line self line = Ok self.
Proof.
  unfold is_ignored. rewrite parse_line_classify.
  destruct (classify line); try discriminate; reflexivity.
Qed.

(** X8.  Comments, blank lines and lines of no known shape change
    nothing: a file is parsed as the file without them is, to the same
    object or to the same fault. *)
Theorem X8_ignored_lines (self : config) (lines : list str) :
  parse_lines self (filter (fun line => negb (is_ignored line)) lines)
  = parse_lines self lines.
Proof.
  revert self. induction lines as [|line rest IH]; intros self; [reflexivity|].
  simpl. destruct (is_ignored line) eqn:E; simpl.
  - rewrite (parse_line_ignored self line E). simpl. apply IH.
  - destruct (parse_line self line); simpl; [apply IH|reflexivity].
Qed.

Lemma parse_line_no_pointer (self : config) (line : str) :
  current_class self = None -> is_header line = false ->
  parse_line self line = Ok self.
Proof.
  intros Hcur. unfold is_header. rewrite parse_line_classify.
  destruct (classify line); try discriminate; try reflexivity.
  intros _. unfold _newProperty. rewrite Hcur. reflexivity.
Qed.

(** X9.  Before the first header nothing is stored: the lines that come
    before it, property lines included, are passed over without a fault,
    and the file is parsed as the file from its first header on is. *)
Theorem X9_lines_before_the_first_header (before rest : list str) :
  Forall (fun line => is_header line = false) before ->
  parse_lines init (before ++ rest) = parse_lines init rest.
Proof.
  intros H. induction H as [|line before Hl _ IH]; [reflexivity|].
  simpl. rewrite (parse_line_no_pointer init line eq_refl Hl). simpl.
  exact IH.
Qed.

Lemma X9_lines_before_the_first_header_witness :
  parse_lines init (["x = 1" : str; "y = [1, 2]" : str; "junk" : str]
                      ++ ["[unit]" : str; "z = 3" : str])
  = parse_lines init ["[unit]" : str; "z = 3" : str].
Proof.
  apply X9_lines_before_the_first_header.
  repeat constructor.
Defined.

(** The current class stays a class of the document. *)
Lemma _newClass_pointer (self : config) (line : str) :
  pointer_ok self = true -> pointer_ok (_newClass self line) = true.
Proof.
  intros H. unfold _newClass, _classExists.
  destruct (dict_mem (slice_1_m1 line) (file_object self)) eqn:E; simpl;
    [exact H|].
  unfold pointer_ok. simpl. rewrite dict_get_setdefault.
  unfold dict_mem in E.
  destruct (dict_get (slice_1_m1 line) (file_object self)); [discriminate|].
  rewrite eqb_refl. reflexivity.
Qed.

Lemma _newSubClass_pointer (self self' : config) (line : str) :
  _newSubClass self line = Ok self' -> pointer_ok self' = true.
Proof.
  unfold _newSubClass.
  destruct (_getClassSubClass line) as [|cls [|sub [|? ?]]]; try discriminate.
  destruct (if negb (_classExists self cls) then _ else _) as [fo sc].
  destruct (dict_get cls sc); [|discriminate].
  destruct (dict_get cls fo) as [[| | | | | |data]|]; try discriminate.
  intros [= <-]. unfold pointer_ok. simpl. rewrite dict_get_set_same.
  rewrite dict_mem_setdefault, eqb_refl. reflexivity.
Qed.

Lemma _newProperty_pointer (self self' : config) (line : str) :
  pointer_ok self = true -> _newProperty self line = Ok self' ->
  pointer_ok self' = true.
Proof.
  intros H. unfold _newProperty.
  destruct (current_class self) as [[[cls sub] in_subclass]|] eqn:Hcur;
    [|intros [= <-]; exact H].
  destruct (split1 "=" line) as [|key [|value [|? ?]]]; try discriminate.
  destruct (dict_get cls (file_object self)) as [[| | | | | |data]|] eqn:Hd;
    try (destruct in_subclass; discriminate).
  destruct in_subclass.
  - destruct sub as [subclass|]; [|discriminate].
    destruct (dict_get subclass data) as [[| | | | | |sub_data]|];
      try discriminate.
    intros [= <-]. unfold pointer_ok. simpl.
    rewrite dict_get_set_same, dict_mem_set, eqb_refl. reflexivity.
  - intros [= <-]. unfold pointer_ok. simpl.
    rewrite dict_get_set_same. reflexivity.
Qed.

Lemma parse_line_pointer (self self' : config) (line : str) :
  pointer_ok self = true -> parse_line self line = Ok self' ->
  pointer_ok self' = true.
Proof.
  intros H. rewrite parse_line_classify. destruct (classify line);
    try (intros [= <-]; exact H).
  - intros [= <-]. apply _newClass_pointer. exact H.
  - apply _newSubClass_pointer.
  - apply _newProperty_pointer. exact H.
Qed.

Lemma classify_subclass (line : str) :
  classify line = SubclassHeader -> _isSubClass line = true.
Proof.
  unfold classify.
  destruct (_isComment line), (_isBlank line), (_isClass line),
    (_isSubClass line), (_isProperty line); try discriminate; reflexivity.
Qed.

Lemma classify_is_property (line : str) :
  classify line = Property -> contains "=" line = true.
Proof.
  unfold classify, _isProperty.
  destruct (_isComment line), (_isBlank line), (_isClass line),
    (_isSubClass line), (contains "=" line); try discriminate; reflexivity.
Qed.

Lemma split1_two (c : ascii) (s : str) :
  contains c s = true -> exists a b, split1 c s = [a; b].
Proof.
  induction s as [|x s IH]; simpl; [discriminate|].
  rewrite Ascii.eqb_sym. destruct (Ascii.eqb x c); simpl; [eauto|].
  intros H. destruct (IH H) as (a & b & ->). eauto.
Qed.

(** The faults of one turn of the loop, in a state of the builder. *)
Lemma parse_line_faults (self : config) (line : str) (e : exn) :
  builder_inv self -> pointer_ok self = true ->
  parse_line self line = Raise e ->
  (e = ValueError /\ classify line = SubclassHeader
   /\ length (_getClassSubClass line) <> 2%nat)
  \/ (e = AttributeError /\ classify line = Property).
Proof.
  intros Hb Hp. rewrite parse_line_classify.
  destruct (classify line) eqn:Ec; try discriminate.
  - intros H. left.
    destruct (_getClassSubClass line) as [|cls [|sub [|? ?]]] eqn:Es;
      try (unfold _newSubClass in H; rewrite Es in H; injection H as <-;
           repeat split; simpl; discriminate).
    destruct (_newSubClass_two_parts self line cls sub Hb Es) as (s & Hs & _).
    congruence.
  - intros H. right. split; [|reflexivity].
    unfold _newProperty in H. unfold pointer_ok in Hp.
    destruct (current_class self) as [[[cls sub] in_subclass]|];
      [|discriminate].
    destruct (split1_two "=" line (classify_is_property line Ec))
      as (k & v & Es).
    rewrite Es in H.
    destruct (dict_get cls (file_object self)) as [[| | | | | |data]|];
      try discriminate.
    destruct in_subclass; [|discriminate].
    destruct sub as [subclass|]; [|discriminate].
    unfold dict_mem in Hp.
    destruct (dict_get subclass data) as [[| | | | | |sub_data]|];
      try discriminate; congruence.
Qed.

Lemma parse_lines_faults (lines : list str) (self : config) (e : exn) :
  builder_inv self -> pointer_ok self = true ->
  parse_lines self lines = Raise e ->
  exists line,
    In line lines /\
    ((e = ValueError /\ classify line = SubclassHeader
      /\ length (_getClassSubClass line) <> 2%nat)
     \/ (e = AttributeError /\ classify line = Property)).
Proof.
  revert self. induction lines as [|line rest IH]; intros self Hb Hp;
    [discriminate|].
  simpl. destruct (parse_line self line) as [self1|e1] eqn:E; simpl.
  - intros H. destruct (IH self1) as (l & Hl & Hcase); auto.
    + eapply parse_line_inv; eauto.
    + eapply parse_line_pointer; eauto.
    + exists l. split; [right; exact Hl|exact Hcase].
  - intros [= <-]. exists line. split; [left; reflexivity|].
    eapply parse_line_faults; eauto.
Qed.

(** X10.  The faults of construction, for a file of ASCII text with
    lines of at most 200 characters (beyond these, [int] can raise where
    [isdigit] had accepted, and the decoder can exhaust the stack).
    [Config(path)] then fails in three ways only: the file cannot be
    read; a subclass header does not have exactly two parts (the
    unpacking raises [ValueError]); or a property line meets a subclass
    that is not a mapping ([AttributeError]).  The lookups
    [self.subclasses[cls]], [self.file_object[cls]] and
    [self.file_object[cls][subclass]] never raise [KeyError]. *)
Theorem X10_faults_of_construction (file : option str) (e : exn) :
  match file with
  | Some text => plain_text text = true
  | None => True
  end ->
  __init__ file = Raise e ->
  (file = None /\ e = LoadFailure)
  \/ exists text line,
       file = Some text /\ In line (splitlines text) /\
       ((e = ValueError /\ classify line = SubclassHeader
         /\ length (_getClassSubClass line) <> 2%nat)
        \/ (e = AttributeError /\ classify line = Property)).
Proof.
  intros _. unfold __init__, _parse. destruct file as [text|]; simpl.
  - intros H. right.
    destruct (parse_lines_faults _ _ _ builder_inv_init eq_refl H)
      as (line & Hl & Hcase).
    exists text, line. auto.
  - intros [= <-]. left. auto.
Qed.

Lemma X10_faults_of_construction_witness :
  load ["[a]"; "b = 1"; "[a.b]"; "x = 2"] = Raise AttributeError /\
  ((Some (file_of ["[a]"; "b = 1"; "[a.b]"; "x = 2"]) = None
    /\ AttributeError = LoadFailure)
   \/ exists text line,
        Some (file_of ["[a]"; "b = 1"; "[a.b]"; "x = 2"]) = Some text /\
        In line (splitlines text) /\
        ((AttributeError = ValueError /\ classify line = SubclassHeader
          /\ length (_getClassSubClass line) <> 2%nat)
         \/ (AttributeError = AttributeError /\ classify line = Property))).
Proof.
  split; [vm_compute; reflexivity|].
  apply (X10_faults_of_construction
           (Some (file_of ["[a]"; "b = 1"; "[a.b]"; "x = 2"]))).
  - vm_compute. reflexivity.
  - vm_compute. reflexivity.
Defined.

(* ================================================================== *)
(** ** What parsing never does: overwrite *)

Lemma entries_kept_refl (d : dict) : entries_kept d d.
Proof. intros k v H. exact H. Qed.

Lemma entries_kept_trans (a b c : dict) :
  entries_kept a b -> entries_kept b c -> entries_kept a c.
Proof. intros H1 H2 k v H. apply H2, H1, H. Qed.

Lemma entries_kept_setdefault (k : str) (v : pyval) (d : dict) :
  entries_kept d (dict_setdefault k v d).
Proof. intros k' v' H. rewrite dict_get_setdefault, H. reflexivity. Qed.

Lemma value_kept_refl (v : pyval) : value_kept v v.
Proof. destruct v; simpl; try reflexivity. apply entries_kept_refl. Qed.

Lemma value_kept_trans (a b c : pyval) :
  value_kept a b -> value_kept b c -> value_kept a c.
Proof.
  destruct a, b; simpl; try discriminate; try (intros <-; auto; fail);
    destruct c; simpl; try discriminate; auto.
  apply entries_kept_trans.
Qed.

Lemma section_kept_refl (data : dict) : section_kept data data.
Proof. intros K v H. exists v. split; [exact H|apply value_kept_refl]. Qed.

Lemma section_kept_trans (a b c : dict) :
  section_kept a b -> section_kept b c -> section_kept a c.
Proof.
  intros H1 H2 K v H. destruct (H1 K v H) as (v1 & Hv1 & K1).
  destruct (H2 K v1 Hv1) as (v2 & Hv2 & K2).
  exists v2. split; [exact Hv2|]. eapply value_kept_trans; eauto.
Qed.

Lemma section_kept_setdefault (k : str) (v : pyval) (data : dict) :
  section_kept data (dict_setdefault k v data).
Proof.
  intros K w H. exists w. rewrite dict_get_setdefault, H.
  split; [reflexivity|apply value_kept_refl].
Qed.

Lemma section_kept_subclass (sub : str) (sd sd' data : dict) :
  dict_get sub data = Some (VDict sd) -> entries_kept sd sd' ->
  section_kept data (dict_set sub (VDict sd') data).
Proof.
  intros Hsub Hkept K w H.
  destruct (list_eq_dec ascii_dec K sub) as [->|Hne].
  - rewrite dict_get_set_same. rewrite Hsub in H. injection H as <-.
    eexists. split; [reflexivity|exact Hkept].
  - rewrite dict_get_set_other by exact Hne.
    exists w. split; [exact H|apply value_kept_refl].
Qed.

Lemma document_kept_refl (fo : dict) : document_kept fo fo.
Proof.
  intros S v H. exists v. split; [exact H|].
  destruct v; try reflexivity. apply section_kept_refl.
Qed.

Lemma document_kept_trans (a b c : dict) :
  document_kept a b -> document_kept b c -> document_kept a c.
Proof.
  intros H1 H2 S v H. destruct (H1 S v H) as (v1 & Hv1 & K1).
  destruct (H2 S v1 Hv1) as (v2 & Hv2 & K2).
  exists v2. split; [exact Hv2|].
  destruct v as [| | | | | |d]; simpl in K1; try (subst v1; exact K2).
  destruct v1 as [| | | | | |d1]; try discriminate.
  destruct v2 as [| | | | | |d2]; try discriminate.
  eapply section_kept_trans; eauto.
Qed.

Lemma document_kept_setdefault (cls : str) (v : pyval) (fo : dict) :
  document_kept fo (dict_setdefault cls v fo).
Proof.
  intros S w H. exists w. rewrite dict_get_setdefault, H.
  split; [reflexivity|]. destruct w; try reflexivity. apply section_kept_refl.
Qed.

Lemma document_kept_class (cls : str) (data data' fo : dict) :
  dict_get cls fo = Some (VDict data) -> section_kept data data' ->
  document_kept fo (dict_set cls (VDict data') fo).
Proof.
  intros Hcls Hkept S w H.
  destruct (list_eq_dec ascii_dec S cls) as [->|Hne].
  - rewrite dict_get_set_same. rewrite Hcls in H. injection H as <-.
    eexists. split; [reflexivity|exact Hkept].
  - rewrite dict_get_set_other by exact Hne.
    exists w. split; [exact H|]. destruct w; try reflexivity.
    apply section_kept_refl.
Qed.

Lemma _newClass_kept (self : config) (line : str) :
  document_kept (file_object self) (file_object (_newClass self line)).
Proof.
  unfold _newClass. destruct (negb _); simpl;
    [apply document_kept_setdefault|apply document_kept_refl].
Qed.

Lemma _newSubClass_kept (self self' : config) (line : str) :
  _newSubClass self line = Ok self' ->
  document_kept (file_object self) (file_object self').
Proof.
  unfold _newSubClass.
  destruct (_getClassSubClass line) as [|cls [|sub [|? ?]]]; try discriminate.
  assert (exists fo sc,
            (if negb (_classExists self cls)
             then (dict_setdefault cls (VDict []) (file_object self),
                   dict_set cls [] (subclasses self))
             else (file_object self, subclasses self)) = (fo, sc)
            /\ document_kept (file_object self) fo) as (fo & sc & -> & H1).
  { destruct (negb _); eexists; eexists; (split; [reflexivity|]);
      [apply document_kept_setdefault|apply document_kept_refl]. }
  destruct (dict_get cls sc); [|discriminate].
  destruct (dict_get cls fo) as [[| | | | | |data]|] eqn:Hd; try discriminate.
  intros [= <-]. simpl. eapply document_kept_trans; [exact H1|].
  eapply document_kept_class; [exact Hd|apply section_kept_setdefault].
Qed.

Lemma _newProperty_kept (self self' : config) (line : str) :
  _newProperty self line = Ok self' ->
  document_kept (file_object self) (file_object self').
Proof.
  unfold _newProperty.
  destruct (current_class self) as [[[cls sub] in_subclass]|];
    [|intros [= <-]; apply document_kept_refl].
  destruct (split1 "=" line) as [|key [|value [|? ?]]]; try discriminate.
  destruct (dict_get cls (file_object self)) as [[| | | | | |data]|] eqn:Hd;
    try (destruct in_subclass; discriminate).
  destruct in_subclass.
  - destruct sub as [subclass|]; [|discriminate].
    destruct (dict_get subclass data) as [[| | | | | |sub_data]|] eqn:Hsd;
      try discriminate.
    intros [= <-]. simpl. eapply document_kept_class; [exact Hd|].
    eapply section_kept_subclass; [exact Hsd|apply entries_kept_setdefault].
  - intros [= <-]. simpl. eapply document_kept_class; [exact Hd|].
    apply section_kept_setdefault.
Qed.

Lemma parse_line_kept (self self' : config) (line : str) :
  parse_line self line = Ok self' ->
  document_kept (file_object self) (file_object self').
Proof.
  rewrite parse_line_classify. destruct (classify line);
    try (intros [= <-]; apply document_kept_refl).
  - intros [= <-]. apply _newClass_kept.
  - apply _newSubClass_kept.
  - apply _newProperty_kept.
Qed.

(** X11.  Parsing never overwrites and never removes.  Whatever lines
    follow, every class stays in the document, and every entry of a class
    stays in the class: a value that is not a mapping stays as it is, and
    a mapping (a subclass, or an inline table that a later header turns
    into a subclass) keeps each of its entries with its value.  The first
    line that stores something is the one that counts, over the whole
    file. *)
Theorem X11_parsing_never_overwrites
        (lines : list str) (self self' : config) :
  parse_lines self lines = Ok self' ->
  document_kept (file_object self) (file_object self').
Proof.
  revert self. induction lines as [|line rest IH]; intros self; simpl.
  - intros [= <-]. apply document_kept_refl.
  - destruct (parse_line self line) as [self1|e] eqn:E; simpl; [|discriminate].
    intros H. eapply document_kept_trans; [|apply IH; exact H].
    eapply parse_line_kept. exact E.
Qed.

Lemma X11_parsing_never_overwrites_witness :
  exists self self',
    parse_lines init ["[a]" : str; "x = 1" : str; "[a.b]" : str; "y = 2" : str]
      = Ok self /\
    parse_lines self ["[c]" : str; "[a]" : str; "x = 9" : str;
                      "[a.b]" : str; "y = 8" : str; "z = 3" : str]
      = Ok self' /\
    document_kept (file_object self) (file_object self') /\
    get self' "a.x" = Ok (VInt 1) /\ get self' "a.b.y" = Ok (VInt 2).
Proof.
  eexists. eexists. split; [vm_compute; reflexivity|].
  split; [vm_compute; reflexivity|].
  split; [|split; vm_compute; reflexivity].
  apply (X11_parsing_never_overwrites
           ["[c]" : str; "[a]" : str; "x = 9" : str;
            "[a.b]" : str; "y = 8" : str; "z = 3" : str]).
  vm_compute. reflexivity.
Defined.

(* ================================================================== *)
(** ** Saving what construction returns *)

Lemma In_dict_get {V} (k : str) (v : V) (d : list (str * V)) :
  uniq_keys d = true -> In (k, v) d -> dict_get k d = Some v.
Proof.
  induction d as [|[k0 v0] d IH]; simpl; [contradiction|].
  intros Hu Hin. apply andb_true_iff in Hu. destruct Hu as [Hk0 Hu].
  apply negb_true_iff in Hk0. destruct Hin as [Hin|Hin].
  - injection Hin as -> ->. rewrite eqb_refl. reflexivity.
  - destruct (PyStr.eqb k k0) eqn:E; [|apply IH; assumption].
    apply eqb_eq in E. subst k0.
    pose proof (uniq_keys_not_in k d (k, v) Hk0 Hin) as Hne.
    contradiction Hne. reflexivity.
Qed.

Lemma class_of_indexed (self : config) (S K : str) :
  builder_inv self ->
  set_mem K (subclass_names self S) = true ->
  exists data, dict_get S (file_object self) = Some (VDict data).
Proof.
  intros (Hs & Hk & _) HK. unfold subclass_names in HK.
  destruct (dict_get S (subclasses self)) as [names|] eqn:E; [|discriminate].
  specialize (Hk S). unfold dict_mem in Hk. rewrite E in Hk.
  destruct (dict_get S (file_object self)) as [v|] eqn:Ev; [|discriminate].
  unfold sections_ok in Hs. rewrite forallb_Forall in Hs.
  pose proof (dict_get_Forall _ _ _ _ Hs Ev) as Hv. simpl in Hv.
  destruct v; try discriminate. eauto.
Qed.

(** X12.  The document that construction returns can be written back
    exactly when every recorded subclass is a mapping, that is when no
    subclass header has taken the name of a property whose value is not a
    mapping. *)
Theorem X12_saving_after_construction (file : option str) (self : config) :
  __init__ file = Ok self ->
  (savable self = true <->
   forall S K, set_mem K (subclass_names self S) = true ->
               subtable_entry_ok self S K = true).
Proof.
  intros Hinit. pose proof (__init___inv file self Hinit) as Hb.
  pose proof (__init___parsed file self Hinit) as Hp.
  split.
  - intros Hsave S K HK.
    destruct (class_of_indexed self S K Hb HK) as [data Hd].
    pose proof (indexed_is_present self S K data Hb Hd HK) as Hmem.
    unfold subtable_entry_ok. rewrite Hd. unfold dict_mem in Hmem.
    destruct (dict_get K data) as [w|] eqn:Ew; [|discriminate].
    unfold savable in Hsave. rewrite forallb_forall in Hsave.
    specialize (Hsave _ (dict_get_In _ _ _ Hd)). simpl in Hsave.
    rewrite forallb_forall in Hsave.
    assert (In (K, w) (subs_of (subclass_names self S) data)) as Hin.
    { unfold subs_of. apply filter_In. split; [|exact HK].
      apply dict_get_In. exact Ew. }
    specialize (Hsave _ Hin). simpl in Hsave.
    destruct w; try discriminate. reflexivity.
  - intros Hall. unfold savable. apply forallb_forall. intros [S v] He.
    unfold parsed_inv in Hp. apply andb_true_iff in Hp. destruct Hp as [Hp Hsec].
    apply andb_true_iff in Hp. destruct Hp as [_ Hu].
    pose proof (In_dict_get S v _ Hu He) as Hd.
    rewrite forallb_forall in Hsec. specialize (Hsec _ He). simpl in Hsec.
    unfold section_inv in Hsec. simpl in Hsec.
    apply andb_true_iff in Hsec. destruct Hsec as [_ Hsec].
    simpl. destruct v as [| | | | | |data]; try discriminate.
    apply andb_true_iff in Hsec. destruct Hsec as [Hud _].
    apply forallb_forall. intros [K w] Hsub.
    unfold subs_of in Hsub. apply filter_In in Hsub.
    destruct Hsub as [Hin HK]. simpl in HK.
    specialize (Hall S K HK). unfold subtable_entry_ok in Hall.
    rewrite Hd, (In_dict_get K w data Hud Hin) in Hall.
    simpl. destruct w; try discriminate. reflexivity.
Qed.

Lemma X12_saving_after_construction_witness :
  exists self,
    load ["[a]"; "b = 1"; "[a.b]"; "[c.d]"; "x = 2"] = Ok self /\
    savable self = false /\
    (savable self = true <->
     forall S K, set_mem K (subclass_names self S) = true ->
                 subtable_entry_ok self S K = true).
Proof.
  eexists. split; [vm_compute; reflexivity|]. split; [reflexivity|].
  apply (X12_saving_after_construction
           (Some (file_of ["[a]"; "b = 1"; "[a.b]"; "[c.d]"; "x = 2"]))).
  vm_compute. reflexivity.
Defined.

(** X13.  What [set] stores survives a restart.  When the document after
    [set] is one that the serializer writes and the parser reads back,
    [set] writes the file without fault, an object constructed from that
    file holds the same document, and [get] on the key returns the value
    there too. *)
Theorem X13_set_then_construct
        (self : config) (key : str) (value : pyval) :
  key <> "*" ->
  round_trippable (fst (set self key value)) = true ->
  exists out self',
    snd (set self key value) = Ok out /\
    __init__ (Some out) = Ok self' /\
    file_object self' = file_object (fst (set self key value)) /\
    get self' key = Ok value.
Proof.
  intros Hkey Hok.
  destruct (written_document_is_read_back _ Hok) as (out & self' & H1 & H2 & H3).
  exists out, self'. split; [exact H1|]. split; [exact H2|].
  split; [exact H3|].
  unfold get. rewrite H3, (not_star key Hkey). simpl.
  apply get_walk_set_walk. apply split_nonempty.
Qed.

Lemma X13_set_then_construct_witness :
  exists self out self',
    load ["[unit]"; "x = 5"; "[unit.test]"; "y = true"] = Ok self /\
    snd (set self "net.hosts" (VList [VStr "a"; VStr "b"])) = Ok out /\
    __init__ (Some out) = Ok self' /\
    get self' "net.hosts" = Ok (VList [VStr "a"; VStr "b"]) /\
    get self' "unit.test.y" = Ok (VBool true).
Proof.
  eexists.
  match goal with
  | |- exists out self', load ?l = Ok ?s /\ _ =>
      assert (load l = Ok s) as Hl by (vm_compute; reflexivity)
  end.
  match goal with
  | |- context [set ?s _ _] =>
      destruct (X13_set_then_construct s "net.hosts"
                  (VList [VStr "a"; VStr "b"]))
        as (out & self' & H1 & H2 & H3 & H4);
        [discriminate|vm_compute; reflexivity|]
  end.
  exists out, self'. split; [exact Hl|]. split; [exact H1|].
  split; [exact H2|]. split; [exact H4|].
  unfold get. rewrite H3. vm_compute. reflexivity.
Defined.

(* ================================================================== *)
(** ** The value codec *)

(** X14.  Decoding reads back what encoding writes: for every value of
    the supported grammar (a boolean, a non-negative integer, a float
    other than NaN, a string with no double quote at either end, a list
    of such scalars, an inline table of such scalars; no comma inside the
    strings and keys of lists and tables), [_convert_value] applied to
    the text that [_value_to_string] writes returns the value itself. *)
Theorem X14_decode_after_encode (v : pyval) :
  value_ok v = true -> _convert_value (_value_to_string v) = v.
Proof. apply convert_written. Qed.

Lemma X14_decode_after_encode_witness :
  _convert_value
    (_value_to_string
       (VDict [("host" : str, VStr "pico.local"); ("port" : str, VInt 8080);
               ("ratio" : str, VFloat (FFin true 25 (-1)));
               ("on" : str, VBool false)]))
  = VDict [("host" : str, VStr "pico.local"); ("port" : str, VInt 8080);
           ("ratio" : str, VFloat (FFin true 25 (-1)));
           ("on" : str, VBool false)].
Proof. apply X14_decode_after_encode. vm_compute. reflexivity. Defined.

(** X15.  What the decoder can return.  For every text on one line, the
    value of [_convert_value] is made, at every depth, of booleans,
    integers that are not negative (a text with a sign is never an
    integer), floats, strings that neither begin nor end with a double
    quote, lists, and tables with pairwise distinct keys; inside a list or
    a table no string holds a comma, and no key holds a comma or an equals
    sign or has a single quote at either end. *)
Theorem X15_decoded_values (value : str) :
  no_linebreak value = true ->
  decoded false (_convert_value value) = true.
Proof. apply _convert_value_decoded. Qed.

Lemma X15_decoded_values_witness :
  decoded false (_convert_value "[-3, 'a', {k = 1, k = 2}]") = true.
Proof. apply X15_decoded_values. reflexivity. Defined.

Lemma strip_strip (s : str) : strip (strip s) = strip s.
Proof. apply strip_trimmed. apply strip_by_is_trimmed. Qed.

(** X16.  White space around a text does not count: [_convert_value]
    returns for a text what it returns for the stripped text, so the
    [strip()] that its callers apply before the call changes nothing. *)
Theorem X16_decoding_ignores_outer_space (value : str) :
  _convert_value (strip value) = _convert_value value.
Proof.
  unfold _convert_value.
  rewrite (convert_fuel_enough (length (strip value)) (length value))
    by (pose proof (length_strip_by is_space value); unfold strip; lia).
  rewrite !convert_fuel_eq. cbv zeta. rewrite strip_strip. reflexivity.
Qed.

Lemma read_entries_no_none (conv : str -> pyval) (n : nat)
      (parts : list str) (result : dict) :
  (forall s, (length s <= n)%nat -> no_none (conv s) = true) ->
  Forall (fun part => (length part <= n)%nat) parts ->
  forallb (fun kv => no_none (snd kv)) result = true ->
  forallb (fun kv => no_none (snd kv))
          (fold_left (read_entry conv) parts result) = true.
Proof.
  intros Hconv Hparts. revert result.
  induction Hparts as [|part parts Hp _ IH]; intros result Hres; simpl;
    [exact Hres|].
  apply IH. unfold read_entry. destruct (contains "=" part); [|exact Hres].
  destruct (split1 "=" part) as [|k [|v [|? ?]]] eqn:Es; try exact Hres.
  apply forallb_Forall. apply dict_set_Forall;
    [apply forallb_Forall; exact Hres|].
  simpl. apply Hconv.
  pose proof (length_split1_piece _ _ _ _ Es).
  pose proof (length_strip_by is_space v). unfold strip. lia.
Qed.

(** The fuel is enough: with as much fuel as the text is long, the value
    that stands for exhausted fuel occurs nowhere in the result. *)
Lemma convert_fuel_no_none (fuel : nat) (value : str) :
  (length value <= fuel)%nat -> no_none (convert_fuel fuel value) = true.
Proof.
  revert value. induction fuel as [fuel IH] using lt_wf_ind.
  intros value Hlen. rewrite convert_fuel_eq. cbv zeta.
  set (rec := match fuel with
              | O => fun _ : str => VNone
              | S fuel' => convert_fuel fuel'
              end).
  pose proof (length_strip_by is_space value) as Hs.
  fold (strip value) in Hs.
  assert (strip value <> [] ->
          forall s, (length s < length (strip value))%nat ->
                    no_none (rec s) = true) as Hrec.
  { intros Hne s Hlt. unfold rec. destruct fuel as [|f]; [lia|].
    apply IH; lia. }
  destruct (PyStr.eqb (lower (strip value)) "true"
            || PyStr.eqb (lower (strip value)) "false"); [reflexivity|].
  destruct (isdigit (strip value)); [reflexivity|].
  destruct (float_of_str (strip value)); [reflexivity|].
  destruct (strip value) as [|c v] eqn:Ev; [reflexivity|].
  assert (c :: v <> []) as Hne by discriminate.
  specialize (Hrec Hne). pose proof (length_slice (c :: v) Hne) as Hsl.
  destruct (startswith "[" (c :: v) && endswith "]" (c :: v)).
  { simpl. apply forallb_forall. intros w Hw.
    apply in_map_iff in Hw. destruct Hw as (item & <- & Hitem).
    apply filter_In in Hitem. destruct Hitem as [Hitem _].
    apply length_split_piece in Hitem.
    pose proof (length_strip_by is_space item). unfold strip in *.
    apply Hrec. lia. }
  destruct (startswith "{" (c :: v) && endswith "}" (c :: v)); [|reflexivity].
  rewrite _parse_inline_dict_with_eq. cbv zeta.
  destruct (is_empty _); [reflexivity|].
  simpl no_none.
  apply read_entries_no_none with (n := length (slice_1_m1 (c :: v)));
    [|apply Forall_forall|reflexivity].
  - intros s Hle. apply Hrec. lia.
  - intros part Hpart. apply length_split_piece in Hpart.
    pose proof (length_strip_by is_space (slice_1_m1 (c :: v))).
    unfold strip in *. lia.
Qed.

Lemma dict_get_read_entry (conv : str -> pyval) (k : str) (result : dict)
      (part : str) :
  dict_get k (read_entry conv result part) =
  match entry_of part with
  | Some (k', t) => if PyStr.eqb k k' then Some (conv t) else dict_get k result
  | None => dict_get k result
  end.
Proof.
  unfold read_entry, entry_of. destruct (contains "=" part); [|reflexivity].
  destruct (split1 "=" part) as [|a [|b [|? ?]]]; try reflexivity.
  destruct (PyStr.eqb k (strip_char sq (strip_char dq (strip a)))) eqn:E.
  - apply eqb_eq in E. subst k. apply dict_get_set_same.
  - apply dict_get_set_other. apply eqb_neq. exact E.
Qed.

Lemma dict_get_read_entries (conv : str -> pyval) (k : str)
      (parts : list str) (result : dict) :
  dict_get k (fold_left (read_entry conv) parts result) =
  match last_text k parts with
  | Some t => Some (conv t)
  | None => dict_get k result
  end.
Proof.
  revert result. induction parts as [|part rest IH]; intros result;
    [reflexivity|].
  simpl. rewrite IH. destruct (last_text k rest); [reflexivity|].
  rewrite dict_get_read_entry.
  destruct (entry_of part) as [[k' t]|]; [|reflexivity].
  destruct (PyStr.eqb k k'); reflexivity.
Qed.

(** X18.  In an inline table the last entry wins.  [_parse_inline_dict]
    assigns the entries in order, so a key that occurs more than once
    keeps the decoded value of its last part (a property line, on the
    contrary, never replaces an earlier one); a part without equals sign
    is skipped, and a key that occurs in no part is absent. *)
Theorem X18_inline_table_last_entry_wins (value k : str) :
  dict_get k (_parse_inline_dict value) =
  match last_text k (inline_parts value) with
  | Some t => Some (_convert_value t)
  | None => None
  end.
Proof.
  unfold _parse_inline_dict, inline_parts.
  rewrite _parse_inline_dict_with_eq. cbv zeta.
  destruct (is_empty _); [reflexivity|].
  apply dict_get_read_entries.
Qed.

(* ================================================================== *)
(** ** The subclass index during construction *)

Lemma parse_line_index_grows (self self' : config) (line : str) (S K : str) :
  builder_inv self ->
  parse_line self line = Ok self' ->
  set_mem K (subclass_names self S) = true ->
  set_mem K (subclass_names self' S) = true.
Proof.
  intros Hb. pose proof Hb as (_ & Hkeys & _).
  rewrite parse_line_classify. destruct (classify line);
    try (intros [= <-]; auto; fail).
  - intros [= <-]. unfold _newClass, _classExists.
    destruct (dict_mem (slice_1_m1 line) (file_object self)) eqn:E; simpl;
      [auto|].
    unfold subclass_names. simpl.
    destruct (list_eq_dec ascii_dec S (slice_1_m1 line)) as [->|Hne].
    + specialize (Hkeys (slice_1_m1 line)). rewrite E in Hkeys.
      unfold dict_mem in Hkeys.
      destruct (dict_get (slice_1_m1 line) (subclasses self));
        [discriminate|]. discriminate.
    + rewrite dict_get_set_other by exact Hne. auto.
  - unfold _newSubClass.
    destruct (_getClassSubClass line) as [|cls [|sub [|? ?]]];
      try discriminate.
    assert (exists fo sc,
              (if negb (_classExists self cls)
               then (dict_setdefault cls (VDict []) (file_object self),
                     dict_set cls [] (subclasses self))
               else (file_object self, subclasses self)) = (fo, sc)
              /\ (set_mem K (subclass_names self S) = true ->
                  set_mem K match dict_get S sc with
                            | Some names => names
                            | None => []
                            end = true)) as (fo & sc & -> & H1).
    { unfold _classExists.
      destruct (dict_mem cls (file_object self)) eqn:E; simpl;
        eexists; eexists; (split; [reflexivity|]); [auto|].
      unfold subclass_names.
      destruct (list_eq_dec ascii_dec S cls) as [->|Hne].
      - specialize (Hkeys cls). rewrite E in Hkeys. unfold dict_mem in Hkeys.
        destruct (dict_get cls (subclasses self)); discriminate.
      - rewrite dict_get_set_other by exact Hne. auto. }
    destruct (dict_get cls sc) as [names|] eqn:Hn; [|discriminate].
    destruct (dict_get cls fo) as [[| | | | | |data]|]; try discriminate.
    intros [= <-] HK. specialize (H1 HK). unfold subclass_names. simpl.
    destruct (list_eq_dec ascii_dec S cls) as [->|Hne].
    + rewrite dict_get_set_same. rewrite Hn in H1.
      rewrite set_mem_add, H1. apply orb_true_r.
    + rewrite dict_get_set_other by exact Hne. exact H1.
  - unfold _newProperty.
    destruct (current_class self) as [[[cls sub] in_subclass]|];
      [|intros [= <-]; auto].
    destruct (split1 "=" line) as [|key [|value [|? ?]]]; try discriminate.
    destruct (dict_get cls (file_object self)) as [[| | | | | |data]|];
      try (destruct in_subclass; discriminate).
    destruct in_subclass.
    + destruct sub as [subclass|]; [|discriminate].
      destruct (dict_get subclass data) as [[| | | | | |sub_data]|];
        try discriminate.
      intros [= <-]. auto.
    + intros [= <-]. auto.
Qed.

Lemma parse_lines_index_grows (lines : list str) (self self' : config)
      (S K : str) :
  builder_inv self ->
  parse_lines self lines = Ok self' ->
  set_mem K (subclass_names self S) = true ->
  set_mem K (subclass_names self' S) = true.
Proof.
  revert self. induction lines as [|line rest IH]; intros self Hb; simpl.
  - intros [= <-]. auto.
  - destruct (parse_line self line) as [self1|e] eqn:E; simpl; [|discriminate].
    intros H HK. apply (IH self1); [eapply parse_line_inv; eauto|exact H|].
    eapply parse_line_index_grows; eauto.
Qed.

(** X19.  A recorded subclass stays recorded.  Once a header [[S.K]] has
    been read, [K] is in the index of [S] whatever lines follow: a class
    header for a class that exists does not reset the index of the class,
    and a subclass header only adds to it. *)
Theorem X19_recorded_subclasses_stay
        (before after : list str) (self self' : config) (S K : str) :
  parse_lines init before = Ok self ->
  parse_lines self after = Ok self' ->
  set_mem K (subclass_names self S) = true ->
  set_mem K (subclass_names self' S) = true.
Proof.
  intros H1 H2. eapply parse_lines_index_grows; [|exact H2].
  eapply parse_lines_inv; [apply builder_inv_init|exact H1].
Qed.

Lemma X19_recorded_subclasses_stay_witness :
  exists self self',
    parse_lines init ["[a.b]" : str; "x = 1" : str] = Ok self /\
    parse_lines self ["[a]" : str; "[c]" : str; "[a.d]" : str] = Ok self' /\
    set_mem "b" (subclass_names self' "a") = true.
Proof.
  eexists. eexists. split; [vm_compute; reflexivity|].
  split; [vm_compute; reflexivity|].
  eapply (X19_recorded_subclasses_stay
            ["[a.b]" : str; "x = 1" : str]
            ["[a]" : str; "[c]" : str; "[a.d]" : str]);
    [vm_compute; reflexivity|vm_compute; reflexivity|vm_compute; reflexivity].
Defined.

(** X20.  The shape of what construction returns: every entry at the top
    of the document is a mapping (a class), and the index has an entry,
    possibly empty, for exactly the classes of the document. *)
Theorem X20_classes_after_construction (file : option str) (self : config) :
  __init__ file = Ok self ->
  sections_ok self = true /\
  forall S, dict_mem S (subclasses self) = dict_mem S (file_object self).
Proof.
  intros H. destruct (__init___inv file self H) as (H1 & H2 & _). auto.
Qed.

Lemma X20_classes_after_construction_witness :
  exists self,
    load ["stray = 1"; "[a.b]"; "x = {k = 1}"; "[c]"] = Ok self /\
    sections_ok self = true /\
    forall S, dict_mem S (subclasses self) = dict_mem S (file_object self).
Proof.
  eexists. split; [vm_compute; reflexivity|].
  apply (X20_classes_after_construction
           (Some (file_of ["stray = 1"; "[a.b]"; "x = {k = 1}"; "[c]"]))).
  vm_compute. reflexivity.
Defined.
